(** * HissabBook API: OTP issuance, verification and identity creation

    A shallow embedding of [src/routes/otp.js], of the user service
    ([createUser], [assignRole], [findUserByEmail], [getUserRoles]) and of the
    [/create-user] handler of the auth routes, together with the properties
    the design document states about them.

    Further on come the [/register], [/login] and [/create-user-phone]
    handlers, the migration runner [migrate.js], and the image files of
    [utils/fileUpload.js] with the [/uploads] route of [app.js], each with
    properties read off the code.

    JavaScript strings are embedded as [string] (one [ascii] per code unit;
    characters outside ASCII are never digits, which is all the phone
    normaliser looks at).  Timestamps are [Z] milliseconds.  An [async]
    function is a tree of effects; [run] executes one to completion,
    [resume] executes it up to (and including) its next [await], and
    [interleave] lets two requests take turns at their awaits. *)

From Stdlib Require Import String Ascii List ZArith Bool Arith Lia DecimalString.
From Stdlib Require Import Sorted Permutation.
Import ListNotations.
Open Scope string_scope.

(** ** JavaScript values used by the routes *)

(** [new Error(message)]; the extra diagnostic properties the SMS sender
    attaches ([requestPayload], [responseData], ...) are only ever logged. *)
Record Error := mkError { message : string }.

(** How a call ends: with a value, or with a thrown [Error] (a rejected
    promise, for an [async] function). *)
Inductive completion (A : Type) : Type :=
| Normal (a : A)
| Thrown (e : Error).
Arguments Normal {A} a.
Arguments Thrown {A} e.

Definition string_of_nat (n : nat) : string :=
  NilZero.string_of_uint (Nat.to_uint n).

(** [x || d] on a string that may be [undefined]. *)
Definition or_else (x : option string) (d : string) : string :=
  match x with
  | Some (String c s) => String c s
  | _ => d
  end.

(** Truthiness of an optional string: [undefined] and the empty string
    are falsy. *)
Definition truthy (x : option string) : bool :=
  match x with
  | Some (String _ _) => true
  | _ => false
  end.

Definition is_digit (c : ascii) : bool :=
  let n := nat_of_ascii c in (48 <=? n)%nat && (n <=? 57)%nat.

(** [s.replace(/\D/g, ...)] with the empty string: every non-digit goes. *)
Fixpoint strip_non_digits (s : string) : string :=
  match s with
  | EmptyString => EmptyString
  | String c s' =>
      if is_digit c then String c (strip_non_digits s') else strip_non_digits s'
  end.

(** [s.startsWith(p)] *)
Definition startsWith (s p : string) : bool := String.prefix p s.

(** [s.substring(n)] *)
Definition substring_from (n : nat) (s : string) : string :=
  String.substring n (String.length s - n) s.

Definition upper_to_lower (c : ascii) : ascii :=
  let n := nat_of_ascii c in
  if (65 <=? n)%nat && (n <=? 90)%nat then ascii_of_nat (n + 32) else c.

(** [s.toLowerCase()], on the ASCII letters. *)
Fixpoint toLowerCase (s : string) : string :=
  match s with
  | EmptyString => EmptyString
  | String c s' => String (upper_to_lower c) (toLowerCase s')
  end.

(** [s.includes(p)] *)
Fixpoint includes (s p : string) : bool :=
  String.prefix p s ||
  match s with
  | EmptyString => false
  | String _ s' => includes s' p
  end.

(** [parts.join(sep)] *)
Definition join (sep : string) (parts : list string) : string :=
  String.concat sep parts.

(** ** Phone normaliser: [formatPhoneNumber] of [src/routes/otp.js] *)

Definition formatPhoneNumber (phone : string) : completion string :=
  let cleaned := strip_non_digits phone in
  if (String.length cleaned =? 0)%nat || (String.length cleaned <? 10)%nat then
    Thrown (mkError ("Invalid phone number format: " ++ phone
                     ++ ". Phone number is too short."))
  else
    let formatted :=
      if startsWith cleaned "0" && (String.length cleaned =? 11)%nat then
        Normal ("91" ++ substring_from 1 cleaned)
      else if (String.length cleaned =? 10)%nat then
        Normal ("91" ++ cleaned)
      else if startsWith cleaned "91" && (String.length cleaned =? 12)%nat then
        Normal cleaned
      else if (15 <? String.length cleaned)%nat then
        Thrown (mkError ("Invalid phone number format: " ++ phone
                         ++ ". Phone number is too long ("
                         ++ string_of_nat (String.length cleaned) ++ " digits)."))
      else Normal cleaned in
    match formatted with
    | Thrown e => Thrown e
    | Normal cleaned =>
        if (String.length cleaned <? 10)%nat || (15 <? String.length cleaned)%nat then
          Thrown (mkError ("Invalid phone number format: " ++ phone
                           ++ ". Expected 10-15 digits, got "
                           ++ string_of_nat (String.length cleaned)
                           ++ " after formatting."))
        else Normal cleaned
    end.

(** The normaliser as the design document words it, with [None] for
    [InvalidPhone].  It is compared with [formatPhoneNumber] below. *)
Module PhoneSpec.

Definition transform (d : string) : option string :=
  let n := String.length d in
  if (n <? 10)%nat then None
  else if (n =? 11)%nat && startsWith d "0" then Some ("91" ++ substring_from 1 d)
  else if (n =? 10)%nat then Some ("91" ++ d)
  else if (n =? 12)%nat && startsWith d "91" then Some d
  else if (15 <? n)%nat then None
  else Some d.

Definition normalize (raw : string) : option string :=
  match transform (strip_non_digits raw) with
  | None => None
  | Some r =>
      if (10 <=? String.length r)%nat && (String.length r <=? 15)%nat
      then Some r else None
  end.

End PhoneSpec.

Definition value_of {A} (c : completion A) : option A :=
  match c with
  | Normal a => Some a
  | Thrown _ => None
  end.

(** ** Tables of the relational store

    The migration files are not part of the sources; the columns are those
    the queries of the routes and of the user service name. *)

Record otp_row := {
  otp_id : nat;
  otp_phone : option string;
  otp_email : option string;
  otp_code : string;
  otp_expires_at : Z;
  otp_used : bool;
  otp_created_at : Z }.

Record user_row := {
  user_id : string;
  user_email : string;
  user_password_hash : string;
  user_status : string;
  user_created_at : Z;
  user_updated_at : Z;
  user_last_login_at : option Z }.

Record user_details_row := {
  ud_user_id : string;
  ud_first_name : option string;
  ud_last_name : option string;
  ud_phone : option string }.

Record role_row := {
  role_id : nat;
  role_name : string }.

Record database := {
  otp_codes : list otp_row;
  otp_codes_seq : nat;
  users : list user_row;
  user_details : list user_details_row;
  roles : list role_row;
  user_roles : list (string * nat) }.

Definition with_otp_codes (rows : list otp_row) (seq : nat) (d : database) : database :=
  {| otp_codes := rows; otp_codes_seq := seq; users := users d;
     user_details := user_details d; roles := roles d; user_roles := user_roles d |}.

Definition with_users (rows : list user_row) (d : database) : database :=
  {| otp_codes := otp_codes d; otp_codes_seq := otp_codes_seq d; users := rows;
     user_details := user_details d; roles := roles d; user_roles := user_roles d |}.

Definition with_user_details (rows : list user_details_row) (d : database) : database :=
  {| otp_codes := otp_codes d; otp_codes_seq := otp_codes_seq d; users := users d;
     user_details := rows; roles := roles d; user_roles := user_roles d |}.

Definition with_user_roles (rows : list (string * nat)) (d : database) : database :=
  {| otp_codes := otp_codes d; otp_codes_seq := otp_codes_seq d; users := users d;
     user_details := user_details d; roles := roles d; user_roles := rows |}.

(** ** The SQL statements of the sources, one constructor per statement text *)

Inductive query : Type -> Type :=
| Q_insert_otp_phone (phone code : string) (expires_at : Z) : query unit
| Q_insert_otp_email (email code : string) (expires_at : Z) : query unit
| Q_latest_otp_by_phone (phone : string) : query (list otp_row)
| Q_latest_otp_by_email (email : string) : query (list otp_row)
| Q_mark_otp_used (id : nat) : query unit
| Q_user_by_email (email : string) : query (list user_row)
| Q_insert_user (id email password_hash : string) : query user_row
| Q_upsert_user_details (user : string) (first_name last_name phone : option string)
    : query unit
| Q_role_by_name (name : string) : query (list role_row)
| Q_insert_user_role (user : string) (role : nat) : query unit
| Q_user_role_names (user : string) : query (list string)
| Q_touch_last_login (id : string) : query unit.

Definition opt_eqb (x : option string) (s : string) : bool :=
  match x with
  | Some y => (y =? s)
  | None => false
  end.

(** Modelled from the spec: the choice among rows with equal [created_at].
    This is [ORDER BY created_at DESC LIMIT 1] over rows kept in insertion
    order; the statement does not fix which of several newest rows comes
    first, and the OTP store of the design document breaks such ties by
    insertion order, the later row winning.  [latest_strictly_newest] below
    covers every resolution of ties. *)
Fixpoint latest (rows : list otp_row) : option otp_row :=
  match rows with
  | [] => None
  | r :: rest =>
      match latest rest with
      | None => Some r
      | Some r' => if (otp_created_at r' <? otp_created_at r)%Z then Some r else Some r'
      end
  end.

Definition rows_of {A} (x : option A) : list A :=
  match x with
  | Some a => [a]
  | None => []
  end.

(** [WHERE phone = $1] and [WHERE email = $1] *)
Definition phone_rows (phone : string) (d : database) : list otp_row :=
  filter (fun r => opt_eqb (otp_phone r) phone) (otp_codes d).

Definition email_rows (email : string) (d : database) : list otp_row :=
  filter (fun r => opt_eqb (otp_email r) email) (otp_codes d).

Definition latest_by_phone (phone : string) (d : database) : list otp_row :=
  rows_of (latest (phone_rows phone d)).

Definition latest_by_email (email : string) (d : database) : list otp_row :=
  rows_of (latest (email_rows email d)).

(** Modelled from the spec: the column defaults of [otp_codes] ([id] fresh,
    [used] false, [created_at] the time of the insert); the table
    definition is not part of the sources. *)
Definition fresh_otp (phone email : option string) (code : string) (expires_at now : Z)
    (d : database) : otp_row :=
  {| otp_id := otp_codes_seq d; otp_phone := phone; otp_email := email;
     otp_code := code; otp_expires_at := expires_at; otp_used := false;
     otp_created_at := now |}.

Definition insert_otp (phone email : option string) (code : string) (expires_at now : Z)
    (d : database) : database :=
  with_otp_codes
    (otp_codes d ++ [fresh_otp phone email code expires_at now d])%list
    (S (otp_codes_seq d)) d.

Definition set_used (r : otp_row) : otp_row :=
  {| otp_id := otp_id r; otp_phone := otp_phone r; otp_email := otp_email r;
     otp_code := otp_code r; otp_expires_at := otp_expires_at r; otp_used := true;
     otp_created_at := otp_created_at r |}.

(** [UPDATE public.otp_codes SET used = true WHERE id = $1] *)
Definition mark_used (id : nat) (d : database) : database :=
  with_otp_codes
    (map (fun r => if (otp_id r =? id)%nat then set_used r else r) (otp_codes d))
    (otp_codes_seq d) d.

Definition coalesce (x y : option string) : option string :=
  match x with
  | Some _ => x
  | None => y
  end.

Definition upsert_user_details (user : string) (fn ln ph : option string)
    (d : database) : database :=
  if existsb (fun r => ud_user_id r =? user) (user_details d) then
    with_user_details
      (map (fun r =>
              if ud_user_id r =? user then
                {| ud_user_id := ud_user_id r;
                   ud_first_name := coalesce fn (ud_first_name r);
                   ud_last_name := coalesce ln (ud_last_name r);
                   ud_phone := coalesce ph (ud_phone r) |}
              else r) (user_details d)) d
  else
    with_user_details
      (user_details d ++
       [{| ud_user_id := user; ud_first_name := fn; ud_last_name := ln;
           ud_phone := ph |}])%list d.

Definition touch_last_login (id : string) (now : Z) (d : database) : database :=
  with_users
    (map (fun u =>
            if user_id u =? id then
              {| user_id := user_id u; user_email := user_email u;
                 user_password_hash := user_password_hash u;
                 user_status := user_status u; user_created_at := user_created_at u;
                 user_updated_at := now; user_last_login_at := Some now |}
            else u) (users d)) d.

(** [INSERT INTO public.user_roles ... ON CONFLICT (user_id, role_id) DO NOTHING] *)
Definition insert_user_role (user : string) (role : nat) (d : database) : database :=
  if existsb (fun ur => (fst ur =? user) && (snd ur =? role)%nat) (user_roles d) then d
  else with_user_roles (user_roles d ++ [(user, role)])%list d.

Definition role_names_of (user : string) (d : database) : list string :=
  flat_map (fun ur =>
              if fst ur =? user then
                map role_name (filter (fun r => (role_id r =? snd ur)%nat) (roles d))
              else []) (user_roles d).

(** [WHERE email = $1] over [users] *)
Definition users_with_email (email : string) (d : database) : list user_row :=
  filter (fun u => user_email u =? email) (users d).

(** What the table definitions, which are not among the sources,
    contribute to the statements: whether [users.email] carries a unique
    constraint, and the default of [users.status]. *)
Record schema := {
  users_email_unique : bool;
  users_status_default : string }.

(** The effect of one statement on the store, at the store's clock [now]. *)
Definition exec (sc : schema) (now : Z) {X} (q : query X) (d : database)
    : completion X * database :=
  match q in query X return completion X * database with
  | Q_insert_otp_phone phone code expires_at =>
      (Normal tt, insert_otp (Some phone) None code expires_at now d)
  | Q_insert_otp_email email code expires_at =>
      (Normal tt, insert_otp None (Some email) code expires_at now d)
  | Q_latest_otp_by_phone phone => (Normal (latest_by_phone phone d), d)
  | Q_latest_otp_by_email email => (Normal (latest_by_email email d), d)
  | Q_mark_otp_used id => (Normal tt, mark_used id d)
  | Q_user_by_email email => (Normal (firstn 1 (users_with_email email d)), d)
  | Q_insert_user id email password_hash =>
      if users_email_unique sc && negb (length (users_with_email email d) =? 0)%nat then
        (Thrown (mkError "duplicate key value violates unique constraint"), d)
      else
        let u := {| user_id := id; user_email := email;
                    user_password_hash := password_hash;
                    user_status := users_status_default sc;
                    user_created_at := now; user_updated_at := now;
                    user_last_login_at := None |} in
        (Normal u, with_users (users d ++ [u])%list d)
  | Q_upsert_user_details user fn ln ph =>
      (Normal tt, upsert_user_details user fn ln ph d)
  | Q_role_by_name name =>
      (Normal (filter (fun r => role_name r =? name) (roles d)), d)
  | Q_insert_user_role user role => (Normal tt, insert_user_role user role d)
  | Q_user_role_names user => (Normal (role_names_of user d), d)
  | Q_touch_last_login id => (Normal tt, touch_last_login id now d)
  end.

(** ** Collaborators outside the process *)

(** Body of the request to the SMS gateway. *)
Record sms_payload := {
  route : string;
  variables_values : string;
  numbers : string;
  schedule_time : option string }.

Record http_response := {
  status : nat;
  text : string }.

(** [response.ok] *)
Definition ok (r : http_response) : bool :=
  (200 <=? status r)%nat && (status r <=? 299)%nat.

Inductive json_message :=
| Msg_array (parts : list string)
| Msg_string (s : string).

(** The properties of the gateway's JSON reply that [sendOtpSms] reads;
    [data_return] is the truthiness of [data.return]. *)
Record fast2sms_data := {
  data_return : bool;
  data_message : option json_message;
  data_status_code : option string;
  data_request_id : option string }.

(** [mailOptions]; the HTML and text bodies are fixed templates around
    the code and are not represented. *)
Record mail_options := {
  mail_from : string;
  mail_to : string;
  mail_subject : string;
  mail_code : string }.

(** Everything the handlers read but do not own. *)
Record environment := {
  process_env : string -> option string;
  tables : schema;
  (** [Some e]: the store rejects this statement with [e]. *)
  db_fault : forall X, query X -> option Error;
  (** [fetch(url, ...)] followed by [response.text()] *)
  fast2sms : string -> string -> sms_payload -> completion http_response;
  json_parse : string -> option fast2sms_data;
  (** [transporter.sendMail(mailOptions)], giving [info.messageId] *)
  smtp : mail_options -> completion string;
  hash_of : string -> string;
  (** the n-th value drawn by [uuidv4()] and by [generateOtpCode()] *)
  uuid_draw : nat -> string;
  code_draw : nat -> string }.

Record world := {
  db : database;
  js_clock : Z;
  db_clock : Z;
  uuids_drawn : nat;
  codes_drawn : nat;
  log : list string }.

Definition with_db (d : database) (w : world) : world :=
  {| db := d; js_clock := js_clock w; db_clock := db_clock w;
     uuids_drawn := uuids_drawn w; codes_drawn := codes_drawn w; log := log w |}.

Definition with_log (l : list string) (w : world) : world :=
  {| db := db w; js_clock := js_clock w; db_clock := db_clock w;
     uuids_drawn := uuids_drawn w; codes_drawn := codes_drawn w; log := l |}.

(** The clocks move between requests. *)
Definition at_time (js_now db_now : Z) (w : world) : world :=
  {| db := db w; js_clock := js_now; db_clock := db_now;
     uuids_drawn := uuids_drawn w; codes_drawn := codes_drawn w; log := log w |}.

(** ** Effects and [async] functions *)

(** What a handler asks of its surroundings.  The first four are awaited:
    the event loop may run another handler before the answer arrives. *)
Inductive effect : Type -> Type :=
| Await_pg {X} (q : query X) : effect (completion X)
| Await_fetch (url authorization : string) (body : sms_payload)
    : effect (completion http_response)
| Await_sendMail (m : mail_options) : effect (completion string)
| Await_hashPassword (plain : string) : effect string
| Date_now : effect Z
| Random_code : effect string
| Uuid_v4 : effect string
| Process_env (name : string) : effect (option string)
| JSON_parse (text : string) : effect (option fast2sms_data)
| Log_error (line : string) : effect unit.

Definition is_await {X} (e : effect X) : bool :=
  match e with
  | Await_pg _ | Await_fetch _ _ _ | Await_sendMail _ | Await_hashPassword _ => true
  | _ => false
  end.

Inductive prog (A : Type) : Type :=
| Ret (a : A)
| Vis {X : Type} (e : effect X) (k : X -> prog A).
Arguments Ret {A} a.
Arguments Vis {A X} e k.

Fixpoint bind {A B} (p : prog A) (f : A -> prog B) : prog B :=
  match p with
  | Ret a => f a
  | Vis e k => Vis e (fun x => bind (k x) f)
  end.

(** An [async] function: its effects, then a value or a thrown error. *)
Definition async (A : Type) : Type := prog (completion A).

Definition ret {A} (a : A) : async A := Ret (Normal a).

Definition throw {A} (e : Error) : async A := Ret (Thrown e).

Definition perform {X} (e : effect X) : async X :=
  Vis e (fun x => Ret (Normal x)).

Definition await {X} (e : effect (completion X)) : async X :=
  Vis e (fun x => Ret x).

Definition abind {A B} (p : async A) (f : A -> async B) : async B :=
  bind p (fun c => match c with
                   | Normal a => f a
                   | Thrown e => Ret (Thrown e)
                   end).

(** [try { p } catch (error) { h error }] *)
Definition try_catch {A} (p : async A) (h : Error -> async A) : async A :=
  bind p (fun c => match c with
                   | Normal a => Ret (Normal a)
                   | Thrown e => h e
                   end).

Declare Scope async_scope.
Delimit Scope async_scope with async.
Notation "x <- p ;; q" := (abind p (fun x => q))
  (at level 61, p at next level, right associativity) : async_scope.
Notation "p ;; q" := (abind p (fun _ => q))
  (at level 61, right associativity) : async_scope.
Open Scope async_scope.

(** One effect against the world. *)
Definition handle (E : environment) {X} (e : effect X) (w : world) : X * world :=
  match e in effect X return X * world with
  | Await_pg q =>
      match db_fault E _ q with
      | Some err => (Thrown err, w)
      | None => let (r, d) := exec (tables E) (db_clock w) q (db w) in (r, with_db d w)
      end
  | Await_fetch url authorization body => (fast2sms E url authorization body, w)
  | Await_sendMail m => (smtp E m, w)
  | Await_hashPassword plain => (hash_of E plain, w)
  | Date_now => (js_clock w, w)
  | Random_code =>
      (code_draw E (codes_drawn w),
       {| db := db w; js_clock := js_clock w; db_clock := db_clock w;
          uuids_drawn := uuids_drawn w; codes_drawn := S (codes_drawn w);
          log := log w |})
  | Uuid_v4 =>
      (uuid_draw E (uuids_drawn w),
       {| db := db w; js_clock := js_clock w; db_clock := db_clock w;
          uuids_drawn := S (uuids_drawn w); codes_drawn := codes_drawn w;
          log := log w |})
  | Process_env name => (process_env E name, w)
  | JSON_parse t => (json_parse E t, w)
  | Log_error line => (tt, with_log (log w ++ [line])%list w)
  end.

(** Run to completion, nothing else touching the world meanwhile. *)
Fixpoint run (E : environment) {A} (p : prog A) (w : world) : A * world :=
  match p with
  | Ret a => (a, w)
  | Vis e k => let (x, w') := handle E e w in run E (k x) w'
  end.

(** Run up to and including the next [await]: the slice of an [async]
    function that executes without yielding to the event loop. *)
Fixpoint resume (E : environment) {A} (p : prog A) (w : world) : prog A * world :=
  match p with
  | Ret a => (Ret a, w)
  | Vis e k =>
      let (x, w') := handle E e w in
      if is_await e then (k x, w') else resume E (k x) w'
  end.

(** Two requests in flight.  The schedule says whose slice runs next
    ([true]: the first); once it is exhausted the first request runs to
    completion, then the second. *)
Fixpoint interleave (E : environment) {A B} (schedule : list bool)
    (p : prog A) (q : prog B) (w : world) : A * B * world :=
  match schedule with
  | [] =>
      let (a, w1) := run E p w in
      let (b, w2) := run E q w1 in (a, b, w2)
  | true :: rest => let (p', w') := resume E p w in interleave E rest p' q w'
  | false :: rest => let (q', w') := resume E q w in interleave E rest p q' w'
  end.

(** ** Replies *)

(** Payload handed to [app.jwt.sign]; the signed token is represented by
    its claims. *)
Record jwt_claims := {
  claim_sub : string;
  claim_email : string;
  claim_status : string;
  claim_roles : list string;
  claim_role : string }.

Record user_view := {
  view_id : string;
  view_email : string;
  view_status : string;
  view_roles : list string;
  view_role : string;
  view_createdAt : option Z }.

Inductive payload :=
| Body_success
| Body_issued (expiresAt : Z)
| Body_message (msg : string)
| Body_session (token : jwt_claims) (user : user_view).

Record reply := {
  reply_code : nat;
  reply_body : payload }.

(** [reply.code(c).send(b)]; a bare [reply.send(b)] has [c = 200]. *)
Definition send (c : nat) (b : payload) : async reply :=
  ret {| reply_code := c; reply_body := b |}.

(** The framework around a handler: an error the handler lets escape is
    answered with status 500. *)
Definition serve (handler : async reply) : prog reply :=
  bind handler (fun c =>
    match c with
    | Normal r => Ret r
    | Thrown e => Ret {| reply_code := 500; reply_body := Body_message (message e) |}
    end).

(** ** Channel senders *)

Definition or_opt (x y : option string) : option string :=
  if truthy x then x else y.

(** [generateOtpCode]: [Math.floor(100000 + Math.random() * 900000)] is
    floating-point arithmetic on a random draw; the resulting string is
    taken from the environment ([code_draw]). *)
Definition generateOtpCode : async string := perform Random_code.

Definition message_text (m : json_message) : string :=
  match m with
  | Msg_array parts => join ", " parts
  | Msg_string s => s
  end.

Definition message_truthy (m : option json_message) : bool :=
  match m with
  | Some (Msg_array _) => true
  | Some (Msg_string s) => truthy (Some s)
  | None => false
  end.

(** [sendOtpSms] of [src/routes/otp.js] *)
Definition sendOtpSms (code phone : string) : async fast2sms_data :=
  apiKey <- perform (Process_env "FAST2SMS_API_KEY") ;;
  otpUrlEnv <- perform (Process_env "OTP_URL") ;;
  let otpUrl := or_else otpUrlEnv "https://www.fast2sms.com/dev/bulkV2" in
  scheduleTime <- perform (Process_env "FAST2SMS_SCHEDULE_TIME") ;;
  if negb (truthy apiKey) then throw (mkError "Fast2SMS API key missing")
  else
    formattedPhone <-
      match formatPhoneNumber phone with
      | Normal p => ret p
      | Thrown error =>
          throw (mkError ("Phone number validation failed: " ++ message error))
      end ;;
    let payload :=
      {| route := "otp"; variables_values := code; numbers := formattedPhone;
         schedule_time := if truthy scheduleTime then scheduleTime else None |} in
    response <- await (Await_fetch otpUrl (or_else apiKey EmptyString) payload) ;;
    let responseText := text response in
    parsed <- perform (JSON_parse responseText) ;;
    match parsed with
    | None =>
        throw (mkError ("Fast2SMS request failed with status "
                        ++ string_of_nat (status response) ++ ". Response: "
                        ++ String.substring 0 500 responseText))
    | Some data =>
        if negb (ok response) then
          let errorMessage :=
            if message_truthy (data_message data) then
              match data_message data with
              | Some m => message_text m
              | None => EmptyString
              end
            else if truthy (data_status_code data) then
              "Error code: " ++ or_else (data_status_code data) EmptyString
            else if truthy (data_request_id data) then
              "Request ID: " ++ or_else (data_request_id data) EmptyString
            else or_else (Some responseText) "Unknown error" in
          throw (mkError ("Fast2SMS request failed with status "
                          ++ string_of_nat (status response) ++ ": " ++ errorMessage))
        else if negb (data_return data) then
          throw (mkError ("Fast2SMS error: " ++
                          match data_message data with
                          | Some (Msg_array parts) => join ", " parts
                          | Some (Msg_string m) => or_else (Some m) "Unknown error"
                          | None => "Unknown error"
                          end))
        else ret data
    end.

(** [createTransporter] of the email utility, as far as it can fail. *)
Definition createTransporter : async unit :=
  u1 <- perform (Process_env "SMTP_USER") ;;
  u2 <- perform (Process_env "GMAIL_USER") ;;
  p1 <- perform (Process_env "SMTP_PASSWORD") ;;
  p2 <- perform (Process_env "GMAIL_APP_PASSWORD") ;;
  if negb (truthy (or_opt u1 u2)) || negb (truthy (or_opt p1 p2)) then
    throw (mkError "Gmail SMTP configuration missing. Please set SMTP_USER (or GMAIL_USER) and SMTP_PASSWORD (or GMAIL_APP_PASSWORD) environment variables.")
  else ret tt.

Definition dquote : string := String (ascii_of_nat 34) EmptyString.

(** [sendOtpEmail] of the email utility, giving [messageId] *)
Definition sendOtpEmail (code email : string) : async string :=
  u1 <- perform (Process_env "SMTP_USER") ;;
  u2 <- perform (Process_env "GMAIL_USER") ;;
  let smtpUser := or_opt u1 u2 in
  f1 <- perform (Process_env "SMTP_FROM_EMAIL") ;;
  f2 <- perform (Process_env "GMAIL_FROM_EMAIL") ;;
  let fromEmail := or_else (or_opt (or_opt f1 f2) smtpUser) "noreply@hissabbook.com" in
  if negb (truthy smtpUser) then
    throw (mkError "Gmail SMTP configuration missing. Please set SMTP_USER (or GMAIL_USER) environment variable.")
  else
    createTransporter ;;
    let mailOptions :=
      {| mail_from := dquote ++ "HissabBook" ++ dquote ++ " <" ++ fromEmail ++ ">";
         mail_to := email;
         mail_subject := "Your HissabBook OTP Code";
         mail_code := code |} in
    try_catch
      (await (Await_sendMail mailOptions))
      (fun error => throw (mkError ("Failed to send email: " ++ message error))).

(** ** User service *)

Definition pg {X} (q : query X) : async X := await (Await_pg q).

Definition findUserByEmail (email : string) : async (option user_row) :=
  rows <- pg (Q_user_by_email (toLowerCase email)) ;;
  ret (hd_error rows).

Definition getUserRoles (userId : string) : async (list string) :=
  pg (Q_user_role_names userId).

Definition assignRole (userId roleName : string) : async unit :=
  roleResult <- pg (Q_role_by_name roleName) ;;
  match roleResult with
  | [] => throw (mkError ("Role '" ++ roleName ++ "' not found"))
  | r :: _ => pg (Q_insert_user_role userId (role_id r))
  end.

Record new_user := {
  nu_email : string;
  nu_password : option string;
  nu_firstName : option string;
  nu_lastName : option string;
  nu_phone : option string;
  nu_role : string }.

Definition string_of_Z (z : Z) : string :=
  NilZero.string_of_int (Z.to_int z).

(** [x || null] *)
Definition or_null (x : option string) : option string :=
  if truthy x then x else None.

Definition hashPassword (plain : string) : async string :=
  perform (Await_hashPassword plain).

Definition createUser (a : new_user) : async user_row :=
  id <- perform Uuid_v4 ;;
  passwordHash <-
    (if truthy (nu_password a) then hashPassword (or_else (nu_password a) EmptyString)
     else
       salt <- perform Uuid_v4 ;;
       now <- perform Date_now ;;
       hashPassword (salt ++ string_of_Z now)) ;;
  user <- pg (Q_insert_user id (toLowerCase (nu_email a)) passwordHash) ;;
  (if truthy (nu_firstName a) || truthy (nu_lastName a) || truthy (nu_phone a)
      || includes (nu_email a) "@hissabbook.temp"
   then pg (Q_upsert_user_details (user_id user) (or_null (nu_firstName a))
              (or_null (nu_lastName a)) (or_null (nu_phone a)))
   else ret tt) ;;
  try_catch
    (assignRole (user_id user) (nu_role a))
    (fun error =>
       perform (Log_error ("Failed to assign role '" ++ nu_role a ++ "' to user "
                           ++ user_id user ++ ": " ++ message error))) ;;
  ret user.

(** ** Routes *)

Definition session_reply (c : nat) (u : user_row) (roles : list string)
    (createdAt : option Z) : async reply :=
  let primaryRole := or_else (hd_error roles) "managers" in
  send c (Body_session
            {| claim_sub := user_id u; claim_email := user_email u;
               claim_status := user_status u; claim_roles := roles;
               claim_role := primaryRole |}
            {| view_id := user_id u; view_email := user_email u;
               view_status := user_status u; view_roles := roles;
               view_role := primaryRole; view_createdAt := createdAt |}).

(** [POST /create-user] of the auth routes *)
Definition create_user_handler (email : string) : async reply :=
  existing <- findUserByEmail email ;;
  match existing with
  | Some existing =>
      pg (Q_touch_last_login (user_id existing)) ;;
      roles <- getUserRoles (user_id existing) ;;
      session_reply 200 existing roles None
  | None =>
      user <- createUser {| nu_email := email; nu_password := None;
                            nu_firstName := None; nu_lastName := None;
                            nu_phone := None; nu_role := "managers" |} ;;
      roles <- getUserRoles (user_id user) ;;
      session_reply 201 user roles (Some (user_created_at user))
  end.

Record verify_body := {
  vb_phone : option string;
  vb_email : option string;
  vb_code : string }.

(** The checks both verification handlers make on the selected rows. *)
Definition check_and_consume (rows : list otp_row) (code : string) : async reply :=
  match rows with
  | [] => send 400 (Body_message "OTP not found")
  | otp :: _ =>
      now <- perform Date_now ;;
      if otp_used otp then send 400 (Body_message "OTP already used")
      else if (now >? otp_expires_at otp)%Z then send 400 (Body_message "OTP expired")
      else if negb (otp_code otp =? code) then send 400 (Body_message "Invalid OTP")
      else
        pg (Q_mark_otp_used (otp_id otp)) ;;
        send 200 Body_success
  end.

Section OtpRoutes.

Variable OTP_TTL_MINUTES : Z.

(** [POST /request] *)
Definition request_handler (phone : string) : async reply :=
  code <- generateOtpCode ;;
  now <- perform Date_now ;;
  let expiresAt := (now + OTP_TTL_MINUTES * 60 * 1000)%Z in
  try_catch
    (sendOtpSms code phone ;;
     pg (Q_insert_otp_phone phone code expiresAt) ;;
     send 200 (Body_issued expiresAt))
    (fun error =>
       perform (Log_error "Failed to send OTP") ;;
       let errorMessage := or_else (Some (message error)) "Failed to send OTP" in
       send 500 (Body_message errorMessage)).

(** [POST /verify] *)
Definition verify_handler (b : verify_body) : async reply :=
  let phone := vb_phone b in
  let email := vb_email b in
  let code := vb_code b in
  if negb (truthy phone) && negb (truthy email) then
    send 400 (Body_message "Either phone or email is required")
  else
    try_catch
      (rows <-
         (if truthy phone then pg (Q_latest_otp_by_phone (or_else phone EmptyString))
          else pg (Q_latest_otp_by_email (toLowerCase (or_else email EmptyString)))) ;;
       check_and_consume rows code)
      (fun error =>
         perform (Log_error "Failed to verify OTP") ;;
         send 500 (Body_message "Failed to verify OTP")).

(** [POST /email/request] *)
Definition email_request_handler (email : string) : async reply :=
  code <- generateOtpCode ;;
  now <- perform Date_now ;;
  let expiresAt := (now + OTP_TTL_MINUTES * 60 * 1000)%Z in
  try_catch
    (sendOtpEmail code email ;;
     pg (Q_insert_otp_email (toLowerCase email) code expiresAt) ;;
     send 200 (Body_issued expiresAt))
    (fun error =>
       perform (Log_error "Failed to send email OTP") ;;
       let errorMessage := or_else (Some (message error)) "Failed to send OTP" in
       send 500 (Body_message errorMessage)).

(** [POST /email/verify] *)
Definition email_verify_handler (email code : string) : async reply :=
  try_catch
    (rows <- pg (Q_latest_otp_by_email (toLowerCase email)) ;;
     check_and_consume rows code)
    (fun error =>
       perform (Log_error "Failed to verify email OTP") ;;
       send 500 (Body_message "Failed to verify OTP")).

(** ** Vocabulary of the properties *)

(** The world once [generateOtpCode] has drawn its code. *)
Definition after_draw (w : world) : world :=
  {| db := db w; js_clock := js_clock w; db_clock := db_clock w;
     uuids_drawn := uuids_drawn w; codes_drawn := S (codes_drawn w); log := log w |}.

(** No statement is rejected by the store. *)
Definition store_available (E : environment) : Prop :=
  forall X (q : query X), db_fault E X q = None.

(** No stored code was created after the store's current time. *)
Definition created_in_past (w : world) : Prop :=
  Forall (fun r => (otp_created_at r <= db_clock w)%Z) (otp_codes (db w)).

(** [otp_codes.id] is a key, below the sequence that feeds it. *)
Definition ids_fresh (d : database) : Prop :=
  NoDup (map otp_id (otp_codes d)) /\
  Forall (fun r => otp_id r < otp_codes_seq d) (otp_codes d).

(** Exactly the record [otp] changed, from unused to used; nothing else
    in the store did. *)
Definition flips_only (otp : otp_row) (before after : database) : Prop :=
  otp_used otp = false /\
  exists l1 l2,
    otp_codes before = (l1 ++ otp :: l2)%list /\
    after = with_otp_codes (l1 ++ set_used otp :: l2)%list (otp_codes_seq before) before.

(** The order of the verifier's checks, read off the answer of [handler]
    when [found] is the latest record of the identity. *)
Definition ordered_checks (E : environment) (handler : prog reply)
    (found : option otp_row) (code : string) (w : world) : Prop :=
  let answer := fst (run E handler w) in
  let rejected msg := {| reply_code := 400; reply_body := Body_message msg |} in
  match found with
  | None => answer = rejected "OTP not found"
  | Some r =>
      (otp_used r = true -> answer = rejected "OTP already used") /\
      (otp_used r = false -> (js_clock w > otp_expires_at r)%Z ->
       answer = rejected "OTP expired") /\
      (otp_used r = false -> (js_clock w <= otp_expires_at r)%Z ->
       otp_code r <> code -> answer = rejected "Invalid OTP")
  end.

(** What a verification may do to the store: nothing unless it answers
    200, and then exactly one flip. *)
Definition verification_effect (E : environment) (handler : prog reply) (w : world)
    : Prop :=
  let (answer, w') := run E handler w in
  (reply_code answer <> 200 -> db w' = db w) /\
  (reply_code answer = 200 -> exists otp, flips_only otp (db w) (db w')).

(** In the world [w2], holding the second of two codes for an identity,
    presenting the first code is rejected and changes nothing, while the
    second, presented in time, is accepted. *)
Definition only_second_verifies (E : environment) (verify : string -> prog reply)
    (first second : string) (expiresAt : Z) (w2 : world) : Prop :=
  (first <> second ->
   forall t d, exists msg,
     run E (verify first) (at_time t d w2)
       = ({| reply_code := 400; reply_body := Body_message msg |}, at_time t d w2)) /\
  (forall t d, (t <= expiresAt)%Z ->
     fst (run E (verify second) (at_time t d w2))
       = {| reply_code := 200; reply_body := Body_success |}).

(** The identity id a session reply carries. *)
Definition reply_user_id (r : reply) : option string :=
  match reply_body r with
  | Body_session _ v => Some (view_id v)
  | _ => None
  end.

(** [minLength] of a route schema *)
Definition minLength (n : nat) (s : string) : bool := (n <=? String.length s)%nat.

(** The body schema of [POST /verify], but for the [format: "email"]
    keyword, which is the validator's own. *)
Definition verify_schema (b : verify_body) : bool :=
  match vb_phone b with
  | Some p => minLength 8 p
  | None => true
  end && minLength 4 (vb_code b).

Definition without_email (b : verify_body) : verify_body :=
  {| vb_phone := vb_phone b; vb_email := None; vb_code := vb_code b |}.

(** What the channel does with a given code and destination, whatever the
    state of the store. *)
Definition sms_outcome (E : environment) (code phone : string)
    (c : completion fast2sms_data) : Prop :=
  forall w, fst (run E (sendOtpSms code phone) w) = c.

Definition email_outcome (E : environment) (code email : string)
    (c : completion string) : Prop :=
  forall w, fst (run E (sendOtpEmail code email) w) = c.

(** [error.message || "Failed to send OTP"] *)
Definition send_failure (err : Error) : payload :=
  Body_message (or_else (Some (message err)) "Failed to send OTP").

(** In the world [issued], presenting [code] through [verify] no later than
    [expiresAt] succeeds and leaves the identity's latest record used; from
    then on presenting it again is answered "OTP already used" and changes
    nothing. *)
Definition verifies_exactly_once (E : environment) (verify : string -> prog reply)
    (latest_of : database -> option otp_row) (code : string) (expiresAt : Z)
    (issued : world) : Prop :=
  forall t1 d1, (t1 <= expiresAt)%Z ->
  exists w1 r,
    run E (verify code) (at_time t1 d1 issued)
      = ({| reply_code := 200; reply_body := Body_success |}, w1) /\
    latest_of (db w1) = Some r /\ otp_used r = true /\ otp_code r = code /\
    forall t2 d2,
      run E (verify code) (at_time t2 d2 w1)
        = ({| reply_code := 400; reply_body := Body_message "OTP already used" |},
           at_time t2 d2 w1).

(** What both verification handlers do once the statement selecting the
    latest record is fixed. *)
Definition lookup_then_check (q : query (list otp_row)) (code tag : string)
    : async reply :=
  try_catch
    (rows <- pg q ;;
     check_and_consume rows code)
    (fun error =>
       perform (Log_error tag) ;;
       send 500 (Body_message "Failed to verify OTP")).

(** The answer to a verification and the world it leaves, given the rows
    the lookup selected. *)
Definition checked (E : environment) (rows : list otp_row) (code tag : string)
    (w : world) : reply * world :=
  match rows with
  | [] => ({| reply_code := 400; reply_body := Body_message "OTP not found" |}, w)
  | otp :: _ =>
      if otp_used otp then
        ({| reply_code := 400; reply_body := Body_message "OTP already used" |}, w)
      else if (js_clock w >? otp_expires_at otp)%Z then
        ({| reply_code := 400; reply_body := Body_message "OTP expired" |}, w)
      else if negb (otp_code otp =? code) then
        ({| reply_code := 400; reply_body := Body_message "Invalid OTP" |}, w)
      else
        match db_fault E _ (Q_mark_otp_used (otp_id otp)) with
        | Some _ =>
            ({| reply_code := 500; reply_body := Body_message "Failed to verify OTP" |},
             with_log (log w ++ [tag])%list w)
        | None =>
            ({| reply_code := 200; reply_body := Body_success |},
             with_db (mark_used (otp_id otp) (db w)) w)
        end
  end.

Definition replied (c : nat) (b : payload) : reply :=
  {| reply_code := c; reply_body := b |}.

(** ** A sample deployment, for the examples *)

Definition accepted : fast2sms_data :=
  {| data_return := true; data_message := None; data_status_code := None;
     data_request_id := None |}.

Definition no_fault : forall X, query X -> option Error := fun _ _ => None.

(** The store rejects every write to [user_details]. *)
Definition profile_down : forall X, query X -> option Error :=
  fun _ q =>
    match q with
    | Q_upsert_user_details _ _ _ _ => Some (mkError "user_details is not writable")
    | _ => None
    end.

Definition deployment (unique : bool) (gateway : completion http_response)
    (mail : completion string) (fault : forall X, query X -> option Error)
    : environment :=
  {| process_env := fun name =>
       if (name =? "FAST2SMS_API_KEY") || (name =? "SMTP_USER")
          || (name =? "SMTP_PASSWORD")
       then Some "secret" else None;
     tables := {| users_email_unique := unique; users_status_default := "active" |};
     db_fault := fault;
     fast2sms := fun _ _ _ => gateway;
     json_parse := fun _ => Some accepted;
     smtp := fun _ => mail;
     hash_of := fun plain => "hash:" ++ plain;
     uuid_draw := fun n => "user-" ++ string_of_nat n;
     code_draw := fun n => nth n ["482913"; "907154"] "100000" |}.

Definition office : environment :=
  deployment true (Normal {| status := 200; text := "ok" |}) (Normal "message-1")
    no_fault.

Definition gateway_down : environment :=
  deployment true (Thrown (mkError "connect ECONNREFUSED"))
    (Thrown (mkError "connect ECONNREFUSED")) no_fault.

Definition fresh_start : world :=
  {| db := {| otp_codes := []; otp_codes_seq := 0; users := []; user_details := [];
              roles := [{| role_id := 1; role_name := "managers" |}];
              user_roles := [] |};
     js_clock := 2000; db_clock := 2000; uuids_drawn := 0; codes_drawn := 0;
     log := [] |}.

(** A store that already holds a consumed code for one phone and a
    pending one for an email, and has no roles defined. *)
Definition opening : world :=
  {| db := {| otp_codes :=
                [ {| otp_id := 0; otp_phone := Some "9876543210"; otp_email := None;
                     otp_code := "111111"; otp_expires_at := 1500; otp_used := true;
                     otp_created_at := 500 |};
                  {| otp_id := 1; otp_phone := None;
                     otp_email := Some "asha@example.com";
                     otp_code := "222222"; otp_expires_at := 1900; otp_used := false;
                     otp_created_at := 900 |} ];
              otp_codes_seq := 2; users := []; user_details := [];
              roles := []; user_roles := [] |};
     js_clock := 2000; db_clock := 2000; uuids_drawn := 0; codes_drawn := 0;
     log := [] |}.

Definition asha : new_user :=
  {| nu_email := "Asha@Example.com"; nu_password := None;
     nu_firstName := Some "Asha"; nu_lastName := None;
     nu_phone := Some "919876543210"; nu_role := "managers" |}.

(** ** What leaves the process *)

(** A message handed to a delivery provider. *)
Inductive call :=
| Call_fetch (url authorization : string) (body : sms_payload)
| Call_mail (m : mail_options).

Definition call_of {X} (e : effect X) : list call :=
  match e with
  | Await_fetch url authorization body => [Call_fetch url authorization body]
  | Await_sendMail m => [Call_mail m]
  | _ => []
  end.

(** The provider calls a run makes, in order. *)
Fixpoint outbound (E : environment) {A} (p : prog A) (w : world) : list call :=
  match p with
  | Ret _ => []
  | Vis e k => let (x, w') := handle E e w in (call_of e ++ outbound E (k x) w')%list
  end.

(** The request [sendOtpSms] builds for a normalised number. *)
Definition gateway_url (E : environment) : string :=
  or_else (process_env E "OTP_URL") "https://www.fast2sms.com/dev/bulkV2".

Definition gateway_key (E : environment) : string :=
  or_else (process_env E "FAST2SMS_API_KEY") EmptyString.

Definition gateway_payload (E : environment) (code digits : string) : sms_payload :=
  {| route := "otp"; variables_values := code; numbers := digits;
     schedule_time :=
       if truthy (process_env E "FAST2SMS_SCHEDULE_TIME")
       then process_env E "FAST2SMS_SCHEDULE_TIME" else None |}.

(** The mail [sendOtpEmail] builds. *)
Definition otp_mail (E : environment) (code email : string) : mail_options :=
  let smtpUser := or_opt (process_env E "SMTP_USER") (process_env E "GMAIL_USER") in
  let fromEmail :=
    or_else (or_opt (or_opt (process_env E "SMTP_FROM_EMAIL")
                       (process_env E "GMAIL_FROM_EMAIL")) smtpUser)
      "noreply@hissabbook.com" in
  {| mail_from := dquote ++ "HissabBook" ++ dquote ++ " <" ++ fromEmail ++ ">";
     mail_to := email;
     mail_subject := "Your HissabBook OTP Code";
     mail_code := code |}.

Definition smtp_user (E : environment) : option string :=
  or_opt (process_env E "SMTP_USER") (process_env E "GMAIL_USER").

Definition smtp_password (E : environment) : option string :=
  or_opt (process_env E "SMTP_PASSWORD") (process_env E "GMAIL_APP_PASSWORD").

(** ** More of the auth routes *)

Record register_body := {
  rb_email : string;
  rb_password : string;
  rb_firstName : option string;
  rb_lastName : option string;
  rb_phone : option string }.

(** [POST /register] *)
Definition register_handler (b : register_body) : async reply :=
  existing <- findUserByEmail (rb_email b) ;;
  match existing with
  | Some _ => send 409 (Body_message "Email already registered")
  | None =>
      user <- createUser {| nu_email := rb_email b;
                            nu_password := Some (rb_password b);
                            nu_firstName := or_null (rb_firstName b);
                            nu_lastName := or_null (rb_lastName b);
                            nu_phone := rb_phone b;
                            nu_role := "managers" |} ;;
      roles <- getUserRoles (user_id user) ;;
      session_reply 201 user roles (Some (user_created_at user))
  end.



(** The verification of a code through [/verify] by phone. *)
Definition verify_by_phone (phone code : string) : prog reply :=
  serve (verify_handler {| vb_phone := Some phone; vb_email := None; vb_code := code |}).

(** Replay a list of wrong guesses, each at its own time. *)
Fixpoint guesses (E : environment) (verify : string -> prog reply)
    (attempts : list (string * Z)) (w : world) : list reply * world :=
  match attempts with
  | [] => ([], w)
  | (guess, t) :: rest =>
      let (r, w1) := run E (verify guess) (at_time t (db_clock w) w) in
      let (rs, w2) := guesses E verify rest w1 in
      (r :: rs, w2)
  end.

(** ** Handlers that need more than the effects above

    [/create-user-phone] and [/login] select by phone and check a password;
    they are written as state transformers over the same world, the
    functions above entering through [task_of]. *)

Inductive more_query : Type -> Type :=
| Q_user_by_phone (phone : string) : more_query (list user_row).

(** [SELECT u.* FROM users u INNER JOIN user_details ud ON u.id = ud.user_id
    WHERE ud.phone = $1 LIMIT 1]; of several matches the one first in
    [users] is taken here, the statement leaving the choice open. *)
Definition users_with_phone (phone : string) (d : database) : list user_row :=
  filter (fun u =>
            existsb (fun r => (ud_user_id r =? user_id u) && opt_eqb (ud_phone r) phone)
              (user_details d)) (users d).

Definition exec_more {X} (q : more_query X) (d : database) : completion X * database :=
  match q in more_query X return completion X * database with
  | Q_user_by_phone phone => (Normal (firstn 1 (users_with_phone phone d)), d)
  end.

(** What these handlers use beyond [environment]: the password check of
    the password utility, which is not among the sources, and the store's
    faults on the statement above. *)
Record annex := {
  password_matches : string -> string -> bool;
  more_fault : forall X, more_query X -> option Error }.

Definition task (A : Type) : Type := world -> completion A * world.

Definition tret {A} (a : A) : task A := fun w => (Normal a, w).

Definition tbind {A B} (t : task A) (f : A -> task B) : task B :=
  fun w =>
    match t w with
    | (Normal a, w') => f a w'
    | (Thrown e, w') => (Thrown e, w')
    end.

Definition task_of (E : environment) {A} (p : async A) : task A := run E p.

Definition pg_more (S : annex) {X} (q : more_query X) : task X :=
  fun w =>
    match more_fault S _ q with
    | Some err => (Thrown err, w)
    | None => let (r, d) := exec_more q (db w) in (r, with_db d w)
    end.

(** [await verifyPassword(password, hash)] *)
Definition verifyPassword (S : annex) (password hash : string) : task bool :=
  tret (password_matches S password hash).

(** The framework around such a handler. *)
Definition tserve {A} (fallback : reply -> A) (handler : task A) (w : world) : A * world :=
  match handler w with
  | (Normal a, w') => (a, w')
  | (Thrown e, w') =>
      (fallback {| reply_code := 500; reply_body := Body_message (message e) |}, w')
  end.

Declare Scope task_scope.
Delimit Scope task_scope with task.
Notation "x <~ t ;; u" := (tbind t (fun x => u))
  (at level 61, t at next level, right associativity) : task_scope.
Open Scope task_scope.

Definition findUserByPhone (S : annex) (phone : string) : task (option user_row) :=
  rows <~ pg_more S (Q_user_by_phone phone) ;;
  tret (hd_error rows).

(** The phone formatting of [/create-user-phone]. *)
Definition formattedPhone_of (phone : string) : string :=
  let formattedPhone := strip_non_digits phone in
  if startsWith formattedPhone "0" && (String.length formattedPhone =? 11)%nat then
    "91" ++ substring_from 1 formattedPhone
  else if (String.length formattedPhone =? 10)%nat then "91" ++ formattedPhone
  else formattedPhone.

(** [POST /create-user-phone]; the second component of the answer is the
    [phone] property its user object carries when the user is new. *)
Definition create_user_phone_handler (E : environment) (S : annex) (phone : string)
    : task (reply * option string) :=
  let formattedPhone := formattedPhone_of phone in
  existing <~ findUserByPhone S formattedPhone ;;
  match existing with
  | Some existing =>
      _ <~ task_of E (pg (Q_touch_last_login (user_id existing))) ;;
      roles <~ task_of E (getUserRoles (user_id existing)) ;;
      r <~ task_of E (session_reply 200 existing roles None) ;;
      tret (r, None)
  | None =>
      let tempEmail := "phone_" ++ formattedPhone ++ "@hissabbook.temp" in
      user <~ task_of E (createUser {| nu_email := tempEmail; nu_password := None;
                                       nu_firstName := None; nu_lastName := None;
                                       nu_phone := Some formattedPhone;
                                       nu_role := "managers" |}) ;;
      roles <~ task_of E (getUserRoles (user_id user)) ;;
      r <~ task_of E (session_reply 201 user roles (Some (user_created_at user))) ;;
      tret (r, Some formattedPhone)
  end.

(** [POST /login] *)
Definition login_handler (E : environment) (S : annex) (email password : string)
    : task reply :=
  user <~ task_of E (findUserByEmail email) ;;
  match user with
  | None =>
      task_of E (send 401 (Body_message "Invalid email or password"))
  | Some user =>
      isValid <~ verifyPassword S password (user_password_hash user) ;;
      if negb isValid then
        task_of E (send 401 (Body_message "Invalid email or password"))
      else
        _ <~ task_of E (pg (Q_touch_last_login (user_id user))) ;;
        roles <~ task_of E (getUserRoles (user_id user)) ;;
        task_of E (session_reply 200 user roles None)
  end.

(** ** The migration runner: [migrate.js] *)

Record dir_entry := {
  entry_name : string;
  entry_isFile : bool }.

(** [s.endsWith(p)] *)
Definition endsWith (s p : string) : bool :=
  (String.length p <=? String.length s)%nat
  && (String.substring (String.length s - String.length p) (String.length p) s =? p).

Fixpoint insert_sorted (x : string) (l : list string) : list string :=
  match l with
  | [] => [x]
  | y :: rest => if String.leb x y then x :: y :: rest else y :: insert_sorted x rest
  end.

(** [names.sort()]: ascending by code units. *)
Definition sort_names (l : list string) : list string :=
  fold_right insert_sorted [] l.

(** [loadMigrationFiles], given what [fs.readdir] returned. *)
Definition loadMigrationFiles (entries : list dir_entry) : list string :=
  sort_names
    (map entry_name
       (filter (fun entry => entry_isFile entry && endsWith (entry_name entry) ".sql")
          entries)).

Inductive migration_event :=
| Skipping (file : string)
| Applying (file : string)
| Applied (file : string)
| Failed (file : string)
| Error_message (msg : string)
| All_applied.

(** The store as the runner sees it: the rows of [schema_migrations], the
    scripts committed so far (what a script does to the schema is its own
    matter), and what was printed. *)
Record migration_store := {
  schema_migrations : list string;
  committed : list string;
  console : list migration_event }.

(** The directory, the files' contents, and the error, if any, with which
    the store rejects a script after the scripts committed before it.  The
    runner's own statements (the [SELECT], [BEGIN], the [INSERT], [COMMIT],
    [ROLLBACK]) are taken to succeed. *)
Record migration_env := {
  directory : completion (list dir_entry);
  read_file : string -> completion string;
  script_error : string -> list string -> option Error }.

Definition printed (e : migration_event) (st : migration_store) : migration_store :=
  {| schema_migrations := schema_migrations st; committed := committed st;
     console := (console st ++ [e])%list |}.

(** The [for (const file of files)] loop of [runMigrations]. *)
Fixpoint apply_migrations (M : migration_env) (files : list string)
    (st : migration_store) : completion unit * migration_store :=
  match files with
  | [] => (Normal tt, st)
  | file :: rest =>
      if existsb (String.eqb file) (schema_migrations st) then
        apply_migrations M rest (printed (Skipping file) st)
      else
        match read_file M file with
        | Thrown error => (Thrown error, st)
        | Normal sql =>
            let st1 := printed (Applying file) st in
            match script_error M sql (committed st1) with
            | Some error =>
                (* ROLLBACK *)
                (Thrown error,
                 printed (Error_message (message error)) (printed (Failed file) st1))
            | None =>
                (* BEGIN; the script; the INSERT; COMMIT *)
                apply_migrations M rest
                  (printed (Applied file)
                     {| schema_migrations := (schema_migrations st1 ++ [file])%list;
                        committed := (committed st1 ++ [sql])%list;
                        console := console st1 |})
            end
        end
  end.

(** [runMigrations], from the connected client on. *)
Definition runMigrations (M : migration_env) (st : migration_store)
    : completion unit * migration_store :=
  match directory M with
  | Thrown error => (Thrown error, st)
  | Normal entries =>
      match apply_migrations M (loadMigrationFiles entries) st with
      | (Normal _, st') => (Normal tt, printed All_applied st')
      | (Thrown error, st') => (Thrown error, st')
      end
  end.

(** The files of a list that are not yet recorded. *)
Definition pending (files recorded : list string) : list string :=
  filter (fun file => negb (existsb (String.eqb file) recorded)) files.

(** ** More of the sample deployment *)

(** The store rejects every insert of a phone code. *)
Definition codes_down : forall X, query X -> option Error :=
  fun _ q =>
    match q with
    | Q_insert_otp_phone _ _ _ => Some (mkError "connection terminated unexpectedly")
    | _ => None
    end.

Definition store_flaky : environment :=
  deployment true (Normal {| status := 200; text := "ok" |}) (Normal "message-1")
    codes_down.

(** [opening] after a code was issued to the phone. *)
Definition waiting : world :=
  {| db := {| otp_codes :=
                (otp_codes (db opening)
                 ++ [ {| otp_id := 2; otp_phone := Some "9876543210"; otp_email := None;
                         otp_code := "482913"; otp_expires_at := 302000;
                         otp_used := false; otp_created_at := 2000 |} ])%list;
              otp_codes_seq := 3; users := []; user_details := [];
              roles := []; user_roles := [] |};
     js_clock := 2000; db_clock := 2000; uuids_drawn := 0; codes_drawn := 1;
     log := [] |}.

(** Password check against the hashes of [deployment]. *)
Definition office_annex : annex :=
  {| password_matches := fun password hash => hash =? ("hash:" ++ password);
     more_fault := fun _ _ => None |}.

Definition asha_registers : register_body :=
  {| rb_email := "Asha@Example.com"; rb_password := "s3cret-word";
     rb_firstName := Some "Asha"; rb_lastName := None; rb_phone := None |}.

(** A migrations directory with two scripts, a note and a folder. *)
Definition migrations_folder : list dir_entry :=
  [ {| entry_name := "002_users.sql"; entry_isFile := true |};
    {| entry_name := "README.md"; entry_isFile := true |};
    {| entry_name := "001_init.sql"; entry_isFile := true |};
    {| entry_name := "archive.sql"; entry_isFile := false |} ].

Definition migration_scripts (broken : bool) : migration_env :=
  {| directory := Normal migrations_folder;
     read_file := fun file => Normal ("-- " ++ file);
     script_error := fun sql _ =>
       if broken && (sql =? "-- 002_users.sql")
       then Some (mkError "syntax error at or near CREAT") else None |}.

Definition empty_store : migration_store :=
  {| schema_migrations := []; committed := []; console := [] |}.

(** ** Uploaded images: [utils/fileUpload.js] and [GET /uploads/:filename] *)

(** The [uploads] directory: file names with their contents.  A name is what
    the code joins to the directory's path. *)
Definition uploads := list (string * string).

Definition lookup_file (name : string) (files : uploads) : option string :=
  match find (fun f => fst f =? name) files with
  | Some f => Some (snd f)
  | None => None
  end.

Definition remove_file (name : string) (files : uploads) : uploads :=
  filter (fun f => negb (fst f =? name)) files.

Definition write_file (name content : string) (files : uploads) : uploads :=
  (name, content) :: remove_file name files.

(** What the disk and the runtime decide: [Buffer.from(data, "base64")],
    [Date.now()], [crypto.randomUUID()], and the errors, if any, with which
    [fs.mkdir], [fs.writeFile], [fs.readFile] and [fs.unlink] fail for other
    reasons than a missing file. *)
Record disk := {
  decode_base64 : string -> string;
  date_now : Z;
  randomUUID : string;
  mkdir_fault : option Error;
  write_fault : string -> option Error;
  read_fault : string -> option Error;
  unlink_fault : string -> option Error }.

Inductive fs_failure :=
| ENOENT
| Other_failure (e : Error).

(** [fs.readFile] of a name in the directory; the empty name and [.] are
    the directory itself. *)
Definition readFile (D : disk) (name : string) (files : uploads) : fs_failure + string :=
  if (name =? EmptyString) || (name =? ".") then
    inl (Other_failure (mkError "EISDIR: illegal operation on a directory, read"))
  else
    match read_fault D name with
    | Some e => inl (Other_failure e)
    | None =>
        match lookup_file name files with
        | Some content => inr content
        | None => inl ENOENT
        end
    end.

(** [fs.unlink] *)
Definition unlink (D : disk) (name : string) (files : uploads)
    : option fs_failure * uploads :=
  match unlink_fault D name with
  | Some e => (Some (Other_failure e), files)
  | None =>
      match lookup_file name files with
      | Some _ => (None, remove_file name files)
      | None => (Some ENOENT, files)
      end
  end.

(** The characters [.] does not match in a regular expression. *)
Definition line_terminator (c : ascii) : bool :=
  (nat_of_ascii c =? 10)%nat || (nat_of_ascii c =? 13)%nat.

Definition single_line (s : string) : bool :=
  forallb (fun c => negb (line_terminator c)) (list_ascii_of_string s).

(** The split of [s] at the last [sep] that still has text after it. *)
Fixpoint split_last (sep s : string) : option (string * string) :=
  match s with
  | EmptyString => None
  | String c rest =>
      match split_last sep rest with
      | Some (before, after) => Some (String c before, after)
      | None =>
          if String.prefix sep s && (String.length sep <? String.length s)%nat then
            Some (EmptyString, substring_from (String.length sep) s)
          else None
      end
  end.

(** [s.match(/^data:(.+);base64,(.+)$/)]: the two groups, the first one
    as long as it can be. *)
Definition match_data_url (s : string) : option (string * string) :=
  if startsWith s "data:" && single_line s then
    match split_last ";base64," (substring_from 5 s) with
    | Some (String c mimeType, data) => Some (String c mimeType, data)
    | _ => None
    end
  else None.

(** [s.split(sep)] for a one-character separator. *)
Fixpoint split_char (sep : ascii) (s : string) : list string :=
  match s with
  | EmptyString => [EmptyString]
  | String c rest =>
      if Ascii.eqb c sep then EmptyString :: split_char sep rest
      else
        match split_char sep rest with
        | first :: others => String c first :: others
        | [] => [String c EmptyString]
        end
  end.

Definition slash : ascii := ascii_of_nat 47.

Definition backslash : string := String (ascii_of_nat 92) EmptyString.

(** The name [saveImageToDisk] gives a new file. *)
Definition image_name (D : disk) (prefix extension : string) : string :=
  prefix ++ "-" ++ string_of_Z (date_now D) ++ "-" ++ randomUUID D ++ "." ++ extension.

(** [saveImageToDisk]; [None] is [null]. *)
Definition saveImageToDisk (D : disk) (base64String prefix : string) (files : uploads)
    : completion (option string) * uploads :=
  if negb (truthy (Some base64String)) then (Normal None, files)
  else
    match match_data_url base64String with
    | None =>
        if truthy (Some base64String) && negb (includes base64String "/")
           && negb (includes base64String "..")
        then (Normal (Some base64String), files)
        else (Thrown (mkError "Invalid image format. Expected data URL or filename."),
              files)
    | Some (mimeType, data) =>
        if negb (startsWith mimeType "image/") then
          (Thrown (mkError "Invalid file type. Only images are allowed."), files)
        else
          let buffer := decode_base64 D data in
          let extension := or_else (nth_error (split_char slash mimeType) 1) "png" in
          let fileName := image_name D prefix extension in
          match mkdir_fault D with
          | Some e => (Thrown e, files)
          | None =>
              match write_fault D fileName with
              | Some e => (Thrown e, files)
              | None => (Normal (Some fileName), write_file fileName buffer files)
              end
          end
    end.

(** [deleteImageFromDisk] *)
Definition deleteImageFromDisk (D : disk) (fileName : string) (files : uploads)
    : bool * uploads :=
  if negb (truthy (Some fileName)) then (false, files)
  else
    match unlink D fileName files with
    | (None, files') => (true, files')
    | (Some _, files') => (false, files')
    end.

(** [path.extname(name)] for a name without [/]: from the last dot on,
    unless that dot starts the name or the name is [..]. *)
Fixpoint from_last_dot (s : string) : option string :=
  match s with
  | EmptyString => None
  | String c rest =>
      match from_last_dot rest with
      | Some e => Some e
      | None => if (nat_of_ascii c =? 46)%nat then Some s else None
      end
  end.

Definition extname (name : string) : string :=
  match name with
  | EmptyString => EmptyString
  | String _ rest =>
      if name =? ".." then EmptyString
      else match from_last_dot rest with
           | Some e => e
           | None => EmptyString
           end
  end.

Definition contentTypeMap (ext : string) : option string :=
  if ext =? ".png" then Some "image/png"
  else if ext =? ".jpg" then Some "image/jpeg"
  else if ext =? ".jpeg" then Some "image/jpeg"
  else if ext =? ".gif" then Some "image/gif"
  else if ext =? ".webp" then Some "image/webp"
  else None.

Inductive upload_reply :=
| Sent (contentType content : string)
| Refused (code : Z) (msg : string).

(** [GET /uploads/:filename] of [app.js] *)
Definition uploads_handler (D : disk) (filename : string) (files : uploads)
    : upload_reply :=
  if includes filename ".." || includes filename "/" || includes filename backslash then
    Refused 400 "Invalid filename"
  else
    match readFile D filename files with
    | inr fileBuffer =>
        let ext := toLowerCase (extname filename) in
        Sent (or_else (contentTypeMap ext) "application/octet-stream") fileBuffer
    | inl ENOENT => Refused 404 "File not found"
    | inl (Other_failure _) => Refused 500 "Failed to serve file"
    end.

(** [s.trim()], on the white space a byte string can hold. *)
Definition white_space (c : ascii) : bool :=
  let n := nat_of_ascii c in
  ((9 <=? n)%nat && (n <=? 13)%nat) || (n =? 32)%nat || (n =? 160)%nat.

Definition blank (s : string) : bool :=
  forallb white_space (list_ascii_of_string s).

(** The image step of [PUT /account-details] for a [upiQrCode] that is a
    string: the stored file name [qrCodeFilename] and the disk afterwards,
    or the error with which the handler answers 400. *)
Definition replace_qr_code (D : disk) (qrCodeFilename : option string)
    (upiQrCode : string) (files : uploads)
    : completion (option string) * uploads :=
  if truthy (Some upiQrCode) && negb (blank upiQrCode) then
    let files1 :=
      if truthy qrCodeFilename
      then snd (deleteImageFromDisk D (or_else qrCodeFilename EmptyString) files)
      else files in
    saveImageToDisk D upiQrCode "qr-code" files1
  else if upiQrCode =? EmptyString then
    if truthy qrCodeFilename
    then (Normal None, snd (deleteImageFromDisk D (or_else qrCodeFilename EmptyString) files))
    else (Normal (or_null qrCodeFilename), files)
  else (Normal (or_null qrCodeFilename), files).

(** Letters, digits, hyphen and underscore: what a file-name prefix and a
    UUID are made of. *)
Definition plain_char (c : ascii) : bool :=
  let n := nat_of_ascii c in
  ((48 <=? n)%nat && (n <=? 57)%nat) || ((65 <=? n)%nat && (n <=? 90)%nat)
  || ((97 <=? n)%nat && (n <=? 122)%nat) || (n =? 45)%nat || (n =? 95)%nat.

Definition plain (s : string) : bool :=
  forallb plain_char (list_ascii_of_string s).

(** The base64 alphabet, with its padding. *)
Definition base64_char (c : ascii) : bool :=
  let n := nat_of_ascii c in
  ((48 <=? n)%nat && (n <=? 57)%nat) || ((65 <=? n)%nat && (n <=? 90)%nat)
  || ((97 <=? n)%nat && (n <=? 122)%nat) || (n =? 43)%nat || (n =? 47)%nat
  || (n =? 61)%nat.

Definition base64_text (s : string) : bool :=
  forallb base64_char (list_ascii_of_string s).

(** The image subtypes whose extension [contentTypeMap] knows, with the
    content type it gives them. *)
Definition image_types : list (string * string) :=
  [ ("png", "image/png"); ("jpg", "image/jpeg"); ("jpeg", "image/jpeg");
    ("gif", "image/gif"); ("webp", "image/webp") ].

(** A disk without faults. *)
Definition office_disk : disk :=
  {| decode_base64 := fun data => "decoded:" ++ data;
     date_now := 1700000000000;
     randomUUID := "3f2a9c1e-7b4d-4e2a-9f10-5c6d7e8f9a0b";
     mkdir_fault := None;
     write_fault := fun _ => None;
     read_fault := fun _ => None;
     unlink_fault := fun _ => None |}.

(** ** Codes that other identities request later *)

(** A later request for a code, with the times at which it runs. *)
Inductive issue :=
| Issue_phone (phone : string) (t d : Z)
| Issue_email (email : string) (t d : Z).

Definition issue_run (E : environment) (i : issue) (w : world) : world :=
  match i with
  | Issue_phone phone t d => snd (run E (serve (request_handler phone)) (at_time t d w))
  | Issue_email email t d =>
      snd (run E (serve (email_request_handler email)) (at_time t d w))
  end.

(** The world after a list of such requests, one after the other. *)
Definition issues (E : environment) (later : list issue) (w : world) : world :=
  fold_left (fun w i => issue_run E i w) later w.

(** The request is for another identity than the phone. *)
Definition other_than_phone (phone : string) (i : issue) : Prop :=
  match i with
  | Issue_phone other _ _ => other <> phone
  | Issue_email _ _ _ => True
  end.

(** The request is for another identity than the address. *)
Definition other_than_email (email : string) (i : issue) : Prop :=
  match i with
  | Issue_phone _ _ _ => True
  | Issue_email other _ _ => toLowerCase other <> toLowerCase email
  end.

(** * Properties *)

(** ** Strings *)

Lemma length_append (s t : string) :
  String.length (s ++ t) = String.length s + String.length t.
Proof.
  induction s as [|c s IH]; simpl; [reflexivity | now rewrite IH].
Qed.

Lemma substring_all (s : string) : String.substring 0 (String.length s) s = s.
Proof.
  induction s as [|c s IH]; simpl; [reflexivity | now rewrite IH].
Qed.

Lemma substring_from_tail (c : ascii) (s : string) :
  substring_from 1 (String c s) = s.
Proof.
  unfold substring_from. simpl. rewrite Nat.sub_0_r. apply substring_all.
Qed.

Lemma length_substring_from_1 (s : string) :
  String.length (substring_from 1 s) = String.length s - 1.
Proof.
  destruct s as [|c s]; [reflexivity|].
  rewrite substring_from_tail. simpl. lia.
Qed.

Lemma strip_non_digits_digits (s : string) :
  forallb is_digit (list_ascii_of_string (strip_non_digits s)) = true.
Proof.
  induction s as [|c s IH]; simpl; [reflexivity|].
  destruct (is_digit c) eqn:Hc; simpl; [rewrite Hc|]; exact IH.
Qed.

(** ** Phone normaliser *)

Ltac decide_test t b :=
  replace t with b
    by (symmetry;
        first [ apply Nat.eqb_neq | apply Nat.eqb_eq | apply Nat.ltb_lt
              | apply Nat.ltb_ge | apply Nat.leb_le | apply Nat.leb_gt ]; lia).

(** C6. On every raw phone string [formatPhoneNumber] returns what the
    design document's case analysis returns: non-digits stripped; fewer than
    10 digits rejected; 11 digits with a leading zero get the zero replaced
    by 91; 10 digits get 91 prepended; 12 digits starting with 91 are kept;
    more than 15 digits rejected; and a result is accepted exactly when it
    has 10 to 15 digits, every other input being rejected. *)
Theorem formatPhoneNumber_refines_spec (raw : string) :
  value_of (formatPhoneNumber raw) = PhoneSpec.normalize raw.
Proof.
  unfold formatPhoneNumber, PhoneSpec.normalize, PhoneSpec.transform.
  set (d := strip_non_digits raw).
  destruct (Nat.ltb_spec (String.length d) 10) as [Hshort|Hlong].
  - rewrite orb_true_r. reflexivity.
  - decide_test (String.length d =? 0)%nat false.
    cbn [orb].
    rewrite (andb_comm (startsWith d "0")), (andb_comm (startsWith d "91")).
    destruct (Nat.eqb_spec (String.length d) 11) as [H11|H11].
    + destruct (startsWith d "0") eqn:H0; cbn [andb].
      * rewrite length_append, length_substring_from_1, H11. reflexivity.
      * decide_test (String.length d =? 10)%nat false.
        decide_test (String.length d =? 12)%nat false.
        decide_test (15 <? String.length d)%nat false.
        cbn [andb value_of].
        decide_test (String.length d <? 10)%nat false.
        decide_test (15 <? String.length d)%nat false.
        decide_test (10 <=? String.length d)%nat true.
        decide_test (String.length d <=? 15)%nat true.
        reflexivity.
    + cbn [andb].
      destruct (Nat.eqb_spec (String.length d) 10) as [H10|H10].
      * rewrite length_append, H10. reflexivity.
      * destruct ((String.length d =? 12)%nat && startsWith d "91") eqn:H12.
        -- apply andb_true_iff in H12. destruct H12 as [H12 _].
           apply Nat.eqb_eq in H12. rewrite H12. reflexivity.
        -- destruct (Nat.ltb_spec 15 (String.length d)) as [Hbig|Hfit];
             [reflexivity|].
           cbn [value_of].
           decide_test (String.length d <? 10)%nat false.
           decide_test (15 <? String.length d)%nat false.
           decide_test (10 <=? String.length d)%nat true.
           decide_test (String.length d <=? 15)%nat true.
           reflexivity.
Qed.

(** For every input of exactly ten digits the result is 91 followed by
    the input. *)
Lemma formatPhoneNumber_ten_digits (d : string) :
  forallb is_digit (list_ascii_of_string d) = true ->
  String.length d = 10 ->
  formatPhoneNumber d = Normal ("91" ++ d).
Proof.
  intros Hd Hlen.
  assert (Hs : strip_non_digits d = d).
  { clear Hlen. induction d as [|c d IH]; [reflexivity|].
    simpl in Hd. apply andb_true_iff in Hd. destruct Hd as [Hc Hd].
    simpl. rewrite Hc, (IH Hd). reflexivity. }
  unfold formatPhoneNumber. rewrite Hs, Hlen.
  cbn [Nat.eqb Nat.ltb Nat.leb orb andb]. rewrite andb_false_r.
  rewrite length_append, Hlen. reflexivity.
Qed.

Example formatPhoneNumber_ten :
  formatPhoneNumber "9876543210" = Normal "919876543210".
Proof. reflexivity. Qed.

Example formatPhoneNumber_zero :
  formatPhoneNumber "098765-43210" = Normal "919876543210".
Proof. reflexivity. Qed.

Example formatPhoneNumber_plus :
  formatPhoneNumber "+91 98765 43210" = Normal "919876543210".
Proof. reflexivity. Qed.

Example formatPhoneNumber_short :
  value_of (formatPhoneNumber "12345") = None.
Proof. reflexivity. Qed.

Example formatPhoneNumber_long :
  value_of (formatPhoneNumber "1234567890123456") = None.
Proof. reflexivity. Qed.

(** ** Running [async] functions *)

Lemma run_bind E {A B} (p : prog A) (f : A -> prog B) (w : world) :
  run E (bind p f) w = let (a, w') := run E p w in run E (f a) w'.
Proof.
  revert w. induction p as [a|X e k IH]; intros w; simpl; [reflexivity|].
  destruct (handle E e w) as [x w']. apply IH.
Qed.

Lemma run_abind E {A B} (p : async A) (f : A -> async B) (w : world) :
  run E (abind p f) w =
  match run E p w with
  | (Normal a, w') => run E (f a) w'
  | (Thrown e, w') => (Thrown e, w')
  end.
Proof.
  unfold abind. rewrite run_bind.
  destruct (run E p w) as [[a|e] w']; reflexivity.
Qed.

Lemma run_try_catch E {A} (p : async A) (h : Error -> async A) (w : world) :
  run E (try_catch p h) w =
  match run E p w with
  | (Normal a, w') => (Normal a, w')
  | (Thrown e, w') => run E (h e) w'
  end.
Proof.
  unfold try_catch. rewrite run_bind.
  destruct (run E p w) as [[a|e] w']; reflexivity.
Qed.

Lemma run_serve E (h : async reply) (w : world) :
  run E (serve h) w =
  match run E h w with
  | (Normal r, w') => (r, w')
  | (Thrown e, w') => (replied 500 (Body_message (message e)), w')
  end.
Proof.
  unfold serve. rewrite run_bind.
  destruct (run E h w) as [[r|e] w']; reflexivity.
Qed.

Lemma run_pg E {X} (q : query X) (w : world) :
  run E (pg q) w =
  match db_fault E X q with
  | Some err => (Thrown err, w)
  | None => let (r, d) := exec (tables E) (db_clock w) q (db w) in (r, with_db d w)
  end.
Proof.
  unfold pg, await. cbn [run handle].
  destruct (db_fault E X q); [reflexivity|].
  destruct (exec (tables E) (db_clock w) q (db w)). reflexivity.
Qed.

Ltac break_match :=
  match goal with
  | |- context [match ?x with _ => _ end] => destruct x eqn:?
  end.

(** The senders only talk to the outside: they leave the world as it is,
    and their outcome does not depend on it. *)
Lemma sendOtpSms_stateless E (code phone : string) (w w' : world) :
  run E (sendOtpSms code phone) w = (fst (run E (sendOtpSms code phone) w'), w).
Proof.
  unfold sendOtpSms, abind, perform, await, throw, ret.
  cbn [run handle bind fst].
  repeat (break_match; cbn [run handle bind fst]); reflexivity.
Qed.

Lemma sendOtpEmail_stateless E (code email : string) (w w' : world) :
  run E (sendOtpEmail code email) w = (fst (run E (sendOtpEmail code email) w'), w).
Proof.
  unfold sendOtpEmail, createTransporter, try_catch, abind, perform, await, throw, ret.
  cbn [run handle bind fst].
  repeat (break_match; cbn [run handle bind fst]); reflexivity.
Qed.

(** ** The latest record of an identity *)

Lemma latest_In (l : list otp_row) (r : otp_row) : latest l = Some r -> In r l.
Proof.
  revert r. induction l as [|x l IH]; intros r H; simpl in H; [discriminate|].
  destruct (latest l) as [r'|].
  - destruct (otp_created_at r' <? otp_created_at x)%Z;
      injection H as <-; [now left | right; now apply IH].
  - injection H as <-. now left.
Qed.

Lemma latest_newest (l : list otp_row) (r : otp_row) :
  latest l = Some r -> Forall (fun x => (otp_created_at x <= otp_created_at r)%Z) l.
Proof.
  revert r. induction l as [|x l IH]; intros r H; [constructor|].
  simpl in H. destruct (latest l) as [r'|] eqn:Hl.
  - specialize (IH r' eq_refl).
    destruct (Z.ltb_spec (otp_created_at r') (otp_created_at x)); injection H as <-.
    + constructor; [lia|]. eapply Forall_impl; [|exact IH]. simpl. intros; lia.
    + constructor; [lia | exact IH].
  - injection H as <-. destruct l; [|simpl in Hl; destruct (latest l); [destruct (_ <? _)%Z|]; discriminate].
    constructor; [lia | constructor].
Qed.

(** A record strictly newer than all others is the one selected, however
    ties among the others are resolved. *)
Lemma latest_strictly_newest (l1 l2 : list otp_row) (r : otp_row) :
  Forall (fun x => (otp_created_at x < otp_created_at r)%Z) (l1 ++ l2) ->
  latest (l1 ++ r :: l2) = Some r.
Proof.
  intros H. apply Forall_app in H. destruct H as [H1 H2].
  assert (Hr : latest (r :: l2) = Some r).
  { simpl. destruct (latest l2) as [r'|] eqn:Hl; [|reflexivity].
    apply latest_In in Hl. rewrite Forall_forall in H2. specialize (H2 _ Hl).
    destruct (Z.ltb_spec (otp_created_at r') (otp_created_at r)); [reflexivity | lia]. }
  induction H1 as [|x l1 Hx H1 IH]; [exact Hr|].
  simpl. rewrite IH.
  destruct (Z.ltb_spec (otp_created_at r) (otp_created_at x)); [lia | reflexivity].
Qed.

Lemma latest_app_last (l : list otp_row) (r : otp_row) :
  Forall (fun x => (otp_created_at x <= otp_created_at r)%Z) l ->
  latest (l ++ [r]) = Some r.
Proof.
  induction 1 as [|x l Hx Hl IH]; [reflexivity|].
  simpl. rewrite IH.
  destruct (Z.ltb_spec (otp_created_at r) (otp_created_at x)); [lia | reflexivity].
Qed.

Lemma latest_map (g : otp_row -> otp_row) (l : list otp_row) :
  (forall x, otp_created_at (g x) = otp_created_at x) ->
  latest (map g l) = option_map g (latest l).
Proof.
  intros Hg. induction l as [|x l IH]; [reflexivity|].
  simpl. rewrite IH. destruct (latest l) as [r'|]; [|reflexivity].
  simpl. rewrite !Hg. destruct (_ <? _)%Z; reflexivity.
Qed.

Lemma filter_map_same {A} (f : A -> bool) (g : A -> A) (l : list A) :
  (forall x, f (g x) = f x) ->
  filter f (map g l) = map g (filter f l).
Proof.
  intros Hg. induction l as [|x l IH]; [reflexivity|].
  simpl. rewrite Hg, IH. destruct (f x); reflexivity.
Qed.

Section LatestOfIdentity.

Variable belongs : otp_row -> bool.
Hypothesis belongs_set_used : forall r, belongs (set_used r) = belongs r.

Lemma latest_after_insert (rows : list otp_row) (r : otp_row) :
  Forall (fun x => (otp_created_at x <= otp_created_at r)%Z) rows ->
  belongs r = true ->
  latest (filter belongs (rows ++ [r])) = Some r.
Proof.
  intros Hpast Hr. rewrite filter_app. simpl. rewrite Hr.
  apply latest_app_last.
  rewrite Forall_forall in *. intros x Hx. apply Hpast.
  apply filter_In in Hx. tauto.
Qed.

Lemma latest_after_mark_used (rows : list otp_row) (r : otp_row) :
  latest (filter belongs rows) = Some r ->
  latest (filter belongs
            (map (fun x => if (otp_id x =? otp_id r)%nat then set_used x else x) rows))
  = Some (set_used r).
Proof.
  intros H. rewrite filter_map_same.
  - rewrite latest_map.
    + rewrite H. simpl. rewrite Nat.eqb_refl. reflexivity.
    + intros x. destruct (otp_id x =? otp_id r)%nat; reflexivity.
  - intros x. destruct (otp_id x =? otp_id r)%nat; [apply belongs_set_used | reflexivity].
Qed.

End LatestOfIdentity.

(** ** Verification, step by step *)

Lemma run_check_and_consume E (rows : list otp_row) (code : string) (w : world) :
  run E (check_and_consume rows code) w =
  match rows with
  | [] => (Normal (replied 400 (Body_message "OTP not found")), w)
  | otp :: _ =>
      if otp_used otp then (Normal (replied 400 (Body_message "OTP already used")), w)
      else if (js_clock w >? otp_expires_at otp)%Z
      then (Normal (replied 400 (Body_message "OTP expired")), w)
      else if negb (otp_code otp =? code)
      then (Normal (replied 400 (Body_message "Invalid OTP")), w)
      else
        match db_fault E _ (Q_mark_otp_used (otp_id otp)) with
        | Some err => (Thrown err, w)
        | None =>
            (Normal (replied 200 Body_success),
             with_db (mark_used (otp_id otp) (db w)) w)
        end
  end.
Proof.
  destruct rows as [|otp rest]; [reflexivity|].
  unfold check_and_consume. rewrite run_abind. cbn [run handle perform].
  destruct (otp_used otp); [reflexivity|].
  destruct (js_clock w >? otp_expires_at otp)%Z; [reflexivity|].
  destruct (negb (otp_code otp =? code)); [reflexivity|].
  rewrite run_abind, run_pg.
  destruct (db_fault E unit (Q_mark_otp_used (otp_id otp))); reflexivity.
Qed.

Lemma run_lookup_then_check E (q : query (list otp_row))
    (sel : database -> list otp_row) (code tag : string) (w : world) :
  (forall sc now d, exec sc now q d = (Normal (sel d), d)) ->
  run E (serve (lookup_then_check q code tag)) w =
  match db_fault E _ q with
  | Some _ =>
      (replied 500 (Body_message "Failed to verify OTP"),
       with_log (log w ++ [tag])%list w)
  | None => checked E (sel (db w)) code tag w
  end.
Proof.
  intros Hq. unfold lookup_then_check.
  rewrite run_serve, run_try_catch, run_abind, run_pg.
  destruct (db_fault E (list otp_row) q) as [err|]; [reflexivity|].
  rewrite Hq. replace (with_db (db w) w) with w by (destruct w; reflexivity).
  rewrite run_check_and_consume. unfold checked.
  destruct (sel (db w)) as [|otp rest]; [reflexivity|].
  destruct (otp_used otp); [reflexivity|].
  destruct (js_clock w >? otp_expires_at otp)%Z; [reflexivity|].
  destruct (negb (otp_code otp =? code)); [reflexivity|].
  destruct (db_fault E unit (Q_mark_otp_used (otp_id otp))); reflexivity.
Qed.

Lemma verify_handler_phone (phone : string) (email : option string) (code : string) :
  truthy (Some phone) = true ->
  verify_handler {| vb_phone := Some phone; vb_email := email; vb_code := code |}
  = lookup_then_check (Q_latest_otp_by_phone phone) code "Failed to verify OTP".
Proof.
  destruct phone; [discriminate|]. reflexivity.
Qed.

Lemma verify_handler_email (phone : option string) (email code : string) :
  truthy phone = false ->
  truthy (Some email) = true ->
  verify_handler {| vb_phone := phone; vb_email := Some email; vb_code := code |}
  = lookup_then_check (Q_latest_otp_by_email (toLowerCase email)) code
      "Failed to verify OTP".
Proof.
  intros Hp He. destruct email; [discriminate|].
  unfold verify_handler. cbn [vb_phone vb_email vb_code]. rewrite Hp. reflexivity.
Qed.

Lemma email_verify_handler_eq (email code : string) :
  email_verify_handler email code
  = lookup_then_check (Q_latest_otp_by_email (toLowerCase email)) code
      "Failed to verify email OTP".
Proof. reflexivity. Qed.

(** ** Issuing, step by step *)

Lemma run_request_handler E (phone : string) (w : world) :
  run E (serve (request_handler phone)) w =
  let code := code_draw E (codes_drawn w) in
  let expiresAt := (js_clock w + OTP_TTL_MINUTES * 60 * 1000)%Z in
  let failed err :=
    (replied 500 (send_failure err),
     with_log (log w ++ ["Failed to send OTP"])%list (after_draw w)) in
  match fst (run E (sendOtpSms code phone) (after_draw w)) with
  | Normal _ =>
      match db_fault E _ (Q_insert_otp_phone phone code expiresAt) with
      | None =>
          (replied 200 (Body_issued expiresAt),
           with_db (insert_otp (Some phone) None code expiresAt (db_clock w) (db w))
             (after_draw w))
      | Some err => failed err
      end
  | Thrown err => failed err
  end.
Proof.
  unfold request_handler, generateOtpCode.
  rewrite run_serve, run_abind. cbn [run handle perform].
  fold (after_draw w).
  rewrite run_abind. cbn [run handle perform js_clock after_draw].
  fold (after_draw w).
  rewrite run_try_catch, run_abind.
  rewrite (sendOtpSms_stateless E _ phone (after_draw w) (after_draw w)).
  destruct (fst (run E (sendOtpSms (code_draw E (codes_drawn w)) phone) (after_draw w)))
    as [data|err].
  - rewrite run_abind, run_pg.
    destruct (db_fault E unit _) as [err|]; reflexivity.
  - reflexivity.
Qed.

Lemma run_email_request_handler E (email : string) (w : world) :
  run E (serve (email_request_handler email)) w =
  let code := code_draw E (codes_drawn w) in
  let expiresAt := (js_clock w + OTP_TTL_MINUTES * 60 * 1000)%Z in
  let failed err :=
    (replied 500 (send_failure err),
     with_log (log w ++ ["Failed to send email OTP"])%list (after_draw w)) in
  match fst (run E (sendOtpEmail code email) (after_draw w)) with
  | Normal _ =>
      match db_fault E _ (Q_insert_otp_email (toLowerCase email) code expiresAt) with
      | None =>
          (replied 200 (Body_issued expiresAt),
           with_db (insert_otp None (Some (toLowerCase email)) code expiresAt
                      (db_clock w) (db w))
             (after_draw w))
      | Some err => failed err
      end
  | Thrown err => failed err
  end.
Proof.
  unfold email_request_handler, generateOtpCode.
  rewrite run_serve, run_abind. cbn [run handle perform].
  fold (after_draw w).
  rewrite run_abind. cbn [run handle perform js_clock after_draw].
  fold (after_draw w).
  rewrite run_try_catch, run_abind.
  rewrite (sendOtpEmail_stateless E _ email (after_draw w) (after_draw w)).
  destruct (fst (run E (sendOtpEmail (code_draw E (codes_drawn w)) email) (after_draw w)))
    as [data|err].
  - rewrite run_abind, run_pg.
    destruct (db_fault E unit _) as [err|]; reflexivity.
  - reflexivity.
Qed.

(** ** Issue, then verify *)

Lemma opt_eqb_refl (s : string) : opt_eqb (Some s) s = true.
Proof. apply String.eqb_refl. Qed.

Lemma exactly_once_core E (q : query (list otp_row)) (belongs : otp_row -> bool)
    (code tag : string) (expiresAt : Z) (issued : world) (r : otp_row) :
  (forall sc now d,
     exec sc now q d = (Normal (rows_of (latest (filter belongs (otp_codes d)))), d)) ->
  (forall x, belongs (set_used x) = belongs x) ->
  store_available E ->
  latest (filter belongs (otp_codes (db issued))) = Some r ->
  otp_used r = false -> otp_code r = code -> otp_expires_at r = expiresAt ->
  verifies_exactly_once E (fun c => serve (lookup_then_check q c tag))
    (fun d => latest (filter belongs (otp_codes d))) code expiresAt issued.
Proof.
  intros Hq Hb Hdb Hr Hused Hcode Hexp t1 d1 Ht.
  rewrite (run_lookup_then_check E q _ code tag _ Hq), Hdb.
  unfold checked. cbn [db at_time js_clock]. rewrite Hr. cbn [rows_of].
  rewrite Hused, Hexp, Hcode, String.eqb_refl, Hdb. cbn [negb].
  replace (t1 >? expiresAt)%Z with false by (symmetry; rewrite Z.gtb_ltb; apply Z.ltb_ge; lia).
  eexists. exists (set_used r). split; [reflexivity|].
  assert (Hlatest : latest (filter belongs (otp_codes (mark_used (otp_id r) (db issued))))
                    = Some (set_used r))
    by (apply latest_after_mark_used; assumption).
  split; [exact Hlatest|]. split; [reflexivity|]. split; [exact Hcode|].
  intros t2 d2.
  rewrite (run_lookup_then_check E q _ code tag _ Hq), Hdb.
  unfold checked. cbn [db at_time with_db]. rewrite Hlatest. reflexivity.
Qed.


(** ** The verifier's checks *)

Lemma ordered_checks_lookup E (q : query (list otp_row))
    (sel : database -> option otp_row) (code tag : string) (w : world) :
  (forall sc now d, exec sc now q d = (Normal (rows_of (sel d)), d)) ->
  db_fault E _ q = None ->
  ordered_checks E (serve (lookup_then_check q code tag)) (sel (db w)) code w.
Proof.
  intros Hq Hdb. unfold ordered_checks.
  rewrite (run_lookup_then_check E q _ code tag w Hq), Hdb.
  unfold checked. destruct (sel (db w)) as [r|]; cbn [rows_of]; [|reflexivity].
  destruct (otp_used r) eqn:Hused.
  { repeat split; intros; (reflexivity || congruence). }
  destruct (Z.gtb_spec (js_clock w) (otp_expires_at r)) as [Hexp|Hexp].
  { repeat split; intros; (reflexivity || congruence || lia). }
  destruct (String.eqb_spec (otp_code r) code) as [Hcode|Hcode]; cbn [negb].
  - repeat split; intros; (congruence || lia).
  - repeat split; intros; (reflexivity || congruence || lia).
Qed.

(** C2. The verifier checks not-found, then used, then expired, then
    mismatch: with no record the answer is "OTP not found"; a used latest
    record is answered "OTP already used" whatever its expiry and whatever
    the code presented; an unused, expired one is answered "OTP expired"
    even when the code presented is wrong; only an unused, unexpired one
    with a different code is answered "Invalid OTP". *)
Theorem verifier_checks_in_order E (w : world) (code : string) :
  (forall phone email,
     truthy (Some phone) = true ->
     db_fault E _ (Q_latest_otp_by_phone phone) = None ->
     ordered_checks E
       (serve (verify_handler
                 {| vb_phone := Some phone; vb_email := email; vb_code := code |}))
       (latest (phone_rows phone (db w))) code w) /\
  (forall phone email,
     truthy phone = false -> truthy (Some email) = true ->
     db_fault E _ (Q_latest_otp_by_email (toLowerCase email)) = None ->
     ordered_checks E
       (serve (verify_handler
                 {| vb_phone := phone; vb_email := Some email; vb_code := code |}))
       (latest (email_rows (toLowerCase email) (db w))) code w) /\
  (forall email,
     db_fault E _ (Q_latest_otp_by_email (toLowerCase email)) = None ->
     ordered_checks E (serve (email_verify_handler email code))
       (latest (email_rows (toLowerCase email) (db w))) code w).
Proof.
  repeat split.
  - intros phone email Hp Hdb. rewrite verify_handler_phone by exact Hp.
    exact (ordered_checks_lookup E (Q_latest_otp_by_phone phone)
             (fun d => latest (phone_rows phone d)) _ _ w
             (fun _ _ _ => eq_refl) Hdb).
  - intros phone email Hp He Hdb. rewrite verify_handler_email by assumption.
    exact (ordered_checks_lookup E (Q_latest_otp_by_email (toLowerCase email))
             (fun d => latest (email_rows (toLowerCase email) d)) _ _ w
             (fun _ _ _ => eq_refl) Hdb).
  - intros email Hdb. rewrite email_verify_handler_eq.
    exact (ordered_checks_lookup E (Q_latest_otp_by_email (toLowerCase email))
             (fun d => latest (email_rows (toLowerCase email) d)) _ _ w
             (fun _ _ _ => eq_refl) Hdb).
Qed.

(** ** Channel selection of [/verify] *)

Lemma minLength_truthy (n : nat) (s : string) :
  minLength (S n) s = true -> truthy (Some s) = true.
Proof. destruct s; [discriminate | reflexivity]. Qed.

(** C10. A [/verify] request that carries a phone is answered from the
    phone-scoped lookup alone: the answer and the resulting world are those
    of the same request without its email, and they do not depend on any
    record stored under another identity. *)
Theorem verify_prefers_phone E (w : world) (b : verify_body) (phone : string) :
  verify_schema b = true ->
  vb_phone b = Some phone ->
  run E (serve (verify_handler b)) w
    = run E (serve (verify_handler (without_email b))) w /\
  forall w',
    phone_rows phone (db w') = phone_rows phone (db w) ->
    js_clock w' = js_clock w ->
    fst (run E (serve (verify_handler b)) w')
      = fst (run E (serve (verify_handler b)) w).
Proof.
  intros Hschema Hphone.
  assert (Hp : truthy (Some phone) = true).
  { unfold verify_schema in Hschema. rewrite Hphone in Hschema.
    apply andb_true_iff in Hschema. destruct Hschema as [H8 _].
    exact (minLength_truthy _ _ H8). }
  destruct b as [p e c]. cbn [vb_phone] in Hphone. subst p.
  unfold without_email. cbn [vb_phone vb_email vb_code].
  rewrite !verify_handler_phone by exact Hp.
  split; [reflexivity|].
  intros w' Hrows Hclock.
  rewrite !(run_lookup_then_check E (Q_latest_otp_by_phone phone)
              (latest_by_phone phone) c _ _ (fun _ _ _ => eq_refl)).
  destruct (db_fault E _ (Q_latest_otp_by_phone phone)); [reflexivity|].
  unfold checked, latest_by_phone. rewrite Hrows, Hclock.
  destruct (rows_of (latest (phone_rows phone (db w)))) as [|otp rest]; [reflexivity|].
  destruct (otp_used otp); [reflexivity|].
  destruct (js_clock w >? otp_expires_at otp)%Z; [reflexivity|].
  destruct (negb (otp_code otp =? c)); [reflexivity|].
  destruct (db_fault E unit _); reflexivity.
Qed.

(** ** Invariants of the code store *)

(** With a store clock that does not run backwards, every statement keeps
    the stored codes in the past. *)
Lemma exec_keeps_created_in_past sc now {X} (q : query X) (d : database) :
  Forall (fun r => (otp_created_at r <= now)%Z) (otp_codes d) ->
  Forall (fun r => (otp_created_at r <= now)%Z) (otp_codes (snd (exec sc now q d))).
Proof.
  intros Hpast.
  destruct q; cbn [exec snd]; try exact Hpast.
  1, 2: cbn [insert_otp with_otp_codes otp_codes]; apply Forall_app; split;
    [exact Hpast | repeat constructor; cbn; lia].
  - unfold mark_used. cbn [otp_codes with_otp_codes].
    rewrite Forall_forall in *. intros x Hx. apply in_map_iff in Hx.
    destruct Hx as (r & <- & Hin). specialize (Hpast r Hin).
    destruct (otp_id r =? id)%nat; exact Hpast.
  - destruct (users_email_unique sc && _); exact Hpast.
  - unfold upsert_user_details. destruct (existsb _ (user_details d)); exact Hpast.
  - unfold insert_user_role. destruct (existsb _ (user_roles d)); exact Hpast.
Qed.

(** ** What verification does to the store *)

Lemma map_other_ids (rows : list otp_row) (id : nat) :
  ~ In id (map otp_id rows) ->
  map (fun x => if (otp_id x =? id)%nat then set_used x else x) rows = rows.
Proof.
  induction rows as [|x rows IH]; intros Hid; [reflexivity|].
  simpl in *. rewrite IH by tauto.
  destruct (Nat.eqb_spec (otp_id x) id); [tauto | reflexivity].
Qed.

Lemma mark_used_flips (rows : list otp_row) (r : otp_row) :
  NoDup (map otp_id rows) -> In r rows ->
  exists l1 l2,
    rows = (l1 ++ r :: l2)%list /\
    map (fun x => if (otp_id x =? otp_id r)%nat then set_used x else x) rows
      = (l1 ++ set_used r :: l2)%list.
Proof.
  intros Hnodup Hin. destruct (in_split _ _ Hin) as (l1 & l2 & ->).
  exists l1, l2. split; [reflexivity|].
  rewrite map_app in Hnodup. simpl in Hnodup.
  pose proof (NoDup_remove_2 _ _ _ Hnodup) as Hout.
  rewrite map_app. simpl. rewrite Nat.eqb_refl.
  rewrite !map_other_ids; [reflexivity | |];
    intros H; apply Hout; apply in_or_app; tauto.
Qed.

Lemma checked_effect E (rows : list otp_row) (code tag : string) (w : world) :
  (forall r, In r rows -> In r (otp_codes (db w))) ->
  ids_fresh (db w) ->
  let (answer, w') := checked E rows code tag w in
  (reply_code answer <> 200 -> db w' = db w) /\
  (reply_code answer = 200 -> exists otp, flips_only otp (db w) (db w')).
Proof.
  intros Hsub [Hnodup _]. unfold checked.
  destruct rows as [|otp rest]; [split; [reflexivity | discriminate]|].
  destruct (otp_used otp) eqn:Hused; [split; [reflexivity | discriminate]|].
  destruct (js_clock w >? otp_expires_at otp)%Z; [split; [reflexivity | discriminate]|].
  destruct (negb (otp_code otp =? code)); [split; [reflexivity | discriminate]|].
  destruct (db_fault E unit _); [split; [reflexivity | discriminate]|].
  split; [intros H; now elim H|]. intros _. exists otp. split; [exact Hused|].
  destruct (mark_used_flips _ otp Hnodup (Hsub otp (or_introl eq_refl)))
    as (l1 & l2 & Hrows & Hmap).
  exists l1, l2. split; [exact Hrows|].
  cbn [db with_db]. unfold mark_used. rewrite Hmap. reflexivity.
Qed.

Lemma lookup_effect E (q : query (list otp_row)) (belongs : otp_row -> bool)
    (code tag : string) (w : world) :
  (forall sc now d,
     exec sc now q d = (Normal (rows_of (latest (filter belongs (otp_codes d)))), d)) ->
  ids_fresh (db w) ->
  verification_effect E (serve (lookup_then_check q code tag)) w.
Proof.
  intros Hq Hids. unfold verification_effect.
  rewrite (run_lookup_then_check E q _ code tag w Hq).
  destruct (db_fault E _ q); [split; [reflexivity | discriminate]|].
  apply checked_effect; [|exact Hids].
  intros r Hr. destruct (latest (filter belongs (otp_codes (db w)))) as [r'|] eqn:Hl;
    [|contradiction].
  destruct Hr as [<-|[]]. apply latest_In in Hl. apply filter_In in Hl. tauto.
Qed.

Lemma truthy_Some (x : option string) : truthy x = true -> exists s, x = Some s.
Proof. destruct x as [s|]; [eauto | discriminate]. Qed.

(** C8. A verification that fails, with whichever answer, leaves the store
    as it was; one that succeeds changes exactly one record, from unused to
    used, and nothing else. *)
Theorem failed_verification_changes_nothing E (w : world) :
  ids_fresh (db w) ->
  (forall b, verification_effect E (serve (verify_handler b)) w) /\
  (forall email code, verification_effect E (serve (email_verify_handler email code)) w).
Proof.
  intros Hids. split.
  - intros [p e c]. destruct (truthy p) eqn:Hp.
    + destruct (truthy_Some _ Hp) as [phone ->].
      rewrite verify_handler_phone by exact Hp.
      exact (lookup_effect E (Q_latest_otp_by_phone phone) _ c _ w
               (fun _ _ _ => eq_refl) Hids).
    + destruct (truthy e) eqn:He.
      * destruct (truthy_Some _ He) as [email ->].
        rewrite verify_handler_email by assumption.
        exact (lookup_effect E (Q_latest_otp_by_email (toLowerCase email)) _ c _ w
                 (fun _ _ _ => eq_refl) Hids).
      * unfold verification_effect, verify_handler.
        cbn [vb_phone vb_email]. rewrite Hp, He. cbn.
        split; [reflexivity | discriminate].
  - intros email code. rewrite email_verify_handler_eq.
    exact (lookup_effect E (Q_latest_otp_by_email (toLowerCase email)) _ code _ w
             (fun _ _ _ => eq_refl) Hids).
Qed.

(** Issuing only appends: no stored record is touched by a request for a
    code, so a record goes from unused to used in a successful verification
    and nowhere else. *)
Lemma requests_only_append E (w : world) :
  (forall phone, exists new,
     otp_codes (db (snd (run E (serve (request_handler phone)) w)))
       = (otp_codes (db w) ++ new)%list /\
     Forall (fun r => otp_used r = false) new) /\
  (forall email, exists new,
     otp_codes (db (snd (run E (serve (email_request_handler email)) w)))
       = (otp_codes (db w) ++ new)%list /\
     Forall (fun r => otp_used r = false) new).
Proof.
  split.
  - intros phone. rewrite run_request_handler. cbv zeta.
    destruct (fst (run E (sendOtpSms _ phone) (after_draw w)));
      [destruct (db_fault E unit _)|].
    2: { eexists. split; [reflexivity|]. repeat constructor. }
    all: exists []; split; [symmetry; apply app_nil_r | constructor].
  - intros email. rewrite run_email_request_handler. cbv zeta.
    destruct (fst (run E (sendOtpEmail _ email) (after_draw w)));
      [destruct (db_fault E unit _)|].
    2: { eexists. split; [reflexivity|]. repeat constructor. }
    all: exists []; split; [symmetry; apply app_nil_r | constructor].
Qed.

(** The key invariant is kept by every statement. *)
Lemma exec_keeps_ids_fresh sc now {X} (q : query X) (d : database) :
  ids_fresh d -> ids_fresh (snd (exec sc now q d)).
Proof.
  intros [Hnodup Hbelow].
  destruct q; cbn [exec snd]; try (split; assumption).
  1, 2: unfold ids_fresh, insert_otp; cbn [otp_codes otp_codes_seq with_otp_codes];
    rewrite map_app; cbn [map fresh_otp otp_id]; split;
    [ apply NoDup_app; [exact Hnodup | repeat constructor; intros [] | ];
      intros a Ha [<-|[]]; apply in_map_iff in Ha; destruct Ha as (r & Hr & Hin);
      rewrite Forall_forall in Hbelow; specialize (Hbelow r Hin); lia
    | apply Forall_app; split;
      [ eapply Forall_impl; [|exact Hbelow]; cbn; intros; lia
      | repeat constructor ] ].
  - unfold ids_fresh, mark_used. cbn [otp_codes otp_codes_seq with_otp_codes].
    rewrite map_map.
    rewrite (map_ext _ otp_id) by (intros x; destruct (otp_id x =? id)%nat; reflexivity).
    split; [exact Hnodup|].
    rewrite Forall_forall in *. intros x Hx. apply in_map_iff in Hx.
    destruct Hx as (r & <- & Hin). specialize (Hbelow r Hin).
    destruct (otp_id r =? id)%nat; exact Hbelow.
  - destruct (users_email_unique sc && _); split; assumption.
  - unfold upsert_user_details. destruct (existsb _ (user_details d)); split; assumption.
  - unfold insert_user_role. destruct (existsb _ (user_roles d)); split; assumption.
Qed.

(** ** A send that fails *)

(** C3. When the channel sender throws, the request is answered with
    status 500 and the store is left as it was; if the identity had no
    record before, a verification that follows is answered
    "OTP not found". *)
Theorem failed_send_persists_nothing E (w : world) :
  let code := code_draw E (codes_drawn w) in
  (forall phone err,
     sms_outcome E code phone (Thrown err) ->
     exists w',
       run E (serve (request_handler phone)) w = (replied 500 (send_failure err), w') /\
       db w' = db w /\
       (truthy (Some phone) = true ->
        phone_rows phone (db w) = [] ->
        db_fault E _ (Q_latest_otp_by_phone phone) = None ->
        forall email c t d,
          run E (serve (verify_handler
                          {| vb_phone := Some phone; vb_email := email; vb_code := c |}))
              (at_time t d w')
            = (replied 400 (Body_message "OTP not found"), at_time t d w'))) /\
  (forall email err,
     email_outcome E code email (Thrown err) ->
     exists w',
       run E (serve (email_request_handler email)) w
         = (replied 500 (send_failure err), w') /\
       db w' = db w /\
       (email_rows (toLowerCase email) (db w) = [] ->
        db_fault E _ (Q_latest_otp_by_email (toLowerCase email)) = None ->
        forall c t d,
          run E (serve (email_verify_handler email c)) (at_time t d w')
            = (replied 400 (Body_message "OTP not found"), at_time t d w'))).
Proof.
  intros code. subst code. split.
  - intros phone err Hsms. rewrite run_request_handler. cbv zeta.
    rewrite (Hsms (after_draw w)).
    eexists. split; [reflexivity|]. split; [reflexivity|].
    intros Hp Hnone Hdb email c t d.
    rewrite verify_handler_phone by exact Hp.
    rewrite (run_lookup_then_check E (Q_latest_otp_by_phone phone)
               (latest_by_phone phone) c _ _ (fun _ _ _ => eq_refl)), Hdb.
    unfold latest_by_phone. cbn [db at_time with_log after_draw].
    rewrite Hnone. reflexivity.
  - intros email err Hmail. rewrite run_email_request_handler. cbv zeta.
    rewrite (Hmail (after_draw w)).
    eexists. split; [reflexivity|]. split; [reflexivity|].
    intros Hnone Hdb c t d.
    rewrite email_verify_handler_eq.
    rewrite (run_lookup_then_check E (Q_latest_otp_by_email (toLowerCase email))
               (latest_by_email (toLowerCase email)) c _ _ (fun _ _ _ => eq_refl)), Hdb.
    unfold latest_by_email. cbn [db at_time with_log after_draw].
    rewrite Hnone. reflexivity.
Qed.

(** ** Two codes in a row *)

Lemma only_second_core E (q : query (list otp_row)) (belongs : otp_row -> bool)
    (first second tag : string) (expiresAt : Z) (w2 : world) (r : otp_row) :
  (forall sc now d,
     exec sc now q d = (Normal (rows_of (latest (filter belongs (otp_codes d)))), d)) ->
  store_available E ->
  latest (filter belongs (otp_codes (db w2))) = Some r ->
  otp_used r = false -> otp_code r = second -> otp_expires_at r = expiresAt ->
  only_second_verifies E (fun c => serve (lookup_then_check q c tag))
    first second expiresAt w2.
Proof.
  intros Hq Hdb Hr Hused Hcode Hexp. split.
  - intros Hdiff t d.
    rewrite (run_lookup_then_check E q _ first tag _ Hq), Hdb.
    unfold checked. cbn [db at_time js_clock]. rewrite Hr. cbn [rows_of].
    rewrite Hused. destruct (t >? otp_expires_at r)%Z; [eexists; reflexivity|].
    rewrite Hcode.
    destruct (String.eqb_spec second first) as [Heq|_]; [congruence|].
    eexists; reflexivity.
  - intros t d Ht.
    rewrite (run_lookup_then_check E q _ second tag _ Hq), Hdb.
    unfold checked. cbn [db at_time js_clock]. rewrite Hr. cbn [rows_of].
    rewrite Hused, Hexp, Hcode, String.eqb_refl, Hdb.
    replace (t >? expiresAt)%Z with false
      by (symmetry; rewrite Z.gtb_ltb; apply Z.ltb_ge; lia).
    reflexivity.
Qed.

Lemma created_in_past_after_insert (w : world) phone email code expiresAt d2 :
  created_in_past w -> (db_clock w <= d2)%Z ->
  Forall (fun x => (otp_created_at x <= d2)%Z)
    (otp_codes (insert_otp phone email code expiresAt (db_clock w) (db w))).
Proof.
  intros Hpast Hd. cbn [insert_otp with_otp_codes otp_codes].
  apply Forall_app. split.
  - eapply Forall_impl; [|exact Hpast]. cbn. intros; lia.
  - repeat constructor. cbn. exact Hd.
Qed.

Lemma foreign_phone_rows (phone : string) (rows : list otp_row) :
  Forall (fun r => otp_phone r <> Some phone) rows ->
  filter (fun r => opt_eqb (otp_phone r) phone) rows = [].
Proof.
  induction 1 as [|r rows Hr _ IH]; [reflexivity|].
  cbn [filter]. rewrite IH. destruct (otp_phone r) as [p|]; cbn [opt_eqb]; [|reflexivity].
  destruct (String.eqb_spec p phone) as [->|_]; [congruence | reflexivity].
Qed.

Lemma foreign_email_rows (email : string) (rows : list otp_row) :
  Forall (fun r => otp_email r <> Some email) rows ->
  filter (fun r => opt_eqb (otp_email r) email) rows = [].
Proof.
  induction 1 as [|r rows Hr _ IH]; [reflexivity|].
  cbn [filter]. rewrite IH. destruct (otp_email r) as [p|]; cbn [opt_eqb]; [|reflexivity].
  destruct (String.eqb_spec p email) as [->|_]; [congruence | reflexivity].
Qed.

(** What one later request appends. *)
Lemma issue_run_rows E (i : issue) (w : world) :
  exists rows,
    otp_codes (db (issue_run E i w)) = (otp_codes (db w) ++ rows)%list /\
    Forall (fun r =>
              match i with
              | Issue_phone other _ _ => otp_phone r = Some other /\ otp_email r = None
              | Issue_email other _ _ =>
                  otp_phone r = None /\ otp_email r = Some (toLowerCase other)
              end) rows.
Proof.
  destruct i as [other t d|other t d]; unfold issue_run.
  - rewrite run_request_handler. cbv zeta.
    destruct (fst (run E (sendOtpSms _ other) _)); [destruct (db_fault E unit _)|].
    2: { eexists. split; [reflexivity|]. repeat constructor. }
    all: exists []; split; [symmetry; apply app_nil_r | constructor].
  - rewrite run_email_request_handler. cbv zeta.
    destruct (fst (run E (sendOtpEmail _ other) _)); [destruct (db_fault E unit _)|].
    2: { eexists. split; [reflexivity|]. repeat constructor. }
    all: exists []; split; [symmetry; apply app_nil_r | constructor].
Qed.

Lemma issues_rows_phone E (phone : string) (later : list issue) :
  Forall (other_than_phone phone) later ->
  forall w, exists rows,
    otp_codes (db (issues E later w)) = (otp_codes (db w) ++ rows)%list /\
    Forall (fun r => otp_phone r <> Some phone) rows.
Proof.
  induction 1 as [|i later Hi _ IH]; intros w.
  - exists []. split; [symmetry; apply app_nil_r | constructor].
  - unfold issues. cbn [fold_left]. fold (issues E later (issue_run E i w)).
    destruct (IH (issue_run E i w)) as (rows2 & Heq2 & Hrows2).
    destruct (issue_run_rows E i w) as (rows1 & Heq1 & Hrows1).
    exists (rows1 ++ rows2)%list. split.
    + rewrite Heq2, Heq1. symmetry. apply app_assoc.
    + apply Forall_app. split; [|exact Hrows2].
      eapply Forall_impl; [|exact Hrows1]. intros r Hr.
      destruct i as [other t d|other t d]; cbn in Hi; destruct Hr as [Hp He];
        rewrite Hp; congruence.
Qed.

Lemma issues_rows_email E (email : string) (later : list issue) :
  Forall (other_than_email email) later ->
  forall w, exists rows,
    otp_codes (db (issues E later w)) = (otp_codes (db w) ++ rows)%list /\
    Forall (fun r => otp_email r <> Some (toLowerCase email)) rows.
Proof.
  induction 1 as [|i later Hi _ IH]; intros w.
  - exists []. split; [symmetry; apply app_nil_r | constructor].
  - unfold issues. cbn [fold_left]. fold (issues E later (issue_run E i w)).
    destruct (IH (issue_run E i w)) as (rows2 & Heq2 & Hrows2).
    destruct (issue_run_rows E i w) as (rows1 & Heq1 & Hrows1).
    exists (rows1 ++ rows2)%list. split.
    + rewrite Heq2, Heq1. symmetry. apply app_assoc.
    + apply Forall_app. split; [|exact Hrows2].
      eapply Forall_impl; [|exact Hrows1]. intros r Hr.
      destruct i as [other t d|other t d]; cbn in Hi; destruct Hr as [Hp He];
        rewrite He; congruence.
Qed.

(** The second code stays the one that verifies when the table has grown
    by records that do not belong to the identity. *)
Lemma only_second_later E (q : query (list otp_row)) (belongs : otp_row -> bool)
    (first second tag : string) (expiresAt : Z) (w2 w3 : world) (r : otp_row)
    (rows : list otp_row) :
  (forall sc now d,
     exec sc now q d = (Normal (rows_of (latest (filter belongs (otp_codes d)))), d)) ->
  store_available E ->
  latest (filter belongs (otp_codes (db w2))) = Some r ->
  otp_used r = false -> otp_code r = second -> otp_expires_at r = expiresAt ->
  otp_codes (db w3) = (otp_codes (db w2) ++ rows)%list ->
  filter belongs rows = [] ->
  only_second_verifies E (fun c => serve (lookup_then_check q c tag))
    first second expiresAt w3.
Proof.
  intros Hq Hdb Hr Hused Hcode Hexp Heq Hnone.
  apply (only_second_core E q belongs first second tag expiresAt w3 r);
    try assumption.
  rewrite Heq, filter_app, Hnone, app_nil_r. exact Hr.
Qed.

(** C4. When two codes are issued in sequence for one identity, the lookup
    selects the second record of that identity: presenting the first code
    afterwards is rejected (the two codes being different strings) and
    consumes nothing, and presenting the second code before it expires
    succeeds.  This stays so whatever records of other identities the table
    receives afterwards, and in particular after any later requests for
    other phones and addresses: the lookup reads the identity's own records
    only. *)
Theorem only_latest_code_verifies E (w : world) (t2 d2 : Z) :
  store_available E ->
  created_in_past w ->
  (db_clock w <= d2)%Z ->
  let first := code_draw E (codes_drawn w) in
  let second := code_draw E (S (codes_drawn w)) in
  let expiresAt := (t2 + OTP_TTL_MINUTES * 60 * 1000)%Z in
  (forall phone data1 data2,
     truthy (Some phone) = true ->
     sms_outcome E first phone (Normal data1) ->
     sms_outcome E second phone (Normal data2) ->
     let verify email c :=
       serve (verify_handler {| vb_phone := Some phone; vb_email := email; vb_code := c |}) in
     exists exp1 w1 w2 r2,
       run E (serve (request_handler phone)) w
         = (replied 200 (Body_issued exp1), w1) /\
       run E (serve (request_handler phone)) (at_time t2 d2 w1)
         = (replied 200 (Body_issued expiresAt), w2) /\
       latest (phone_rows phone (db w2)) = Some r2 /\ otp_code r2 = second /\
       (forall email,
          only_second_verifies E (verify email) first second expiresAt w2) /\
       (forall rows w3 email,
          otp_codes (db w3) = (otp_codes (db w2) ++ rows)%list ->
          Forall (fun r => otp_phone r <> Some phone) rows ->
          only_second_verifies E (verify email) first second expiresAt w3) /\
       (forall later email,
          Forall (other_than_phone phone) later ->
          only_second_verifies E (verify email) first second expiresAt
            (issues E later w2))) /\
  (forall email id1 id2,
     email_outcome E first email (Normal id1) ->
     email_outcome E second email (Normal id2) ->
     let verify phone c :=
       serve (verify_handler {| vb_phone := phone; vb_email := Some email; vb_code := c |}) in
     exists exp1 w1 w2 r2,
       run E (serve (email_request_handler email)) w
         = (replied 200 (Body_issued exp1), w1) /\
       run E (serve (email_request_handler email)) (at_time t2 d2 w1)
         = (replied 200 (Body_issued expiresAt), w2) /\
       latest (email_rows (toLowerCase email) (db w2)) = Some r2 /\
       otp_code r2 = second /\
       only_second_verifies E (fun c => serve (email_verify_handler email c))
         first second expiresAt w2 /\
       (forall phone,
          truthy phone = false -> truthy (Some email) = true ->
          only_second_verifies E (verify phone) first second expiresAt w2) /\
       (forall rows w3,
          otp_codes (db w3) = (otp_codes (db w2) ++ rows)%list ->
          Forall (fun r => otp_email r <> Some (toLowerCase email)) rows ->
          only_second_verifies E (fun c => serve (email_verify_handler email c))
            first second expiresAt w3 /\
          forall phone,
            truthy phone = false -> truthy (Some email) = true ->
            only_second_verifies E (verify phone) first second expiresAt w3) /\
       (forall later,
          Forall (other_than_email email) later ->
          only_second_verifies E (fun c => serve (email_verify_handler email c))
            first second expiresAt (issues E later w2) /\
          forall phone,
            truthy phone = false -> truthy (Some email) = true ->
            only_second_verifies E (verify phone) first second expiresAt
              (issues E later w2))).
Proof.
  intros Hdb Hpast Hd first second expiresAt.
  set (exp1 := (js_clock w + OTP_TTL_MINUTES * 60 * 1000)%Z).
  split.
  - intros phone data1 data2 Hp Hsms1 Hsms2 verify.
    set (d1 := insert_otp (Some phone) None first exp1 (db_clock w) (db w)).
    set (w1 := with_db d1 (after_draw w)).
    set (r2 := fresh_otp (Some phone) None second expiresAt d2 d1).
    set (w2 := with_db (insert_otp (Some phone) None second expiresAt d2 d1)
                 (after_draw (at_time t2 d2 w1))).
    exists exp1, w1, w2, r2.
    split.
    { rewrite run_request_handler. cbv zeta.
      fold first. rewrite (Hsms1 (after_draw w)), Hdb. reflexivity. }
    split.
    { rewrite run_request_handler. cbv zeta.
      cbn [codes_drawn js_clock db_clock db log at_time with_db after_draw w1].
      fold second. rewrite (Hsms2 _), Hdb. reflexivity. }
    assert (Hlatest :
      latest (filter (fun r => opt_eqb (otp_phone r) phone) (otp_codes (db w2)))
      = Some r2).
    { cbn [w2 db with_db insert_otp with_otp_codes otp_codes].
      apply latest_after_insert; [|apply opt_eqb_refl].
      apply created_in_past_after_insert; assumption. }
    assert (Hlater : forall rows w3 email,
              otp_codes (db w3) = (otp_codes (db w2) ++ rows)%list ->
              Forall (fun r => otp_phone r <> Some phone) rows ->
              only_second_verifies E (verify email) first second expiresAt w3).
    { intros rows w3 email Heq Hrows. unfold only_second_verifies, verify.
      rewrite !verify_handler_phone by exact Hp.
      exact (only_second_later E (Q_latest_otp_by_phone phone) _ first second _ _
               w2 w3 r2 rows (fun _ _ _ => eq_refl) Hdb Hlatest eq_refl eq_refl eq_refl
               Heq (foreign_phone_rows phone rows Hrows)). }
    split; [exact Hlatest|]. split; [reflexivity|]. split; [|split].
    + intros email.
      apply (Hlater [] w2 email); [symmetry; apply app_nil_r | constructor].
    + exact Hlater.
    + intros later email Hothers.
      destruct (issues_rows_phone E phone later Hothers w2) as (rows & Heq & Hrows).
      exact (Hlater rows _ email Heq Hrows).
  - intros email id1 id2 Hmail1 Hmail2 verify.
    set (d1 := insert_otp None (Some (toLowerCase email)) first exp1 (db_clock w) (db w)).
    set (w1 := with_db d1 (after_draw w)).
    set (r2 := fresh_otp None (Some (toLowerCase email)) second expiresAt d2 d1).
    set (w2 := with_db (insert_otp None (Some (toLowerCase email)) second expiresAt d2 d1)
                 (after_draw (at_time t2 d2 w1))).
    exists exp1, w1, w2, r2.
    split.
    { rewrite run_email_request_handler. cbv zeta.
      fold first. rewrite (Hmail1 (after_draw w)), Hdb. reflexivity. }
    split.
    { rewrite run_email_request_handler. cbv zeta.
      cbn [codes_drawn js_clock db_clock db log at_time with_db after_draw w1].
      fold second. rewrite (Hmail2 _), Hdb. reflexivity. }
    assert (Hlatest :
      latest (filter (fun r => opt_eqb (otp_email r) (toLowerCase email))
                (otp_codes (db w2)))
      = Some r2).
    { cbn [w2 db with_db insert_otp with_otp_codes otp_codes].
      apply latest_after_insert; [|apply opt_eqb_refl].
      apply created_in_past_after_insert; assumption. }
    assert (Hlater : forall rows w3,
              otp_codes (db w3) = (otp_codes (db w2) ++ rows)%list ->
              Forall (fun r => otp_email r <> Some (toLowerCase email)) rows ->
              only_second_verifies E (fun c => serve (email_verify_handler email c))
                first second expiresAt w3 /\
              forall phone,
                truthy phone = false -> truthy (Some email) = true ->
                only_second_verifies E (verify phone) first second expiresAt w3).
    { intros rows w3 Heq Hrows.
      assert (Htag : forall tag,
                only_second_verifies E
                  (fun c => serve (lookup_then_check
                                     (Q_latest_otp_by_email (toLowerCase email)) c tag))
                  first second expiresAt w3).
      { intros tag.
        exact (only_second_later E (Q_latest_otp_by_email (toLowerCase email)) _
                 first second tag _ w2 w3 r2 rows (fun _ _ _ => eq_refl) Hdb
                 Hlatest eq_refl eq_refl eq_refl Heq
                 (foreign_email_rows _ rows Hrows)). }
      split.
      - unfold only_second_verifies. rewrite !email_verify_handler_eq.
        exact (Htag _).
      - intros phone Hp He. unfold only_second_verifies, verify.
        rewrite !verify_handler_email by assumption.
        exact (Htag _). }
    assert (Hnow : otp_codes (db w2) = (otp_codes (db w2) ++ [])%list)
      by (symmetry; apply app_nil_r).
    split; [exact Hlatest|]. split; [reflexivity|].
    split; [exact (proj1 (Hlater [] w2 Hnow (Forall_nil _)))|].
    split; [exact (proj2 (Hlater [] w2 Hnow (Forall_nil _)))|].
    split; [exact Hlater|].
    intros later Hothers.
    destruct (issues_rows_email E email later Hothers w2) as (rows & Heq & Hrows).
    exact (Hlater rows _ Heq Hrows).
Qed.

(** ** The identity a phone request stores *)

(** C5, as the code has it. A phone request that succeeds appends one
    record whose identity is the phone string exactly as it was submitted,
    and [/verify] selects by the phone string exactly as it is submitted
    there; the normalised digits only go to the SMS gateway. *)
Theorem request_stores_phone_as_submitted E (w : world) (phone : string) :
  reply_code (fst (run E (serve (request_handler phone)) w)) = 200 ->
  (exists expiresAt,
     otp_codes (db (snd (run E (serve (request_handler phone)) w)))
       = (otp_codes (db w) ++
          [fresh_otp (Some phone) None (code_draw E (codes_drawn w)) expiresAt
             (db_clock w) (db w)])%list) /\
  (forall w' p email c,
     truthy (Some p) = true ->
     db_fault E _ (Q_latest_otp_by_phone p) = None ->
     run E (serve (verify_handler
                     {| vb_phone := Some p; vb_email := email; vb_code := c |})) w'
       = checked E (rows_of (latest (phone_rows p (db w')))) c
           "Failed to verify OTP" w').
Proof.
  intros Hok. split.
  - revert Hok. rewrite run_request_handler. cbv zeta.
    destruct (fst (run E (sendOtpSms _ phone) (after_draw w)));
      [destruct (db_fault E unit _)|]; cbn [fst snd reply_code replied];
      try discriminate.
    intros _. eexists. reflexivity.
  - intros w' p email c Hp Hdb.
    rewrite verify_handler_phone by exact Hp.
    rewrite (run_lookup_then_check E (Q_latest_otp_by_phone p)
               (latest_by_phone p) c _ _ (fun _ _ _ => eq_refl)), Hdb.
    reflexivity.
Qed.

(** ** User service *)

Lemma run_assignRole E (userId roleName : string) (w : world) :
  run E (assignRole userId roleName) w =
  match db_fault E _ (Q_role_by_name roleName) with
  | Some err => (Thrown err, w)
  | None =>
      match filter (fun r => role_name r =? roleName) (roles (db w)) with
      | [] => (Thrown (mkError ("Role '" ++ roleName ++ "' not found")), w)
      | r :: _ =>
          match db_fault E _ (Q_insert_user_role userId (role_id r)) with
          | Some err => (Thrown err, w)
          | None => (Normal tt, with_db (insert_user_role userId (role_id r) (db w)) w)
          end
      end
  end.
Proof.
  unfold assignRole. rewrite run_abind, run_pg.
  destruct (db_fault E _ (Q_role_by_name roleName)); [reflexivity|].
  cbn [exec]. replace (with_db (db w) w) with w by (destruct w; reflexivity).
  destruct (filter _ (roles (db w))) as [|r rest]; [reflexivity|].
  rewrite run_pg. destruct (db_fault E unit _); reflexivity.
Qed.

(** Whether the role assignment fails is decided by the roles table and
    the store's faults alone, and a failed one changes nothing. *)
Lemma assignRole_fails E (userId roleName : string) (w w1 : world) (err : Error) :
  roles (db w1) = roles (db w) ->
  fst (run E (assignRole userId roleName) w) = Thrown err ->
  run E (assignRole userId roleName) w1 = (Thrown err, w1).
Proof.
  intros Hroles. rewrite !run_assignRole, Hroles.
  destruct (db_fault E _ (Q_role_by_name roleName)); cbn [fst]; [congruence|].
  destruct (filter _ (roles (db w))) as [|r rest]; cbn [fst]; [congruence|].
  destruct (db_fault E unit _); cbn [fst]; [congruence | discriminate].
Qed.

Lemma assignRole_keeps_users E (userId roleName : string) (w : world) :
  users (db (snd (run E (assignRole userId roleName) w))) = users (db w).
Proof.
  rewrite run_assignRole.
  destruct (db_fault E _ (Q_role_by_name roleName)); [reflexivity|].
  destruct (filter _ (roles (db w))) as [|r rest]; [reflexivity|].
  destruct (db_fault E unit _); [reflexivity|].
  cbn [snd db with_db]. unfold insert_user_role.
  destruct (existsb _ _); reflexivity.
Qed.

Lemma roles_upsert_user_details user fn ln ph d :
  roles (upsert_user_details user fn ln ph d) = roles d.
Proof. unfold upsert_user_details. destruct (existsb _ _); reflexivity. Qed.

Lemma users_upsert_user_details user fn ln ph d :
  users (upsert_user_details user fn ln ph d) = users d.
Proof. unfold upsert_user_details. destruct (existsb _ _); reflexivity. Qed.

(** C9, as the code has it. When the users row is inserted, the profile
    row (where one is written) is inserted too, and the default-role
    assignment then fails, [createUser] still returns the user it created:
    the row is in the store and the failure is logged, not thrown. *)
Theorem createUser_survives_role_failure E (w : world) (a : new_user) (err : Error) :
  let id := uuid_draw E (uuids_drawn w) in
  (forall i e h, db_fault E _ (Q_insert_user i e h) = None) ->
  (forall i f l p, db_fault E _ (Q_upsert_user_details i f l p) = None) ->
  users_with_email (toLowerCase (nu_email a)) (db w) = [] ->
  fst (run E (assignRole id (nu_role a)) w) = Thrown err ->
  exists u w',
    run E (createUser a) w = (Normal u, w') /\
    user_id u = id /\ user_email u = toLowerCase (nu_email a) /\
    In u (users (db w')) /\
    log w' = (log w ++ [("Failed to assign role '" ++ nu_role a ++ "' to user " ++ id
                         ++ ": " ++ message err)%string])%list.
Proof.
  intros id Hins Hdet Hfree Hrole. subst id.
  unfold createUser. rewrite run_abind. cbn [run handle perform].
  rewrite run_abind.
  destruct (truthy (nu_password a)); cbn [run handle perform hashPassword abind bind];
    rewrite run_abind, run_pg, Hins; cbn [exec db]; rewrite Hfree;
    cbn [length Nat.eqb negb]; rewrite andb_false_r;
    cbn [with_db db]; rewrite run_abind.
  all: destruct (truthy (nu_firstName a) || truthy (nu_lastName a)
                 || truthy (nu_phone a) || includes (nu_email a) "@hissabbook.temp").
  all: try (rewrite run_pg, Hdet; cbn [exec with_db db user_id]).
  all: try (cbn [run ret user_id]).
  all: rewrite run_abind, run_try_catch.
  all: rewrite (assignRole_fails E _ _ w _ err);
    [ | cbn [db with_db roles with_users];
        rewrite ?roles_upsert_user_details; reflexivity
      | exact Hrole ].
  all: cbn [run handle perform abind bind ret].
  all: eexists; eexists; split; [reflexivity|].
  all: cbn [user_id user_email db with_db with_log log users with_users].
  all: rewrite ?users_upsert_user_details; cbn [users with_users].
  all: repeat split; try reflexivity.
  all: apply in_or_app; right; left; reflexivity.
Qed.

(** With the store available and the email not yet taken, [createUser]
    appends one users row and returns it, whatever becomes of the role. *)
Lemma createUser_creates E (w : world) (a : new_user) :
  store_available E ->
  users_with_email (toLowerCase (nu_email a)) (db w) = [] ->
  exists u w',
    run E (createUser a) w = (Normal u, w') /\
    user_id u = uuid_draw E (uuids_drawn w) /\
    user_email u = toLowerCase (nu_email a) /\
    users (db w') = (users (db w) ++ [u])%list.
Proof.
  intros Hdb Hfree.
  unfold createUser. rewrite run_abind. cbn [run handle perform].
  rewrite run_abind.
  destruct (truthy (nu_password a)); cbn [run handle perform hashPassword abind bind];
    rewrite run_abind, run_pg, Hdb; cbn [exec db]; rewrite Hfree;
    cbn [length Nat.eqb negb]; rewrite andb_false_r;
    cbn [with_db db]; rewrite run_abind.
  all: destruct (truthy (nu_firstName a) || truthy (nu_lastName a)
                 || truthy (nu_phone a) || includes (nu_email a) "@hissabbook.temp").
  all: try (rewrite run_pg, Hdb; cbn [exec with_db db user_id]).
  all: try (cbn [run ret user_id]).
  all: rewrite run_abind, run_try_catch.
  all: match goal with
       | |- context [run ?e (assignRole ?i ?r) ?w0] =>
           pose proof (assignRole_keeps_users e i r w0) as Hkeep;
           destruct (run e (assignRole i r) w0) as [[[]|err] w1]
       end.
  all: cbn [run handle perform abind bind ret snd] in *.
  all: eexists; eexists; split; [reflexivity|].
  all: cbn [user_id user_email db with_db with_log log users with_users] in *.
  all: rewrite Hkeep, ?users_upsert_user_details; cbn [users with_users].
  all: repeat split; reflexivity.
Qed.

Lemma filter_nil_app {A} (f : A -> bool) (l : list A) (x : A) :
  filter f l = [] -> f x = true -> filter f (l ++ [x]) = [x].
Proof.
  intros Hl Hx. rewrite filter_app, Hl. simpl. rewrite Hx. reflexivity.
Qed.

(** C7, as the code has it. Two [/create-user] calls for one new email
    that do not overlap leave exactly one users row for it: the first
    creates the row and answers 201, the second finds that row and answers
    200 with the same identity id. *)
Theorem sequential_create_user_converges E (w : world) (email email' : string)
    (t d : Z) :
  store_available E ->
  users_with_email (toLowerCase email) (db w) = [] ->
  toLowerCase email' = toLowerCase email ->
  exists r1 w1 r2 w2,
    run E (serve (create_user_handler email)) w = (r1, w1) /\
    run E (serve (create_user_handler email')) (at_time t d w1) = (r2, w2) /\
    reply_code r1 = 201 /\ reply_code r2 = 200 /\
    reply_user_id r1 = Some (uuid_draw E (uuids_drawn w)) /\
    reply_user_id r2 = reply_user_id r1 /\
    length (users_with_email (toLowerCase email) (db w2)) = 1.
Proof.
  intros Hdb Hfree Hsame.
  destruct (createUser_creates E w
              {| nu_email := email; nu_password := None; nu_firstName := None;
                 nu_lastName := None; nu_phone := None; nu_role := "managers" |}
              Hdb Hfree) as (u & wc & Hrun & Hid & Hmail & Husers).
  cbn [nu_email] in Hmail.
  assert (H1 : run E (serve (create_user_handler email)) w
               = (replied 201
                    (Body_session
                       {| claim_sub := user_id u; claim_email := user_email u;
                          claim_status := user_status u;
                          claim_roles := role_names_of (user_id u) (db wc);
                          claim_role := or_else (hd_error (role_names_of (user_id u) (db wc)))
                                          "managers" |}
                       {| view_id := user_id u; view_email := user_email u;
                          view_status := user_status u;
                          view_roles := role_names_of (user_id u) (db wc);
                          view_role := or_else (hd_error (role_names_of (user_id u) (db wc)))
                                         "managers";
                          view_createdAt := Some (user_created_at u) |}), wc)).
  { unfold create_user_handler, findUserByEmail, getUserRoles.
    rewrite run_serve, !run_abind, run_pg, Hdb. cbn [exec]. rewrite Hfree.
    cbn [firstn run ret hd_error].
    replace (with_db (db w) w) with w by (destruct w; reflexivity).
    rewrite run_abind, Hrun, run_abind, run_pg, Hdb. cbn [exec].
    replace (with_db (db wc) wc) with wc by (destruct wc; reflexivity).
    reflexivity. }
  assert (Hfound : users_with_email (toLowerCase email') (db (at_time t d wc)) = [u]).
  { unfold users_with_email. cbn [db at_time]. rewrite Husers, Hsame.
    apply filter_nil_app; [exact Hfree | rewrite Hmail; apply String.eqb_refl]. }
  do 2 eexists. exists (replied 200
                   (Body_session
                      {| claim_sub := user_id u; claim_email := user_email u;
                         claim_status := user_status u;
                         claim_roles := role_names_of (user_id u) (db wc);
                         claim_role := or_else (hd_error (role_names_of (user_id u) (db wc)))
                                         "managers" |}
                      {| view_id := user_id u; view_email := user_email u;
                         view_status := user_status u;
                         view_roles := role_names_of (user_id u) (db wc);
                         view_role := or_else (hd_error (role_names_of (user_id u) (db wc)))
                                        "managers";
                         view_createdAt := None |})).
  eexists. split; [exact H1|]. split.
  { unfold create_user_handler, findUserByEmail, getUserRoles.
    rewrite run_serve, !run_abind, run_pg, Hdb. cbn [exec]. rewrite Hfound.
    cbn [firstn run ret hd_error db at_time with_db].
    rewrite run_abind, run_pg, Hdb. cbn [exec db with_db at_time].
    rewrite run_abind, run_pg, Hdb. cbn [exec db with_db at_time].
    reflexivity. }
  cbn [reply_code reply_user_id reply_body replied view_id db with_db at_time].
  repeat split; try reflexivity; [now rewrite Hid|].
  unfold users_with_email, touch_last_login. cbn [users with_users].
  rewrite filter_map_same.
  - rewrite length_map. fold (users_with_email (toLowerCase email) (db wc)).
    unfold users_with_email. rewrite Husers.
    rewrite (filter_nil_app _ _ u Hfree); [reflexivity|].
    rewrite Hmail. apply String.eqb_refl.
  - intros x. destruct (user_id x =? user_id u); reflexivity.
Qed.


(** ** The channel senders, from outside *)

Lemma outbound_bind E {A B} (p : prog A) (f : A -> prog B) (w : world) :
  outbound E (bind p f) w
  = (outbound E p w ++ outbound E (f (fst (run E p w))) (snd (run E p w)))%list.
Proof.
  revert w. induction p as [a|X e k IH]; intros w; simpl; [reflexivity|].
  destruct (handle E e w) as [x w']. rewrite IH, app_assoc. reflexivity.
Qed.

Lemma sendOtpSms_outcome E (code phone : string) (w : world)
    (data : fast2sms_data) :
  fst (run E (sendOtpSms code phone) w) = Normal data <->
  truthy (process_env E "FAST2SMS_API_KEY") = true /\
  exists digits response,
    formatPhoneNumber phone = Normal digits /\
    fast2sms E (gateway_url E) (gateway_key E) (gateway_payload E code digits)
      = Normal response /\
    json_parse E (text response) = Some data /\
    ok response = true /\ data_return data = true.
Proof.
  unfold sendOtpSms, gateway_url, gateway_key, gateway_payload,
    abind, perform, await, throw, ret.
  cbn [run handle bind fst].
  destruct (truthy (process_env E "FAST2SMS_API_KEY")); cbn [negb run fst];
    [|split; [discriminate | intros [H _]; discriminate]].
  destruct (formatPhoneNumber phone) as [digits|error]; cbn [run handle bind fst];
    [|split; [discriminate | intros (_ & ? & ? & H & _); discriminate]].
  destruct (fast2sms E _ _ _) as [response|error] eqn:Hfetch; cbn [run handle bind fst];
    [|split; [discriminate
             | intros (_ & ? & ? & H & Hf & _); injection H as <-; congruence]].
  destruct (json_parse E (text response)) as [parsed|] eqn:Hparse;
    cbn [run handle bind fst];
    [|split; [discriminate
             | intros (_ & ? & ? & H & Hf & Hj & _); injection H as <-;
               rewrite Hfetch in Hf; injection Hf as <-; congruence]].
  destruct (ok response) eqn:Hok; cbn [negb run fst];
    [|split; [discriminate
             | intros (_ & ? & ? & H & Hf & Hj & Ho & _); injection H as <-;
               rewrite Hfetch in Hf; injection Hf as <-; congruence]].
  destruct (data_return parsed) eqn:Hret; cbn [negb run fst].
  - split.
    + intros H. injection H as <-. split; [reflexivity|].
      exists digits, response. repeat split; assumption.
    + intros (_ & ? & ? & H & Hf & Hj & _). injection H as <-.
      rewrite Hfetch in Hf. injection Hf as <-. congruence.
  - split; [discriminate|].
    intros (_ & ? & ? & H & Hf & Hj & _ & Hr). injection H as <-.
    rewrite Hfetch in Hf. injection Hf as <-.
    rewrite Hparse in Hj. injection Hj as <-. congruence.
Qed.

(** X1. [sendOtpSms] reports success exactly when the API key is set, the
    phone normalises, the gateway answers, the answer parses, its status is
    2xx and its [return] property is truthy; what it returns is the parsed
    answer. *)
Theorem sendOtpSms_succeeds_iff E (code phone : string) (w : world)
    (data : fast2sms_data) :
  fst (run E (sendOtpSms code phone) w) = Normal data <->
  truthy (process_env E "FAST2SMS_API_KEY") = true /\
  exists digits response,
    formatPhoneNumber phone = Normal digits /\
    fast2sms E (gateway_url E) (gateway_key E) (gateway_payload E code digits)
      = Normal response /\
    json_parse E (text response) = Some data /\
    ok response = true /\ data_return data = true.
Proof. exact (sendOtpSms_outcome E code phone w data). Qed.

Lemma outbound_sendOtpSms E (code phone : string) (w : world) :
  outbound E (sendOtpSms code phone) w =
  if truthy (process_env E "FAST2SMS_API_KEY") then
    match formatPhoneNumber phone with
    | Normal digits =>
        [Call_fetch (gateway_url E) (gateway_key E) (gateway_payload E code digits)]
    | Thrown _ => []
    end
  else [].
Proof.
  unfold sendOtpSms, gateway_url, gateway_key, gateway_payload,
    abind, perform, await, throw, ret.
  cbn [outbound handle bind call_of app].
  destruct (truthy (process_env E "FAST2SMS_API_KEY")); cbn [negb outbound];
    [|reflexivity].
  destruct (formatPhoneNumber phone) as [digits|error];
    cbn [outbound handle bind call_of app]; [|reflexivity].
  destruct (fast2sms E _ _ _) as [response|error];
    cbn [outbound handle bind call_of app]; [|reflexivity].
  destruct (json_parse E (text response)) as [parsed|];
    cbn [outbound handle bind call_of app]; [|reflexivity].
  destruct (ok response); cbn [negb outbound]; [|reflexivity].
  destruct (data_return parsed); reflexivity.
Qed.

(** X2. [sendOtpSms] contacts the gateway at most once, and not at all
    when the API key is missing or the phone does not normalise; the one
    request it makes carries the code and the normalised digits. *)
Theorem sendOtpSms_calls E (code phone : string) (w : world) :
  outbound E (sendOtpSms code phone) w =
  if truthy (process_env E "FAST2SMS_API_KEY") then
    match formatPhoneNumber phone with
    | Normal digits =>
        [Call_fetch (gateway_url E) (gateway_key E) (gateway_payload E code digits)]
    | Thrown _ => []
    end
  else [].
Proof. exact (outbound_sendOtpSms E code phone w). Qed.

(** X3. [sendOtpEmail] hands nothing to the transport unless both an SMTP
    user and an SMTP password are configured; when they are it sends one
    mail, to the address given and carrying the code, returns the
    transport's message id, and rethrows a transport error with the prefix
    "Failed to send email: ". *)
Theorem sendOtpEmail_behaviour E (code email : string) (w : world) :
  (truthy (smtp_user E) && truthy (smtp_password E) = false ->
   outbound E (sendOtpEmail code email) w = [] /\
   exists error, fst (run E (sendOtpEmail code email) w) = Thrown error) /\
  (truthy (smtp_user E) && truthy (smtp_password E) = true ->
   outbound E (sendOtpEmail code email) w = [Call_mail (otp_mail E code email)] /\
   mail_to (otp_mail E code email) = email /\
   mail_code (otp_mail E code email) = code /\
   fst (run E (sendOtpEmail code email) w) =
   match smtp E (otp_mail E code email) with
   | Normal id => Normal id
   | Thrown error => Thrown (mkError ("Failed to send email: " ++ message error))
   end).
Proof.
  unfold sendOtpEmail, createTransporter, otp_mail, smtp_user, smtp_password,
    try_catch, abind, perform, await, throw, ret.
  cbn [run outbound handle bind call_of app fst].
  destruct (truthy (or_opt (process_env E "SMTP_USER") (process_env E "GMAIL_USER")))
    eqn:Hu;
    cbn [negb andb orb run outbound handle bind call_of app fst];
    rewrite ?Hu; cbn [negb andb orb run outbound handle bind call_of app fst].
  - destruct (truthy (or_opt (process_env E "SMTP_PASSWORD")
                        (process_env E "GMAIL_APP_PASSWORD")));
      cbn [negb andb orb run outbound handle bind call_of app fst].
    + split; [discriminate|]. intros _.
      destruct (smtp E _) as [id|error]; cbn [run outbound handle bind fst];
        repeat split; reflexivity.
    + split; [|discriminate]. intros _. split; [reflexivity|]. eexists; reflexivity.
  - split; [|discriminate]. intros _. split; [reflexivity|]. eexists; reflexivity.
Qed.



(** ** What a request tells, sends and stores *)

Lemma outbound_bind_quiet E {A B} (p : prog A) (f : A -> prog B) (w : world) :
  (forall a w', outbound E (f a) w' = []) ->
  outbound E (bind p f) w = outbound E p w.
Proof.
  intros Hq. rewrite outbound_bind, Hq. apply app_nil_r.
Qed.

Lemma outbound_abind_quiet E {A B} (p : async A) (f : A -> async B) (w : world) :
  (forall a w', outbound E (f a) w' = []) ->
  outbound E (abind p f) w = outbound E p w.
Proof.
  intros Hq. unfold abind. apply outbound_bind_quiet.
  intros [a|e] w'; [apply Hq | reflexivity].
Qed.

Lemma outbound_try_catch_quiet E {A} (p : async A) (h : Error -> async A) (w : world) :
  (forall e w', outbound E (h e) w' = []) ->
  outbound E (try_catch p h) w = outbound E p w.
Proof.
  intros Hq. unfold try_catch. apply outbound_bind_quiet.
  intros [a|e] w'; [reflexivity | apply Hq].
Qed.

Lemma outbound_pg E {X} (q : query X) (w : world) : outbound E (pg q) w = [].
Proof.
  unfold pg, await. cbn [outbound call_of app].
  destruct (handle E (Await_pg q) w). reflexivity.
Qed.

Lemma outbound_serve E (h : async reply) (w : world) :
  outbound E (serve h) w = outbound E h w.
Proof.
  unfold serve. apply outbound_bind_quiet. intros [r|e] w'; reflexivity.
Qed.

Lemma outbound_request_handler E (phone : string) (w : world) :
  outbound E (serve (request_handler phone)) w
  = outbound E (sendOtpSms (code_draw E (codes_drawn w)) phone) (after_draw w).
Proof.
  rewrite outbound_serve. unfold request_handler, generateOtpCode.
  unfold abind at 1, perform at 1. cbn [bind outbound handle call_of app].
  unfold abind at 1, perform at 1. cbn [bind outbound handle call_of app].
  fold (after_draw w).
  rewrite outbound_try_catch_quiet by reflexivity.
  apply outbound_abind_quiet. intros _ w'.
  rewrite outbound_abind_quiet by reflexivity. apply outbound_pg.
Qed.

Lemma outbound_email_request_handler E (email : string) (w : world) :
  outbound E (serve (email_request_handler email)) w
  = outbound E (sendOtpEmail (code_draw E (codes_drawn w)) email) (after_draw w).
Proof.
  rewrite outbound_serve. unfold email_request_handler, generateOtpCode.
  unfold abind at 1, perform at 1. cbn [bind outbound handle call_of app].
  unfold abind at 1, perform at 1. cbn [bind outbound handle call_of app].
  fold (after_draw w).
  rewrite outbound_try_catch_quiet by reflexivity.
  apply outbound_abind_quiet. intros _ w'.
  rewrite outbound_abind_quiet by reflexivity. apply outbound_pg.
Qed.



(** X4. What [/request] answers, sends and stores agree: when it answers
    200, one SMS went out, to the normalised number and carrying the drawn
    code, the record appended holds that same code, and the expiry in the
    answer is the expiry stored, the handler's clock plus the TTL; any
    other answer is a 500 and stores nothing. *)
Theorem request_tells_what_it_stores E (w : world) (phone : string) :
  let code := code_draw E (codes_drawn w) in
  let expiresAt := (js_clock w + OTP_TTL_MINUTES * 60 * 1000)%Z in
  let (answer, w') := run E (serve (request_handler phone)) w in
  (reply_code answer = 200 ->
   exists digits,
     formatPhoneNumber phone = Normal digits /\
     outbound E (serve (request_handler phone)) w
       = [Call_fetch (gateway_url E) (gateway_key E) (gateway_payload E code digits)] /\
     reply_body answer = Body_issued expiresAt /\
     otp_codes (db w')
       = (otp_codes (db w)
          ++ [fresh_otp (Some phone) None code expiresAt (db_clock w) (db w)])%list) /\
  (reply_code answer <> 200 -> reply_code answer = 500 /\ db w' = db w).
Proof.
  intros code expiresAt. subst code expiresAt.
  rewrite run_request_handler, outbound_request_handler. cbv zeta.
  destruct (fst (run E (sendOtpSms _ phone) (after_draw w))) as [data|err] eqn:Hsend.
  - destruct (db_fault E unit _) as [err|].
    + split; [discriminate|]. intros _. split; reflexivity.
    + split; [|intros H; now elim H]. intros _.
      apply sendOtpSms_outcome in Hsend.
      destruct Hsend as (Hkey & digits & response & Hdigits & _).
      exists digits. rewrite outbound_sendOtpSms, Hkey, Hdigits.
      repeat split; reflexivity.
  - split; [discriminate|]. intros _. split; reflexivity.
Qed.

(** X5. The other way round fails: when the gateway has accepted the
    message and the store then rejects the INSERT, [/request] answers 500
    with the store's error and no record exists, although the code has been
    sent. *)
Theorem sent_code_may_go_unstored E (w : world) (phone : string)
    (data : fast2sms_data) (err : Error) :
  let code := code_draw E (codes_drawn w) in
  let expiresAt := (js_clock w + OTP_TTL_MINUTES * 60 * 1000)%Z in
  sms_outcome E code phone (Normal data) ->
  db_fault E _ (Q_insert_otp_phone phone code expiresAt) = Some err ->
  fst (run E (serve (request_handler phone)) w) = replied 500 (send_failure err) /\
  db (snd (run E (serve (request_handler phone)) w)) = db w /\
  exists digits,
    outbound E (serve (request_handler phone)) w
      = [Call_fetch (gateway_url E) (gateway_key E) (gateway_payload E code digits)].
Proof.
  intros code expiresAt Hsms Hfault. subst code expiresAt.
  rewrite run_request_handler, outbound_request_handler. cbv zeta.
  pose proof (Hsms (after_draw w)) as Hsend. rewrite Hsend, Hfault.
  split; [reflexivity|]. split; [reflexivity|].
  apply sendOtpSms_outcome in Hsend.
  destruct Hsend as (Hkey & digits & response & Hdigits & _).
  exists digits. rewrite outbound_sendOtpSms, Hkey, Hdigits. reflexivity.
Qed.

(** ** Expiry, letter case, guesses *)

Lemma expired_core E (q : query (list otp_row)) (belongs : otp_row -> bool)
    (code tag : string) (w : world) (r : otp_row) :
  (forall sc now d,
     exec sc now q d = (Normal (rows_of (latest (filter belongs (otp_codes d)))), d)) ->
  db_fault E _ q = None ->
  latest (filter belongs (otp_codes (db w))) = Some r ->
  otp_used r = false ->
  (js_clock w > otp_expires_at r)%Z ->
  run E (serve (lookup_then_check q code tag)) w
    = (replied 400 (Body_message "OTP expired"), w).
Proof.
  intros Hq Hdb Hr Hused Hlate.
  rewrite (run_lookup_then_check E q _ code tag _ Hq), Hdb.
  unfold checked. rewrite Hr. cbn [rows_of]. rewrite Hused.
  replace (js_clock w >? otp_expires_at r)%Z with true
    by (symmetry; rewrite Z.gtb_ltb; apply Z.ltb_lt; lia).
  reflexivity.
Qed.

(** X6. A code presented after its expiry is answered "OTP expired", even
    though it is the right code, and the record stays as it was: by phone
    through [/verify], by email through [/email/verify]. *)
Theorem issued_code_expires E (w : world) :
  store_available E ->
  created_in_past w ->
  let code := code_draw E (codes_drawn w) in
  let expiresAt := (js_clock w + OTP_TTL_MINUTES * 60 * 1000)%Z in
  (forall phone data,
     truthy (Some phone) = true ->
     sms_outcome E code phone (Normal data) ->
     forall email t d,
       (t > expiresAt)%Z ->
       let issued := snd (run E (serve (request_handler phone)) w) in
       run E (serve (verify_handler
                       {| vb_phone := Some phone; vb_email := email; vb_code := code |}))
           (at_time t d issued)
         = (replied 400 (Body_message "OTP expired"), at_time t d issued)) /\
  (forall email id,
     email_outcome E code email (Normal id) ->
     forall t d,
       (t > expiresAt)%Z ->
       let issued := snd (run E (serve (email_request_handler email)) w) in
       run E (serve (email_verify_handler email code)) (at_time t d issued)
         = (replied 400 (Body_message "OTP expired"), at_time t d issued)).
Proof.
  intros Hdb Hpast code expiresAt. subst code expiresAt. split.
  - intros phone data Hp Hsms email t d Ht issued. subst issued.
    rewrite run_request_handler. cbv zeta.
    rewrite (Hsms (after_draw w)), Hdb. cbn [snd].
    rewrite verify_handler_phone by exact Hp.
    apply (expired_core E (Q_latest_otp_by_phone phone)
             (fun r => opt_eqb (otp_phone r) phone) _ _ _
             (fresh_otp (Some phone) None (code_draw E (codes_drawn w))
                (js_clock w + OTP_TTL_MINUTES * 60 * 1000) (db_clock w) (db w))
             (fun _ _ _ => eq_refl) (Hdb _ _)); [|reflexivity|exact Ht].
    cbn [db at_time with_db insert_otp with_otp_codes otp_codes].
    apply latest_after_insert; [exact Hpast | apply opt_eqb_refl].
  - intros email id Hmail t d Ht issued. subst issued.
    rewrite run_email_request_handler. cbv zeta.
    rewrite (Hmail (after_draw w)), Hdb. cbn [snd].
    rewrite email_verify_handler_eq.
    apply (expired_core E (Q_latest_otp_by_email (toLowerCase email))
             (fun r => opt_eqb (otp_email r) (toLowerCase email)) _ _ _
             (fresh_otp None (Some (toLowerCase email)) (code_draw E (codes_drawn w))
                (js_clock w + OTP_TTL_MINUTES * 60 * 1000) (db_clock w) (db w))
             (fun _ _ _ => eq_refl) (Hdb _ _)); [|reflexivity|exact Ht].
    cbn [db at_time with_db insert_otp with_otp_codes otp_codes].
    apply latest_after_insert; [exact Hpast | apply opt_eqb_refl].
Qed.



Lemma toLowerCase_idempotent (s : string) : toLowerCase (toLowerCase s) = toLowerCase s.
Proof.
  induction s as [|c s IH]; [reflexivity|].
  simpl. rewrite IH. f_equal.
  unfold upper_to_lower.
  destruct ((65 <=? nat_of_ascii c)%nat && (nat_of_ascii c <=? 90)%nat) eqn:Hc.
  - apply andb_true_iff in Hc. destruct Hc as [H1 H2].
    apply Nat.leb_le in H1, H2.
    rewrite nat_ascii_embedding by lia.
    replace ((nat_of_ascii c + 32 <=? 90)%nat) with false
      by (symmetry; apply Nat.leb_gt; lia).
    rewrite andb_false_r. reflexivity.
  - rewrite Hc. reflexivity.
Qed.

(** X7. The email identity ignores letter case: a code issued for an
    address is verified, exactly once, through [/email/verify] under any
    spelling of the address that lower-cases to the same string. *)
Theorem email_identity_ignores_case E (w : world) (email email' id : string) :
  store_available E ->
  created_in_past w ->
  toLowerCase email' = toLowerCase email ->
  let code := code_draw E (codes_drawn w) in
  let expiresAt := (js_clock w + OTP_TTL_MINUTES * 60 * 1000)%Z in
  email_outcome E code email (Normal id) ->
  verifies_exactly_once E (fun c => serve (email_verify_handler email' c))
    (fun d => latest (email_rows (toLowerCase email) d)) code expiresAt
    (snd (run E (serve (email_request_handler email)) w)).
Proof.
  intros Hdb Hpast Hsame code expiresAt Hmail. subst code expiresAt.
  rewrite run_email_request_handler. cbv zeta.
  rewrite (Hmail (after_draw w)), Hdb. cbn [snd].
  set (code := code_draw E (codes_drawn w)).
  set (expiresAt := (js_clock w + OTP_TTL_MINUTES * 60 * 1000)%Z).
  assert (Hlatest :
    latest (filter (fun r => opt_eqb (otp_email r) (toLowerCase email))
              (otp_codes (db (with_db
                 (insert_otp None (Some (toLowerCase email)) code expiresAt
                    (db_clock w) (db w)) (after_draw w)))))
    = Some (fresh_otp None (Some (toLowerCase email)) code expiresAt
              (db_clock w) (db w))).
  { cbn [db with_db insert_otp with_otp_codes otp_codes].
    apply latest_after_insert; [exact Hpast | apply opt_eqb_refl]. }
  unfold verifies_exactly_once. intros t1 d1 Ht.
  rewrite email_verify_handler_eq, Hsame.
  exact (exactly_once_core E (Q_latest_otp_by_email (toLowerCase email)) _ _ _ _ _ _
           (fun _ _ _ => eq_refl) (fun _ => eq_refl) Hdb Hlatest
           eq_refl eq_refl eq_refl t1 d1 Ht).
Qed.

Lemma run_after_lookup E (rows : list otp_row) (code tag : string) (w : world) :
  run E (serve (try_catch (check_and_consume rows code)
                  (fun error =>
                     perform (Log_error tag) ;;
                     send 500 (Body_message "Failed to verify OTP")))) w
  = checked E rows code tag w.
Proof.
  rewrite run_serve, run_try_catch, run_check_and_consume. unfold checked.
  destruct rows as [|otp rest]; [reflexivity|].
  destruct (otp_used otp); [reflexivity|].
  destruct (js_clock w >? otp_expires_at otp)%Z; [reflexivity|].
  destruct (negb (otp_code otp =? code)); [reflexivity|].
  destruct (db_fault E unit (Q_mark_otp_used (otp_id otp))); reflexivity.
Qed.

(** A guess other than the stored code is rejected and changes nothing. *)
Lemma wrong_guess_rejected E (phone guess : string) (w : world) (r : otp_row) :
  db_fault E _ (Q_latest_otp_by_phone phone) = None ->
  truthy (Some phone) = true ->
  latest (phone_rows phone (db w)) = Some r ->
  guess <> otp_code r ->
  exists msg,
    run E (verify_by_phone phone guess) w = (replied 400 (Body_message msg), w).
Proof.
  intros Hdb Hp Hr Hguess. unfold verify_by_phone.
  rewrite verify_handler_phone by exact Hp.
  rewrite (run_lookup_then_check E (Q_latest_otp_by_phone phone)
             (latest_by_phone phone) guess _ _ (fun _ _ _ => eq_refl)), Hdb.
  unfold checked, latest_by_phone. rewrite Hr. cbn [rows_of].
  destruct (otp_used r); [eexists; reflexivity|].
  destruct (js_clock w >? otp_expires_at r)%Z; [eexists; reflexivity|].
  destruct (String.eqb_spec (otp_code r) guess) as [Heq|_]; [congruence|].
  eexists; reflexivity.
Qed.

(** X8. There is no attempt counter: however many wrong codes are
    presented for a phone, each is answered 400 and the store stays as it
    was, so the pending code still verifies afterwards. *)
Theorem wrong_guesses_change_nothing E (w : world) (phone : string) (r : otp_row)
    (attempts : list (string * Z)) :
  store_available E ->
  truthy (Some phone) = true ->
  latest (phone_rows phone (db w)) = Some r ->
  Forall (fun a => fst a <> otp_code r) attempts ->
  let (answers, w') := guesses E (verify_by_phone phone) attempts w in
  db w' = db w /\
  length answers = length attempts /\
  Forall (fun a => reply_code a = 400) answers /\
  (otp_used r = false ->
   forall t d, (t <= otp_expires_at r)%Z ->
     fst (run E (verify_by_phone phone (otp_code r)) (at_time t d w'))
       = replied 200 Body_success).
Proof.
  intros Hdb Hp Hr Hwrong. revert w Hr.
  induction Hwrong as [|[guess t0] rest Hguess Hrest IH]; intros w Hr.
  - cbn [guesses]. split; [reflexivity|]. split; [reflexivity|]. split; [constructor|].
    intros Hused t d Ht. unfold verify_by_phone.
    rewrite verify_handler_phone by exact Hp.
    rewrite (run_lookup_then_check E (Q_latest_otp_by_phone phone)
               (latest_by_phone phone) _ _ _ (fun _ _ _ => eq_refl)), Hdb.
    unfold checked, latest_by_phone. cbn [db at_time js_clock]. rewrite Hr.
    cbn [rows_of]. rewrite Hused, String.eqb_refl, Hdb.
    replace (t >? otp_expires_at r)%Z with false
      by (symmetry; rewrite Z.gtb_ltb; apply Z.ltb_ge; lia).
    reflexivity.
  - cbn [guesses fst] in *.
    destruct (wrong_guess_rejected E phone guess (at_time t0 (db_clock w) w) r
                (Hdb _ _) Hp Hr Hguess) as [msg Hrun].
    rewrite Hrun.
    specialize (IH (at_time t0 (db_clock w) w) Hr).
    destruct (guesses E (verify_by_phone phone) rest (at_time t0 (db_clock w) w))
      as [answers w'].
    destruct IH as (Hsame & Hlen & Hall & Hstill).
    split; [exact Hsame|]. split; [cbn; now rewrite Hlen|].
    split; [constructor; [reflexivity | exact Hall]|]. exact Hstill.
Qed.



(** ** Identities do not interfere *)

Lemma checked_answer_only_reads E (rows : list otp_row) (code tag : string)
    (w w' : world) :
  js_clock w' = js_clock w ->
  fst (checked E rows code tag w') = fst (checked E rows code tag w).
Proof.
  intros Hclock. unfold checked. rewrite Hclock.
  destruct rows as [|otp rest]; [reflexivity|].
  destruct (otp_used otp); [reflexivity|].
  destruct (js_clock w >? otp_expires_at otp)%Z; [reflexivity|].
  destruct (negb (otp_code otp =? code)); [reflexivity|].
  destruct (db_fault E unit _); reflexivity.
Qed.

Lemma string_neq_eqb (s t : string) : s <> t -> (s =? t) = false.
Proof. intros H. now apply String.eqb_neq. Qed.

(** X9. Issuing a code for one phone touches no other identity: the
    records of every other phone and of every email are as before, and any
    [/verify] request that does not name that phone is answered as it would
    have been without the request. *)
Theorem request_leaves_other_identities E (w : world) (phone : string) :
  let w' := snd (run E (serve (request_handler phone)) w) in
  (forall other, other <> phone -> phone_rows other (db w') = phone_rows other (db w)) /\
  (forall email, email_rows email (db w') = email_rows email (db w)) /\
  (forall b t d,
     vb_phone b <> Some phone ->
     fst (run E (serve (verify_handler b)) (at_time t d w'))
       = fst (run E (serve (verify_handler b)) (at_time t d w))).
Proof.
  intros w'.
  assert (Hphones : forall other, other <> phone ->
            phone_rows other (db w') = phone_rows other (db w)).
  { intros other Hother. subst w'. rewrite run_request_handler. cbv zeta.
    destruct (fst (run E (sendOtpSms _ phone) (after_draw w)));
      [destruct (db_fault E unit _)|]; try reflexivity.
    unfold phone_rows. cbn [snd db with_db insert_otp with_otp_codes otp_codes].
    rewrite filter_app. cbn [filter fresh_otp otp_phone opt_eqb].
    rewrite (string_neq_eqb phone other) by congruence. apply app_nil_r. }
  assert (Hemails : forall email, email_rows email (db w') = email_rows email (db w)).
  { intros email. subst w'. rewrite run_request_handler. cbv zeta.
    destruct (fst (run E (sendOtpSms _ phone) (after_draw w)));
      [destruct (db_fault E unit _)|]; try reflexivity.
    unfold email_rows. cbn [snd db with_db insert_otp with_otp_codes otp_codes].
    rewrite filter_app. cbn [filter fresh_otp otp_email opt_eqb]. apply app_nil_r. }
  split; [exact Hphones|]. split; [exact Hemails|].
  intros [p e c] t d Hb. cbn [vb_phone] in Hb.
  destruct (truthy p) eqn:Hp.
  - destruct (truthy_Some _ Hp) as [other ->].
    rewrite verify_handler_phone by exact Hp.
    rewrite !(run_lookup_then_check E (Q_latest_otp_by_phone other)
                (latest_by_phone other) c _ _ (fun _ _ _ => eq_refl)).
    destruct (db_fault E _ (Q_latest_otp_by_phone other)); [reflexivity|].
    unfold latest_by_phone. cbn [db at_time].
    rewrite Hphones by congruence.
    apply checked_answer_only_reads. reflexivity.
  - destruct (truthy e) eqn:He.
    + destruct (truthy_Some _ He) as [email ->].
      rewrite verify_handler_email by assumption.
      rewrite !(run_lookup_then_check E (Q_latest_otp_by_email (toLowerCase email))
                  (latest_by_email (toLowerCase email)) c _ _ (fun _ _ _ => eq_refl)).
      destruct (db_fault E _ (Q_latest_otp_by_email (toLowerCase email)));
        [reflexivity|].
      unfold latest_by_email. cbn [db at_time]. rewrite Hemails.
      apply checked_answer_only_reads. reflexivity.
    + unfold verify_handler. cbn [vb_phone vb_email]. rewrite Hp, He. reflexivity.
Qed.

(** ** Two verifications at once *)

Lemma resume_lookup_then_check E (q : query (list otp_row))
    (sel : database -> list otp_row) (code tag : string) (w : world) :
  (forall sc now d, exec sc now q d = (Normal (sel d), d)) ->
  db_fault E _ q = None ->
  resume E (serve (lookup_then_check q code tag)) w
  = (serve (try_catch (check_and_consume (sel (db w)) code)
              (fun error =>
                 perform (Log_error tag) ;;
                 send 500 (Body_message "Failed to verify OTP"))), w).
Proof.
  intros Hq Hdb. unfold lookup_then_check, serve, try_catch, abind, pg, await.
  cbn [bind resume handle is_await]. rewrite Hdb, Hq.
  destruct w; reflexivity.
Qed.

(** X10. Verification is a read followed by a write, not one step: when
    two [/verify] requests for the same pending code overlap, so that both
    lookups run before either update, both are answered 200. *)
Theorem overlapping_verifications_both_succeed E (w : world) (phone : string)
    (r : otp_row) (email1 email2 : option string) :
  store_available E ->
  truthy (Some phone) = true ->
  latest (phone_rows phone (db w)) = Some r ->
  otp_used r = false ->
  (js_clock w <= otp_expires_at r)%Z ->
  let verify email :=
    serve (verify_handler
             {| vb_phone := Some phone; vb_email := email; vb_code := otp_code r |}) in
  let '(first, second, w') := interleave E [true; false] (verify email1) (verify email2) w in
  first = replied 200 Body_success /\ second = replied 200 Body_success /\
  latest (phone_rows phone (db w')) = Some (set_used r).
Proof.
  intros Hdb Hp Hr Hused Hfresh verify. subst verify. cbv beta.
  rewrite !verify_handler_phone by exact Hp.
  cbn [interleave].
  rewrite (resume_lookup_then_check E (Q_latest_otp_by_phone phone)
             (latest_by_phone phone) _ _ w (fun _ _ _ => eq_refl) (Hdb _ _)).
  rewrite (resume_lookup_then_check E (Q_latest_otp_by_phone phone)
             (latest_by_phone phone) _ _ w (fun _ _ _ => eq_refl) (Hdb _ _)).
  rewrite run_after_lookup.
  assert (Hpass : forall w0,
            js_clock w0 = js_clock w ->
            checked E (latest_by_phone phone (db w)) (otp_code r) "Failed to verify OTP" w0
            = (replied 200 Body_success, with_db (mark_used (otp_id r) (db w0)) w0)).
  { intros w0 Hclock. unfold checked, latest_by_phone. rewrite Hr. cbn [rows_of].
    rewrite Hused, Hclock, String.eqb_refl, Hdb.
    replace (js_clock w >? otp_expires_at r)%Z with false
      by (symmetry; rewrite Z.gtb_ltb; apply Z.ltb_ge; lia).
    reflexivity. }
  rewrite (Hpass w eq_refl). cbv beta iota.
  rewrite run_after_lookup.
  rewrite (Hpass (with_db (mark_used (otp_id r) (db w)) w) eq_refl). cbv beta iota.
  split; [reflexivity|]. split; [reflexivity|].
  cbn [db with_db]. unfold phone_rows, mark_used at 1.
  cbn [otp_codes with_otp_codes].
  assert (Hfirst : latest (filter (fun x => opt_eqb (otp_phone x) phone)
                     (otp_codes (mark_used (otp_id r) (db w)))) = Some (set_used r))
    by (apply latest_after_mark_used; [reflexivity | exact Hr]).
  exact (latest_after_mark_used (fun x => opt_eqb (otp_phone x) phone)
           (fun _ => eq_refl) _ (set_used r) Hfirst).
Qed.



(** ** Roles *)

Lemma role_reported (user role : string) (r : role_row) (rest : list role_row)
    (d : database) :
  filter (fun x => role_name x =? role) (roles d) = r :: rest ->
  In (user, role_id r) (user_roles d) ->
  In role (role_names_of user d).
Proof.
  intros Hfilter Hin. unfold role_names_of. apply in_flat_map.
  exists (user, role_id r). split; [exact Hin|].
  cbn [fst snd]. rewrite String.eqb_refl.
  assert (Hr : In r (filter (fun x => role_name x =? role) (roles d)))
    by (rewrite Hfilter; now left).
  apply filter_In in Hr. destruct Hr as [Hr Hname].
  apply String.eqb_eq in Hname. rewrite <- Hname.
  apply in_map. apply filter_In. split; [exact Hr | apply Nat.eqb_refl].
Qed.

Lemma insert_user_role_In (user : string) (role : nat) (d : database) :
  In (user, role) (user_roles (insert_user_role user role d)).
Proof.
  unfold insert_user_role.
  destruct (existsb _ (user_roles d)) eqn:Hex.
  - apply existsb_exists in Hex. destruct Hex as ([u n] & Hin & Hmatch).
    cbn [fst snd] in Hmatch. apply andb_true_iff in Hmatch.
    destruct Hmatch as [Hu Hn].
    apply String.eqb_eq in Hu. apply Nat.eqb_eq in Hn. now subst.
  - cbn [user_roles with_user_roles]. apply in_or_app. right. now left.
Qed.

Lemma insert_user_role_again (user : string) (role : nat) (d : database) :
  insert_user_role user role (insert_user_role user role d)
  = insert_user_role user role d.
Proof.
  pose proof (insert_user_role_In user role d) as Hin.
  unfold insert_user_role at 1.
  replace (existsb _ (user_roles (insert_user_role user role d))) with true;
    [reflexivity|].
  symmetry. apply existsb_exists. exists (user, role). split; [exact Hin|].
  cbn [fst snd]. now rewrite String.eqb_refl, Nat.eqb_refl.
Qed.

Lemma roles_insert_user_role (user : string) (role : nat) (d : database) :
  roles (insert_user_role user role d) = roles d.
Proof. unfold insert_user_role. destruct (existsb _ _); reflexivity. Qed.

(** X11. Assigning a role that exists makes [getUserRoles] report it, and
    assigning it again changes nothing; assigning a role that does not
    exist throws "Role '...' not found" and changes nothing. *)
Theorem assignRole_then_getUserRoles E (w : world) (user role : string) :
  store_available E ->
  (filter (fun r => role_name r =? role) (roles (db w)) = [] ->
   run E (assignRole user role) w
     = (Thrown (mkError ("Role '" ++ role ++ "' not found")), w)) /\
  (filter (fun r => role_name r =? role) (roles (db w)) <> [] ->
   exists w1 names,
     run E (assignRole user role) w = (Normal tt, w1) /\
     run E (getUserRoles user) w1 = (Normal names, w1) /\
     In role names /\
     run E (assignRole user role) w1 = (Normal tt, w1)).
Proof.
  intros Hdb. rewrite run_assignRole, Hdb. split.
  - intros ->. reflexivity.
  - intros Hsome.
    destruct (filter (fun r => role_name r =? role) (roles (db w)))
      as [|r rest] eqn:Hfilter; [now elim Hsome|].
    rewrite Hdb. eexists. eexists. split; [reflexivity|].
    unfold getUserRoles. rewrite run_pg, Hdb. cbn [exec db with_db].
    split; [reflexivity|]. split.
    + apply (role_reported user role r rest).
      * rewrite roles_insert_user_role. exact Hfilter.
      * apply insert_user_role_In.
    + rewrite run_assignRole, Hdb. cbn [db with_db].
      rewrite roles_insert_user_role, Hfilter, Hdb, insert_user_role_again.
      reflexivity.
Qed.

(** ** Profiles *)








(** ** Creating a user, then finding it *)

(** The store [createUser] leaves when nothing is rejected and the email
    is new. *)
Lemma createUser_store E (w : world) (a : new_user) :
  store_available E ->
  users_with_email (toLowerCase (nu_email a)) (db w) = [] ->
  exists u w',
    run E (createUser a) w = (Normal u, w') /\
    user_id u = uuid_draw E (uuids_drawn w) /\
    user_email u = toLowerCase (nu_email a) /\
    (truthy (nu_password a) = true ->
     user_password_hash u = hash_of E (or_else (nu_password a) EmptyString)) /\
    db_clock w' = db_clock w /\
    db w' =
      (let d1 := with_users (users (db w) ++ [u])%list (db w) in
       let d2 :=
         if truthy (nu_firstName a) || truthy (nu_lastName a) || truthy (nu_phone a)
            || includes (nu_email a) "@hissabbook.temp"
         then upsert_user_details (user_id u) (or_null (nu_firstName a))
                (or_null (nu_lastName a)) (or_null (nu_phone a)) d1
         else d1 in
       match filter (fun r => role_name r =? nu_role a) (roles (db w)) with
       | [] => d2
       | r :: _ => insert_user_role (user_id u) (role_id r) d2
       end).
Proof.
  intros Hdb Hfree.
  unfold createUser. rewrite run_abind. cbn [run handle perform].
  rewrite run_abind.
  destruct (truthy (nu_password a)); cbn [run handle perform hashPassword abind bind];
    rewrite run_abind, run_pg, Hdb; cbn [exec db]; rewrite Hfree;
    cbn [length Nat.eqb negb]; rewrite andb_false_r;
    cbn [with_db db]; rewrite run_abind.
  all: destruct (truthy (nu_firstName a) || truthy (nu_lastName a)
                 || truthy (nu_phone a) || includes (nu_email a) "@hissabbook.temp").
  all: try (rewrite run_pg, Hdb; cbn [exec with_db db user_id]).
  all: try (cbn [run ret user_id]).
  all: rewrite run_abind, run_try_catch, run_assignRole, !Hdb.
  all: cbn [db with_db roles with_users]; rewrite ?roles_upsert_user_details;
    cbn [roles with_users].
  all: destruct (filter (fun r => role_name r =? nu_role a) (roles (db w)))
         as [|r rest]; rewrite ?Hdb.
  all: cbn [run handle perform abind bind ret].
  all: eexists; eexists; split; [reflexivity|].
  all: cbn [user_id user_email user_password_hash db with_db with_log db_clock].
  all: repeat split; try reflexivity; try discriminate.
Qed.

Lemma users_insert_user_role (user : string) (role : nat) (d : database) :
  users (insert_user_role user role d) = users d.
Proof. unfold insert_user_role. destruct (existsb _ _); reflexivity. Qed.

Lemma user_roles_upsert_user_details user fn ln ph d :
  user_roles (upsert_user_details user fn ln ph d) = user_roles d.
Proof. unfold upsert_user_details. destruct (existsb _ _); reflexivity. Qed.

Lemma createUser_store_users (w w' : world) (a : new_user) (u : user_row) :
  db w' =
    (let d1 := with_users (users (db w) ++ [u])%list (db w) in
     let d2 :=
       if truthy (nu_firstName a) || truthy (nu_lastName a) || truthy (nu_phone a)
          || includes (nu_email a) "@hissabbook.temp"
       then upsert_user_details (user_id u) (or_null (nu_firstName a))
              (or_null (nu_lastName a)) (or_null (nu_phone a)) d1
       else d1 in
     match filter (fun r => role_name r =? nu_role a) (roles (db w)) with
     | [] => d2
     | r :: _ => insert_user_role (user_id u) (role_id r) d2
     end) ->
  users (db w') = (users (db w) ++ [u])%list /\ roles (db w') = roles (db w).
Proof.
  intros ->. cbv zeta.
  destruct (filter _ (roles (db w))) as [|r rest];
    rewrite ?users_insert_user_role, ?roles_insert_user_role;
    destruct (truthy (nu_firstName a) || truthy (nu_lastName a) || truthy (nu_phone a)
              || includes (nu_email a) "@hissabbook.temp");
    rewrite ?users_upsert_user_details, ?roles_upsert_user_details;
    split; reflexivity.
Qed.

(** X14. A user that [createUser] has created is found by
    [findUserByEmail] under any spelling of the address that lower-cases to
    the same string; a password given is stored as its hash, and the default
    role, when it exists, is among the roles [getUserRoles] reports. *)
Theorem createUser_then_lookup E (w : world) (a : new_user) (email' : string) :
  store_available E ->
  users_with_email (toLowerCase (nu_email a)) (db w) = [] ->
  toLowerCase email' = toLowerCase (nu_email a) ->
  exists u w' names,
    run E (createUser a) w = (Normal u, w') /\
    run E (findUserByEmail email') w' = (Normal (Some u), w') /\
    (truthy (nu_password a) = true ->
     user_password_hash u = hash_of E (or_else (nu_password a) EmptyString)) /\
    run E (getUserRoles (user_id u)) w' = (Normal names, w') /\
    (filter (fun r => role_name r =? nu_role a) (roles (db w)) <> [] ->
     In (nu_role a) names).
Proof.
  intros Hdb Hfree Hsame.
  destruct (createUser_store E w a Hdb Hfree)
    as (u & w' & Hrun & Hid & Hmail & Hhash & _ & Hstore).
  destruct (createUser_store_users w w' a u Hstore) as [Husers Hroles].
  exists u, w', (role_names_of (user_id u) (db w')).
  split; [exact Hrun|]. split.
  { unfold findUserByEmail. rewrite run_abind, run_pg, Hdb. cbn [exec].
    unfold users_with_email. rewrite Husers, Hsame.
    rewrite (filter_nil_app _ _ u Hfree) by (rewrite Hmail; apply String.eqb_refl).
    cbn [firstn run ret hd_error]. destruct w'; reflexivity. }
  split; [exact Hhash|]. split.
  { unfold getUserRoles. rewrite run_pg, Hdb. cbn [exec]. destruct w'; reflexivity. }
  intros Hrole.
  destruct (filter (fun r => role_name r =? nu_role a) (roles (db w)))
    as [|r rest] eqn:Hfilter; [now elim Hrole|].
  apply (role_reported (user_id u) (nu_role a) r rest).
  - rewrite Hroles. exact Hfilter.
  - rewrite Hstore. cbv zeta. apply insert_user_role_In.
Qed.

(** ** Registration *)

Lemma run_findUserByEmail E (email : string) (w : world) :
  db_fault E _ (Q_user_by_email (toLowerCase email)) = None ->
  run E (findUserByEmail email) w
  = (Normal (hd_error (users_with_email (toLowerCase email) (db w))), w).
Proof.
  intros Hdb. unfold findUserByEmail. rewrite run_abind, run_pg, Hdb. cbn [exec].
  replace (with_db (db w) w) with w by (destruct w; reflexivity).
  destruct (users_with_email (toLowerCase email) (db w)); reflexivity.
Qed.

Lemma register_conflict E (w : world) (b : register_body)
    (u : user_row) :
  db_fault E _ (Q_user_by_email (toLowerCase (rb_email b))) = None ->
  In u (users (db w)) ->
  user_email u = toLowerCase (rb_email b) ->
  run E (serve (register_handler b)) w
    = (replied 409 (Body_message "Email already registered"), w).
Proof.
  intros Hdb Hin Hmail.
  unfold register_handler. rewrite run_serve, run_abind, run_findUserByEmail by exact Hdb.
  assert (Hfound : In u (users_with_email (toLowerCase (rb_email b)) (db w))).
  { apply filter_In. split; [exact Hin | rewrite Hmail; apply String.eqb_refl]. }
  destruct (users_with_email (toLowerCase (rb_email b)) (db w)) as [|x l];
    [contradiction|].
  reflexivity.
Qed.

(** X15. [/register] refuses an address that is already registered, under
    any letter case, with 409 "Email already registered", and leaves the
    world as it was: no user, profile or role is written. *)
Theorem register_refuses_existing_email E (w : world) (b : register_body)
    (u : user_row) :
  db_fault E _ (Q_user_by_email (toLowerCase (rb_email b))) = None ->
  In u (users (db w)) ->
  user_email u = toLowerCase (rb_email b) ->
  run E (serve (register_handler b)) w
    = (replied 409 (Body_message "Email already registered"), w).
Proof. exact (register_conflict E w b u). Qed.

(** X16. [/register] for a new address answers 201 with the id of the row
    it created, whose password hash is the hash of the password given;
    registering the same address again, in any letter case, then answers
    409, and [/create-user] for it answers 200 with that same id. *)
Theorem register_then_again E (w : world) (b : register_body) :
  store_available E ->
  users_with_email (toLowerCase (rb_email b)) (db w) = [] ->
  truthy (Some (rb_password b)) = true ->
  exists r1 w1 u,
    run E (serve (register_handler b)) w = (r1, w1) /\
    reply_code r1 = 201 /\ reply_user_id r1 = Some (user_id u) /\
    In u (users (db w1)) /\
    user_email u = toLowerCase (rb_email b) /\
    user_password_hash u = hash_of E (rb_password b) /\
    (forall b' t d,
       toLowerCase (rb_email b') = toLowerCase (rb_email b) ->
       run E (serve (register_handler b')) (at_time t d w1)
         = (replied 409 (Body_message "Email already registered"), at_time t d w1)) /\
    (forall email' t d,
       toLowerCase email' = toLowerCase (rb_email b) ->
       let r2 := fst (run E (serve (create_user_handler email')) (at_time t d w1)) in
       reply_code r2 = 200 /\ reply_user_id r2 = Some (user_id u)).
Proof.
  intros Hdb Hfree Hpw.
  set (a := {| nu_email := rb_email b; nu_password := Some (rb_password b);
               nu_firstName := or_null (rb_firstName b);
               nu_lastName := or_null (rb_lastName b);
               nu_phone := rb_phone b; nu_role := "managers" |}).
  destruct (createUser_store E w a Hdb Hfree)
    as (u & wc & Hrun & Hid & Hmail & Hhash & _ & Hstore).
  destruct (createUser_store_users w wc a u Hstore) as [Husers _].
  cbn [a nu_email nu_password] in Hmail, Hhash.
  assert (Hu : In u (users (db wc)))
    by (rewrite Husers; apply in_or_app; right; now left).
  eexists. exists wc, u. split.
  { unfold register_handler. rewrite run_serve, run_abind, run_findUserByEmail
      by apply Hdb.
    rewrite Hfree. cbn [hd_error]. fold a.
    rewrite run_abind, Hrun. unfold getUserRoles. rewrite run_abind, run_pg, Hdb.
    cbn [exec]. replace (with_db (db wc) wc) with wc by (destruct wc; reflexivity).
    reflexivity. }
  split; [reflexivity|]. split; [reflexivity|]. split; [exact Hu|].
  split; [exact Hmail|]. split.
  { rewrite (Hhash Hpw). destruct (rb_password b); [discriminate | reflexivity]. }
  split.
  - intros b' t d Hsame.
    apply (register_conflict E _ b' u); [apply Hdb | exact Hu |].
    now rewrite Hmail.
  - intros email' t d Hsame. cbv zeta.
    assert (Hfound : users_with_email (toLowerCase email') (db (at_time t d wc)) = [u]).
    { unfold users_with_email. cbn [db at_time]. rewrite Husers, Hsame.
      apply filter_nil_app; [exact Hfree | rewrite Hmail; apply String.eqb_refl]. }
    unfold create_user_handler.
    rewrite run_serve, run_abind, run_findUserByEmail by apply Hdb.
    rewrite Hfound. cbn [hd_error].
    unfold getUserRoles.
    rewrite run_abind, run_pg, Hdb. cbn [exec db with_db at_time].
    rewrite run_abind, run_pg, Hdb. cbn [exec db with_db at_time].
    split; reflexivity.
Qed.



(** ** More on the phone normaliser *)

Lemma strip_non_digits_fixed (s : string) :
  forallb is_digit (list_ascii_of_string s) = true -> strip_non_digits s = s.
Proof.
  induction s as [|c s IH]; [reflexivity|].
  simpl. intros H. apply andb_true_iff in H. destruct H as [Hc Hs].
  rewrite Hc, (IH Hs). reflexivity.
Qed.

Lemma strip_non_digits_idempotent (s : string) :
  strip_non_digits (strip_non_digits s) = strip_non_digits s.
Proof. apply strip_non_digits_fixed, strip_non_digits_digits. Qed.

Lemma digits_append (s t : string) :
  forallb is_digit (list_ascii_of_string (s ++ t))
  = forallb is_digit (list_ascii_of_string s)
    && forallb is_digit (list_ascii_of_string t).
Proof.
  induction s as [|c s IH]; [reflexivity|].
  simpl. rewrite IH. apply andb_assoc.
Qed.

Lemma digits_tail (s : string) :
  forallb is_digit (list_ascii_of_string s) = true ->
  forallb is_digit (list_ascii_of_string (substring_from 1 s)) = true.
Proof.
  destruct s as [|c s]; [reflexivity|].
  rewrite substring_from_tail. simpl. intros H.
  apply andb_true_iff in H. tauto.
Qed.

(** The normaliser by cases on the number of digits. *)
Lemma formatPhoneNumber_cases (raw : string) :
  let d := strip_non_digits raw in
  let n := String.length d in
  (n < 10 \/ 15 < n -> value_of (formatPhoneNumber raw) = None) /\
  (n = 10 -> formatPhoneNumber raw = Normal ("91" ++ d)) /\
  (n = 11 -> startsWith d "0" = true ->
   formatPhoneNumber raw = Normal ("91" ++ substring_from 1 d)) /\
  (10 < n <= 15 -> ~ (n = 11 /\ startsWith d "0" = true) ->
   formatPhoneNumber raw = Normal d).
Proof.
  intros d n. subst n. unfold formatPhoneNumber. fold d.
  rewrite (andb_comm (startsWith d "0")), (andb_comm (startsWith d "91")).
  repeat split.
  - intros [Hshort|Hlong].
    + decide_test (String.length d <? 10)%nat true. rewrite orb_true_r. reflexivity.
    + decide_test (String.length d =? 0)%nat false.
      decide_test (String.length d <? 10)%nat false.
      decide_test (String.length d =? 11)%nat false.
      decide_test (String.length d =? 10)%nat false.
      decide_test (String.length d =? 12)%nat false.
      decide_test (15 <? String.length d)%nat true.
      reflexivity.
  - intros H10.
    decide_test (String.length d =? 0)%nat false.
    decide_test (String.length d <? 10)%nat false.
    decide_test (String.length d =? 11)%nat false.
    decide_test (String.length d =? 10)%nat true.
    cbn [orb andb]. rewrite length_append, H10. reflexivity.
  - intros H11 H0.
    decide_test (String.length d =? 0)%nat false.
    decide_test (String.length d <? 10)%nat false.
    decide_test (String.length d =? 11)%nat true.
    rewrite H0. cbn [orb andb].
    rewrite length_append, length_substring_from_1, H11. reflexivity.
  - intros [Hlow Hhigh] Hnot.
    decide_test (String.length d =? 0)%nat false.
    decide_test (String.length d <? 10)%nat false.
    decide_test (String.length d =? 10)%nat false.
    decide_test (15 <? String.length d)%nat false.
    cbn [orb].
    assert (Hcase : (String.length d =? 11)%nat && startsWith d "0" = false).
    { destruct (Nat.eqb_spec (String.length d) 11) as [H11|H11]; [|reflexivity].
      destruct (startsWith d "0"); [elim Hnot; split; [exact H11 | reflexivity]
                                    | reflexivity]. }
    rewrite Hcase.
    destruct ((String.length d =? 12)%nat && startsWith d "91");
      decide_test (String.length d <? 10)%nat false;
      decide_test (15 <? String.length d)%nat false;
      reflexivity.
Qed.

Lemma prefixed_91 (x : string) :
  forallb is_digit (list_ascii_of_string x) = true ->
  forallb is_digit (list_ascii_of_string ("91" ++ x)) = true /\
  String.length ("91" ++ x) = 2 + String.length x /\
  startsWith ("91" ++ x) "91" = true.
Proof.
  intros Hx. repeat split.
  - cbn. exact Hx.
  - destruct x; reflexivity.
Qed.

Lemma formatPhoneNumber_shape (raw : string) :
  let n := String.length (strip_non_digits raw) in
  (value_of (formatPhoneNumber raw) <> None <-> 10 <= n <= 15) /\
  (forall digits,
     formatPhoneNumber raw = Normal digits ->
     forallb is_digit (list_ascii_of_string digits) = true /\
     11 <= String.length digits <= 15 /\
     (n = 10 \/ (n = 11 /\ startsWith (strip_non_digits raw) "0" = true) ->
      String.length digits = 12 /\ startsWith digits "91" = true)).
Proof.
  intros n. subst n.
  destruct (formatPhoneNumber_cases raw) as (Hout & H10 & H11 & Hmid).
  set (d := strip_non_digits raw) in *.
  pose proof (strip_non_digits_digits raw) as Hd. fold d in Hd.
  assert (Hcases : String.length d < 10 \/ 15 < String.length d
                   \/ String.length d = 10
                   \/ (String.length d = 11 /\ startsWith d "0" = true)
                   \/ (10 < String.length d <= 15
                       /\ ~ (String.length d = 11 /\ startsWith d "0" = true))).
  { destruct (Nat.eq_dec (String.length d) 11) as [E11|N11];
      [destruct (startsWith d "0") eqn:H0|]; [| |lia].
    - right. right. right. left. split; [exact E11 | reflexivity].
    - right. right. right. right. split; [lia|]. intros [_ H]. discriminate. }
  split.
  - split.
    + intros Hacc.
      destruct (Nat.lt_ge_cases (String.length d) 10) as [Hs|Hs];
        [elim Hacc; apply Hout; now left|].
      destruct (Nat.lt_ge_cases 15 (String.length d)) as [Hl|Hl];
        [elim Hacc; apply Hout; now right | lia].
    + intros Hrange.
      destruct Hcases as [H|[H|[H|[[H H0]|[H Hn]]]]]; try lia.
      * rewrite (H10 H). discriminate.
      * rewrite (H11 H H0). discriminate.
      * rewrite (Hmid H Hn). discriminate.
  - intros digits Hdigits.
    destruct Hcases as [H|[H|[H|[[H H0]|[H Hn]]]]].
    + rewrite Hdigits in Hout. discriminate Hout. now left.
    + rewrite Hdigits in Hout. discriminate Hout. now right.
    + rewrite (H10 H) in Hdigits.
      destruct (prefixed_91 d Hd) as (Hall & Hlen & Hpre).
      assert (Heq : digits = "91" ++ d) by congruence.
      rewrite Heq, Hlen, H.
      repeat split; try assumption; lia.
    + rewrite (H11 H H0) in Hdigits.
      destruct (prefixed_91 _ (digits_tail d Hd)) as (Hall & Hlen & Hpre).
      rewrite length_substring_from_1, H in Hlen.
      assert (Heq : digits = "91" ++ substring_from 1 d) by congruence.
      rewrite Heq, Hlen.
      repeat split; try assumption; lia.
    + rewrite (Hmid H Hn) in Hdigits. injection Hdigits as <-.
      split; [exact Hd|]. split; [lia|].
      intros [H10'|[H11' H0']]; [lia | elim Hn; tauto].
Qed.

(** X17. [formatPhoneNumber] accepts a string exactly when it holds 10 to
    15 digits, whatever else it holds; what it returns consists of digits
    only, 11 to 15 of them, and of exactly 12 starting with 91 when the
    input held 10 digits or 11 with a leading zero. *)
Theorem formatPhoneNumber_accepts_iff (raw : string) :
  let n := String.length (strip_non_digits raw) in
  (value_of (formatPhoneNumber raw) <> None <-> 10 <= n <= 15) /\
  (forall digits,
     formatPhoneNumber raw = Normal digits ->
     forallb is_digit (list_ascii_of_string digits) = true /\
     11 <= String.length digits <= 15 /\
     (n = 10 \/ (n = 11 /\ startsWith (strip_non_digits raw) "0" = true) ->
      String.length digits = 12 /\ startsWith digits "91" = true)).
Proof. exact (formatPhoneNumber_shape raw). Qed.

(** X18. Normalising is insensitive to everything but the digits, and a
    normalised number normalises to itself: two strings with the same
    digits are accepted or rejected alike with the same result, and
    [formatPhoneNumber] applied to its own result returns it unchanged. *)
Theorem formatPhoneNumber_stable (raw : string) :
  (forall raw',
     strip_non_digits raw' = strip_non_digits raw ->
     value_of (formatPhoneNumber raw') = value_of (formatPhoneNumber raw)) /\
  (forall digits,
     formatPhoneNumber raw = Normal digits ->
     formatPhoneNumber digits = Normal digits).
Proof.
  split.
  - intros raw' Hsame.
    destruct (formatPhoneNumber_cases raw) as (Hout & H10 & H11 & Hmid).
    destruct (formatPhoneNumber_cases raw') as (Hout' & H10' & H11' & Hmid').
    rewrite Hsame in *.
    set (d := strip_non_digits raw) in *.
    destruct (Nat.lt_ge_cases (String.length d) 10) as [Hs|Hs];
      [rewrite Hout, Hout' by (now left); reflexivity|].
    destruct (Nat.lt_ge_cases 15 (String.length d)) as [Hl|Hl];
      [rewrite Hout, Hout' by (now right); reflexivity|].
    destruct (Nat.eq_dec (String.length d) 10) as [E10|N10];
      [rewrite H10, H10' by exact E10; reflexivity|].
    destruct (Nat.eq_dec (String.length d) 11) as [E11|N11].
    + destruct (startsWith d "0") eqn:H0.
      * rewrite H11, H11' by (assumption || reflexivity). reflexivity.
      * rewrite Hmid, Hmid'; try reflexivity; try lia;
          intros [_ H]; discriminate.
    + rewrite Hmid, Hmid'; try reflexivity; try lia; intros [H _]; lia.
  - intros digits Hdigits.
    destruct (formatPhoneNumber_shape raw) as [_ Hshape].
    destruct (Hshape digits Hdigits) as (Hall & Hlen & H12). clear Hshape.
    destruct (formatPhoneNumber_cases digits) as (_ & _ & H11' & Hmid').
    rewrite (strip_non_digits_fixed digits Hall) in *.
    destruct (Nat.eq_dec (String.length digits) 11) as [E11|N11].
    + destruct (startsWith digits "0") eqn:H0.
      * (* an 11-digit result with a leading zero cannot come out *)
        exfalso.
        destruct (formatPhoneNumber_cases raw) as (Hout & H10 & H11 & Hmid).
        set (d := strip_non_digits raw) in *.
        destruct (Nat.lt_ge_cases (String.length d) 10) as [Hs|Hs];
          [rewrite Hdigits in Hout; discriminate Hout; now left|].
        destruct (Nat.lt_ge_cases 15 (String.length d)) as [Hl|Hl];
          [rewrite Hdigits in Hout; discriminate Hout; now right|].
        destruct (Nat.eq_dec (String.length d) 10) as [E10|N10].
        { destruct H12 as [H12 _]; [now left | lia]. }
        destruct (Nat.eq_dec (String.length d) 11) as [E11d|N11d].
        { destruct (startsWith d "0") eqn:H0d.
          - destruct H12 as [H12 _];
              [right; split; [assumption | reflexivity] | lia].
          - rewrite Hmid in Hdigits; [|lia|intros [_ H]; discriminate].
            injection Hdigits as <-. congruence. }
        rewrite Hmid in Hdigits; [|lia|intros [H _]; lia].
        injection Hdigits as <-. lia.
      * apply Hmid'; [lia|]. intros [_ H]. discriminate.
    + apply Hmid'; [lia|]. intros [H _]. lia.
Qed.



(** ** Phone accounts *)

(** X19. The phone formatting of [/create-user-phone] agrees with the
    normaliser of the OTP routes on every phone the normaliser accepts;
    where the normaliser throws, the handler goes on with the bare digits. *)
Theorem formattedPhone_agrees (phone : string) :
  (forall digits, formatPhoneNumber phone = Normal digits ->
                  formattedPhone_of phone = digits) /\
  (value_of (formatPhoneNumber phone) = None ->
   formattedPhone_of phone = strip_non_digits phone).
Proof.
  destruct (formatPhoneNumber_cases phone) as (Hout & H10 & H11 & Hmid).
  unfold formattedPhone_of. cbv zeta.
  set (d := strip_non_digits phone) in *.
  rewrite (andb_comm (startsWith d "0")).
  destruct (Nat.eq_dec (String.length d) 10) as [E10|N10].
  { rewrite (H10 E10). decide_test (String.length d =? 11)%nat false.
    decide_test (String.length d =? 10)%nat true. cbn [andb].
    split; [congruence | discriminate]. }
  decide_test (String.length d =? 10)%nat false.
  destruct (Nat.eq_dec (String.length d) 11) as [E11|N11].
  - decide_test (String.length d =? 11)%nat true. cbn [andb].
    destruct (startsWith d "0") eqn:H0.
    + rewrite (H11 E11 eq_refl). split; [congruence | discriminate].
    + rewrite Hmid; [split; [congruence | discriminate] | lia |].
      intros [_ H]. discriminate.
  - decide_test (String.length d =? 11)%nat false. cbn [andb].
    split; [|reflexivity].
    intros digits Hdigits.
    destruct (Nat.lt_ge_cases (String.length d) 10) as [Hs|Hs];
      [rewrite Hdigits in Hout; discriminate Hout; now left|].
    destruct (Nat.lt_ge_cases 15 (String.length d)) as [Hl|Hl];
      [rewrite Hdigits in Hout; discriminate Hout; now right|].
    rewrite Hmid in Hdigits; [congruence | lia | intros [H _]; lia].
Qed.

Lemma run_findUserByPhone S (phone : string) (w : world) :
  more_fault S _ (Q_user_by_phone phone) = None ->
  findUserByPhone S phone w = (Normal (hd_error (users_with_phone phone (db w))), w).
Proof.
  intros Hdb. unfold findUserByPhone, tbind, pg_more, tret. rewrite Hdb.
  cbn [exec_more]. replace (with_db (db w) w) with w by (destruct w; reflexivity).
  destruct (users_with_phone phone (db w)); reflexivity.
Qed.

Lemma run_getUserRoles E (user : string) (w : world) :
  store_available E ->
  run E (getUserRoles user) w = (Normal (role_names_of user (db w)), w).
Proof.
  intros Hdb. unfold getUserRoles. rewrite run_pg, Hdb. cbn [exec].
  destruct w; reflexivity.
Qed.

Lemma run_touch_last_login E (id : string) (w : world) :
  store_available E ->
  run E (pg (Q_touch_last_login id)) w
  = (Normal tt, with_db (touch_last_login id (db_clock w) (db w)) w).
Proof. intros Hdb. rewrite run_pg, Hdb. reflexivity. Qed.

Lemma users_with_phone_touch (phone id : string) (now : Z) (d : database) :
  length (users_with_phone phone (touch_last_login id now d))
  = length (users_with_phone phone d).
Proof.
  unfold users_with_phone, touch_last_login. cbn [users user_details with_users].
  rewrite filter_map_same; [apply length_map|].
  intros x. destruct (user_id x =? id); reflexivity.
Qed.

Lemma existsb_map_same {A} (P : A -> bool) (g : A -> A) (l : list A) :
  (forall r, P (g r) = P r) -> existsb P (map g l) = existsb P l.
Proof.
  intros Hg. induction l as [|r l IH]; [reflexivity|].
  cbn. now rewrite Hg, IH.
Qed.

(** The profile upsert, seen through the phone join. *)
Lemma phone_join_after_upsert (phone : string) (uid xid : string) (d : database) :
  existsb (fun r => (ud_user_id r =? xid) && opt_eqb (ud_phone r) phone)
    (user_details (upsert_user_details uid None None (Some phone) d))
  = (xid =? uid)
    || existsb (fun r => (ud_user_id r =? xid) && opt_eqb (ud_phone r) phone)
         (user_details d).
Proof.
  destruct (String.eqb_spec xid uid) as [->|Hx]; cbn [orb].
  - unfold upsert_user_details.
    destruct (existsb (fun r => ud_user_id r =? uid) (user_details d)) eqn:Hex;
      cbn [user_details with_user_details].
    + apply existsb_exists in Hex. destruct Hex as (r & Hin & Hr).
      apply existsb_exists.
      match goal with
      | |- exists x, In x (map ?g _) /\ _ =>
          exists (g r); split; [exact (in_map g _ _ Hin)|]
      end.
      cbv beta. rewrite Hr. cbn [ud_user_id ud_phone coalesce opt_eqb].
      now rewrite Hr, String.eqb_refl.
    + rewrite existsb_app. cbn [existsb ud_user_id ud_phone opt_eqb].
      rewrite !String.eqb_refl. cbn [andb orb]. apply orb_true_r.
  - unfold upsert_user_details.
    destruct (existsb (fun r => ud_user_id r =? uid) (user_details d)) eqn:Hex;
      cbn [user_details with_user_details].
    + apply existsb_map_same. intros r.
      destruct (String.eqb_spec (ud_user_id r) uid) as [Hr|Hr]; [|reflexivity].
      cbn [ud_user_id ud_phone]. rewrite Hr.
      rewrite (string_neq_eqb uid xid) by congruence. reflexivity.
    + rewrite existsb_app. cbn [existsb ud_user_id ud_phone opt_eqb].
      rewrite (string_neq_eqb uid xid) by congruence. cbn [andb orb].
      apply orb_false_r.
Qed.

Lemma filter_fresh_id (P : user_row -> bool) (uid : string) (l : list user_row) :
  filter P l = [] ->
  Forall (fun x => user_id x <> uid) l ->
  filter (fun x => (user_id x =? uid) || P x) l = [].
Proof.
  induction l as [|x l IH]; intros Hnone Hfresh; [reflexivity|].
  cbn [filter] in *. inversion Hfresh as [|? ? Hx Hl]; subst.
  rewrite (string_neq_eqb _ _ Hx). cbn [orb].
  destruct (P x); [discriminate|]. apply IH; assumption.
Qed.

(** The account a phone selects once [createUser] has stored it with its
    profile. *)
Lemma users_with_phone_created (phone : string) (u : user_row) (d : database) :
  users_with_phone phone d = [] ->
  Forall (fun x => user_id x <> user_id u) (users d) ->
  users_with_phone phone
    (upsert_user_details (user_id u) None None (Some phone)
       (with_users (users d ++ [u])%list d))
  = [u].
Proof.
  intros Hnone Hfresh. unfold users_with_phone.
  rewrite users_upsert_user_details. cbn [users with_users].
  rewrite (filter_ext _
             (fun x => (user_id x =? user_id u)
                       || existsb (fun r => (ud_user_id r =? user_id x)
                                            && opt_eqb (ud_phone r) phone)
                            (user_details d)))
    by (intros x;
        exact (phone_join_after_upsert phone (user_id u) (user_id x)
                 (with_users (users d ++ [u])%list d))).
  rewrite filter_app, (filter_fresh_id _ _ _ Hnone Hfresh).
  cbn [filter app]. rewrite String.eqb_refl. reflexivity.
Qed.



Lemma or_null_truthy (x : option string) : truthy x = true -> or_null x = x.
Proof. unfold or_null. now intros ->. Qed.

Lemma createUser_store_phone (w w' : world) (a : new_user) (u : user_row) :
  nu_firstName a = None -> nu_lastName a = None ->
  truthy (nu_phone a) = true ->
  db w' =
    (let d1 := with_users (users (db w) ++ [u])%list (db w) in
     let d2 :=
       if truthy (nu_firstName a) || truthy (nu_lastName a) || truthy (nu_phone a)
          || includes (nu_email a) "@hissabbook.temp"
       then upsert_user_details (user_id u) (or_null (nu_firstName a))
              (or_null (nu_lastName a)) (or_null (nu_phone a)) d1
       else d1 in
     match filter (fun r => role_name r =? nu_role a) (roles (db w)) with
     | [] => d2
     | r :: _ => insert_user_role (user_id u) (role_id r) d2
     end) ->
  forall phone,
    users_with_phone phone (db w')
    = users_with_phone phone
        (upsert_user_details (user_id u) None None (nu_phone a)
           (with_users (users (db w) ++ [u])%list (db w))).
Proof.
  intros Hfn Hln Hph -> phone. cbv zeta.
  rewrite Hfn, Hln, Hph, (or_null_truthy _ Hph). cbn [truthy orb or_null].
  destruct (filter _ (roles (db w))) as [|r rest]; [reflexivity|].
  unfold users_with_phone, insert_user_role.
  destruct (existsb _ (user_roles _)); reflexivity.
Qed.

Lemma toLowerCase_append (a b : string) :
  toLowerCase (a ++ b) = toLowerCase a ++ toLowerCase b.
Proof. induction a as [|c a IH]; cbn; [reflexivity | now rewrite IH]. Qed.

Lemma toLowerCase_digits (s : string) :
  forallb is_digit (list_ascii_of_string s) = true -> toLowerCase s = s.
Proof.
  induction s as [|c s IH]; [reflexivity|].
  cbn [list_ascii_of_string forallb toLowerCase]. intros H.
  apply andb_true_iff in H. destruct H as [Hc Hs]. rewrite (IH Hs). f_equal.
  unfold is_digit in Hc. unfold upper_to_lower. cbv zeta in *.
  apply andb_true_iff in Hc. destruct Hc as [_ Hhi]. apply Nat.leb_le in Hhi.
  replace (65 <=? nat_of_ascii c)%nat with false
    by (symmetry; apply Nat.leb_gt; lia).
  reflexivity.
Qed.

Lemma formattedPhone_of_digits (phone : string) :
  forallb is_digit (list_ascii_of_string (formattedPhone_of phone)) = true.
Proof.
  unfold formattedPhone_of. cbv zeta.
  pose proof (strip_non_digits_digits phone) as Hd.
  destruct (startsWith (strip_non_digits phone) "0"
            && (String.length (strip_non_digits phone) =? 11)%nat).
  - rewrite digits_append, (digits_tail _ Hd). reflexivity.
  - destruct (String.length (strip_non_digits phone) =? 10)%nat; [|exact Hd].
    rewrite digits_append, Hd. reflexivity.
Qed.

(** The temporary address of a phone account is stored as it is built. *)
Lemma temp_email_lower (phone : string) :
  toLowerCase ("phone_" ++ formattedPhone_of phone ++ "@hissabbook.temp")
  = "phone_" ++ formattedPhone_of phone ++ "@hissabbook.temp".
Proof.
  rewrite !toLowerCase_append, (toLowerCase_digits _ (formattedPhone_of_digits phone)).
  reflexivity.
Qed.

(** X20. Two [/create-user-phone] calls that do not overlap, for phones
    with the same formatted digits (at least one digit), leave one account:
    the first creates it, under the address [phone_<digits>@hissabbook.temp]
    and with the formatted digits as its profile's phone, and answers 201
    with the formatted phone; the second finds that account through the
    profile's phone and answers 200 with the same id. *)
Theorem sequential_create_user_phone_converges E S (w : world) (phone phone' : string)
    (t d : Z) :
  let digits := formattedPhone_of phone in
  let id := uuid_draw E (uuids_drawn w) in
  store_available E ->
  more_fault S _ (Q_user_by_phone digits) = None ->
  formattedPhone_of phone' = digits ->
  truthy (Some digits) = true ->
  users_with_phone digits (db w) = [] ->
  users_with_email (toLowerCase ("phone_" ++ digits ++ "@hissabbook.temp")) (db w) = [] ->
  Forall (fun x => user_id x <> id) (users (db w)) ->
  exists r1 w1 r2 w2 u,
    tserve (fun r => (r, None)) (create_user_phone_handler E S phone) w = (r1, w1) /\
    tserve (fun r => (r, None)) (create_user_phone_handler E S phone') (at_time t d w1)
      = (r2, w2) /\
    reply_code (fst r1) = 201 /\ snd r1 = Some digits /\
    reply_code (fst r2) = 200 /\
    reply_user_id (fst r1) = Some id /\ reply_user_id (fst r2) = Some id /\
    length (users_with_phone digits (db w2)) = 1 /\
    users (db w1) = (users (db w) ++ [u])%list /\
    user_id u = id /\
    user_email u = "phone_" ++ digits ++ "@hissabbook.temp" /\
    users_with_email ("phone_" ++ digits ++ "@hissabbook.temp") (db w1) = [u] /\
    users_with_phone digits (db w1) = [u].
Proof.
  intros digits id Hdb Hmore Hsame Hdigits Hnone Hfree Hfresh.
  set (a := {| nu_email := "phone_" ++ digits ++ "@hissabbook.temp";
               nu_password := None; nu_firstName := None; nu_lastName := None;
               nu_phone := Some digits; nu_role := "managers" |}).
  destruct (createUser_store E w a Hdb Hfree)
    as (u & wc & Hrun & Hid & Hmail & _ & _ & Hstore).
  fold id in Hid.
  pose proof (createUser_store_phone w wc a u eq_refl eq_refl Hdigits Hstore digits)
    as Hphone.
  cbn [a nu_phone] in Hphone.
  rewrite users_with_phone_created in Hphone;
    [|exact Hnone | rewrite Hid; exact Hfresh].
  do 2 eexists. exists (replied 200
                   (Body_session
                      {| claim_sub := user_id u; claim_email := user_email u;
                         claim_status := user_status u;
                         claim_roles := role_names_of (user_id u) (db wc);
                         claim_role := or_else (hd_error (role_names_of (user_id u) (db wc)))
                                         "managers" |}
                      {| view_id := user_id u; view_email := user_email u;
                         view_status := user_status u;
                         view_roles := role_names_of (user_id u) (db wc);
                         view_role := or_else (hd_error (role_names_of (user_id u) (db wc)))
                                        "managers";
                         view_createdAt := None |}), None).
  eexists. exists u. split.
  { unfold tserve, create_user_phone_handler. cbv zeta. fold digits.
    unfold tbind at 1. rewrite run_findUserByPhone by exact Hmore.
    rewrite Hnone. cbn [hd_error]. fold a.
    unfold tbind, task_of, tret. rewrite Hrun, run_getUserRoles by exact Hdb.
    cbn [run session_reply send ret]. reflexivity. }
  split.
  { unfold tserve, create_user_phone_handler. cbv zeta. rewrite Hsame.
    unfold tbind at 1. rewrite run_findUserByPhone by exact Hmore.
    cbn [db at_time]. rewrite Hphone. cbn [hd_error].
    unfold tbind, task_of, tret.
    rewrite run_touch_last_login by exact Hdb.
    rewrite run_getUserRoles by exact Hdb.
    cbn [run session_reply send ret db with_db at_time]. reflexivity. }
  cbn [fst snd reply_code reply_user_id reply_body replied view_id db with_db at_time].
  assert (Haddr : user_email u = "phone_" ++ digits ++ "@hissabbook.temp").
  { rewrite Hmail. cbn [a nu_email]. exact (temp_email_lower phone). }
  assert (Husers : users (db wc) = (users (db w) ++ [u])%list).
  { rewrite Hstore. cbv zeta.
    destruct (truthy (nu_firstName a) || truthy (nu_lastName a) || truthy (nu_phone a)
              || includes (nu_email a) "@hissabbook.temp");
      destruct (filter _ (roles (db w))) as [|r rest];
      rewrite ?users_insert_user_role, ?users_upsert_user_details; reflexivity. }
  repeat split; try reflexivity; try (now rewrite Hid); try assumption.
  - rewrite users_with_phone_touch, Hphone. reflexivity.
  - pose proof Hfree as Hnew. unfold digits in Hnew.
    rewrite temp_email_lower in Hnew. fold digits in Hnew.
    unfold users_with_email in Hnew |- *.
    rewrite Husers, filter_app, Hnew. cbn [filter app].
    rewrite Haddr, String.eqb_refl. reflexivity.
Qed.



Lemma formattedPhone_no_digits (phone : string) :
  strip_non_digits phone = EmptyString -> formattedPhone_of phone = EmptyString.
Proof. unfold formattedPhone_of. intros ->. reflexivity. Qed.

Lemma phone_join_blank (uid : string) (d : database) :
  existsb (fun r => opt_eqb (ud_phone r) EmptyString) (user_details d) = false ->
  existsb (fun r => opt_eqb (ud_phone r) EmptyString)
    (user_details (upsert_user_details uid None None None d)) = false.
Proof.
  intros Hnone. unfold upsert_user_details.
  destruct (existsb (fun r => ud_user_id r =? uid) (user_details d));
    cbn [user_details with_user_details].
  - rewrite existsb_map_same; [exact Hnone|].
    intros r. destruct (ud_user_id r =? uid); reflexivity.
  - rewrite existsb_app, Hnone. reflexivity.
Qed.

Lemma users_with_phone_none (phone : string) (d : database) :
  existsb (fun r => opt_eqb (ud_phone r) phone) (user_details d) = false ->
  users_with_phone phone d = [].
Proof.
  intros Hnone. unfold users_with_phone.
  induction (users d) as [|x l IH]; [reflexivity|].
  cbn [filter].
  replace (existsb _ (user_details d)) with false; [exact IH|].
  symmetry. clear IH. induction (user_details d) as [|r rows IHr]; [reflexivity|].
  cbn [existsb] in *. apply orb_false_iff in Hnone. destruct Hnone as [Hr Hrows].
  rewrite Hr, andb_false_r. exact (IHr Hrows).
Qed.

(** X21. A phone without a single digit passes [/create-user-phone]: the
    first call creates the account phone_@hissabbook.temp with no phone in
    its profile, so a second such call does not find it, tries to create it
    again and, the email being unique, is answered 500. *)
Theorem digitless_phone_account_is_lost E S (w : world) (phone phone' : string)
    (t d : Z) :
  store_available E ->
  more_fault S _ (Q_user_by_phone EmptyString) = None ->
  users_email_unique (tables E) = true ->
  strip_non_digits phone = EmptyString ->
  strip_non_digits phone' = EmptyString ->
  existsb (fun r => opt_eqb (ud_phone r) EmptyString) (user_details (db w)) = false ->
  users_with_email "phone_@hissabbook.temp" (db w) = [] ->
  exists r1 w1 w2,
    tserve (fun r => (r, None)) (create_user_phone_handler E S phone) w = (r1, w1) /\
    reply_code (fst r1) = 201 /\ snd r1 = Some EmptyString /\
    length (users_with_email "phone_@hissabbook.temp" (db w1)) = 1 /\
    tserve (fun r => (r, None)) (create_user_phone_handler E S phone') (at_time t d w1)
      = ((replied 500 (Body_message "duplicate key value violates unique constraint"),
          None), w2) /\
    db w2 = db w1.
Proof.
  intros Hdb Hmore Hunique Hphone Hphone' Hblank Hfree.
  set (a := {| nu_email := "phone_@hissabbook.temp";
               nu_password := None; nu_firstName := None; nu_lastName := None;
               nu_phone := Some EmptyString; nu_role := "managers" |}).
  destruct (createUser_store E w a Hdb Hfree)
    as (u & wc & Hrun & Hid & Hmail & _ & _ & Hstore).
  destruct (createUser_store_users w wc a u Hstore) as [Husers _].
  cbn [a nu_email] in Hmail.
  assert (Hblank' :
    existsb (fun r => opt_eqb (ud_phone r) EmptyString) (user_details (db wc)) = false).
  { rewrite Hstore. cbv zeta. cbn [a nu_firstName nu_lastName nu_phone nu_email
      truthy orb or_null includes String.prefix].
    change (includes "phone_@hissabbook.temp" "@hissabbook.temp") with true.
    cbn [orb].
    destruct (filter _ (roles (db w))) as [|r rest].
    - apply phone_join_blank. exact Hblank.
    - unfold insert_user_role. destruct (existsb _ (user_roles _));
        cbn [user_details with_user_roles]; apply phone_join_blank; exact Hblank. }
  assert (Htaken : users_with_email "phone_@hissabbook.temp" (db wc) = [u]).
  { unfold users_with_email. rewrite Husers.
    apply filter_nil_app; [exact Hfree | rewrite Hmail; reflexivity]. }
  do 3 eexists. split.
  { unfold tserve, create_user_phone_handler. cbv zeta.
    rewrite (formattedPhone_no_digits phone Hphone).
    unfold tbind at 1. rewrite run_findUserByPhone by exact Hmore.
    rewrite (users_with_phone_none _ _ Hblank). cbn [hd_error append]. fold a.
    unfold tbind, task_of, tret. rewrite Hrun, run_getUserRoles by exact Hdb.
    cbn [run session_reply send ret]. reflexivity. }
  cbn [fst snd reply_code replied].
  split; [reflexivity|]. split; [reflexivity|].
  split; [rewrite Htaken; reflexivity|].
  unfold tserve, create_user_phone_handler. cbv zeta.
  rewrite (formattedPhone_no_digits phone' Hphone').
  unfold tbind at 1. rewrite run_findUserByPhone by exact Hmore.
  cbn [db at_time]. rewrite (users_with_phone_none _ _ Hblank').
  cbn [hd_error append].
  unfold tbind, task_of, tret, createUser.
  rewrite run_abind. cbn [run handle perform].
  rewrite run_abind. cbn [truthy run handle perform hashPassword abind bind nu_password].
  rewrite run_abind, run_pg, Hdb. cbn [exec db nu_email at_time].
  change (toLowerCase "phone_@hissabbook.temp") with "phone_@hissabbook.temp".
  rewrite Htaken, Hunique. cbn [length Nat.eqb negb andb].
  split; reflexivity.
Qed.

(** ** Logging in *)

(** X22. [/login] answers an unknown address and a wrong password alike,
    with 401 "Invalid email or password", and in both cases leaves the
    world exactly as it was. *)
Theorem login_failures_alike E S (w : world) (email password : string) :
  db_fault E _ (Q_user_by_email (toLowerCase email)) = None ->
  match hd_error (users_with_email (toLowerCase email) (db w)) with
  | None => True
  | Some u => password_matches S password (user_password_hash u) = false
  end ->
  tserve (fun r => r) (login_handler E S email password) w
  = (replied 401 (Body_message "Invalid email or password"), w).
Proof.
  intros Hdb Hcase.
  unfold tserve, login_handler, tbind at 1, task_of.
  rewrite run_findUserByEmail by exact Hdb.
  destruct (hd_error (users_with_email (toLowerCase email) (db w))) as [u|].
  - unfold tbind, verifyPassword, tret. rewrite Hcase. reflexivity.
  - reflexivity.
Qed.

Lemma users_with_email_touch (email id : string) (now : Z) (d : database) :
  users_with_email email (touch_last_login id now d)
  = map (fun u =>
           if user_id u =? id then
             {| user_id := user_id u; user_email := user_email u;
                user_password_hash := user_password_hash u;
                user_status := user_status u; user_created_at := user_created_at u;
                user_updated_at := now; user_last_login_at := Some now |}
           else u) (users_with_email email d).
Proof.
  unfold users_with_email, touch_last_login. cbn [users with_users].
  apply filter_map_same. intros x. destruct (user_id x =? id); reflexivity.
Qed.

(** X23. Registering and then logging in is a round trip: when the
    password check accepts a password against its own hash, the address and
    password given to [/register] log in afterwards, under any letter case
    of the address, with 200 and the id [/register] returned, and the login
    stamps the account's last login with the store's clock. *)
Theorem register_then_login E S (w : world) (b : register_body) (email' : string)
    (t d : Z) :
  store_available E ->
  users_with_email (toLowerCase (rb_email b)) (db w) = [] ->
  truthy (Some (rb_password b)) = true ->
  password_matches S (rb_password b) (hash_of E (rb_password b)) = true ->
  toLowerCase email' = toLowerCase (rb_email b) ->
  let (r1, w1) := run E (serve (register_handler b)) w in
  let (r2, w2) :=
    tserve (fun r => r) (login_handler E S email' (rb_password b)) (at_time t d w1) in
  reply_code r1 = 201 /\ reply_code r2 = 200 /\
  reply_user_id r2 = reply_user_id r1 /\
  exists u,
    users_with_email (toLowerCase (rb_email b)) (db w2) = [u] /\
    reply_user_id r2 = Some (user_id u) /\
    user_last_login_at u = Some d.
Proof.
  intros Hdb Hfree Hpw Hmatch Hsame.
  set (a := {| nu_email := rb_email b; nu_password := Some (rb_password b);
               nu_firstName := or_null (rb_firstName b);
               nu_lastName := or_null (rb_lastName b);
               nu_phone := rb_phone b; nu_role := "managers" |}).
  destruct (createUser_store E w a Hdb Hfree)
    as (u & wc & Hrun & Hid & Hmail & Hhash & _ & Hstore).
  destruct (createUser_store_users w wc a u Hstore) as [Husers _].
  cbn [a nu_email nu_password] in Hmail, Hhash.
  assert (Hhash' : user_password_hash u = hash_of E (rb_password b)).
  { rewrite (Hhash Hpw). destruct (rb_password b); [discriminate | reflexivity]. }
  assert (Hfound : users_with_email (toLowerCase (rb_email b)) (db wc) = [u]).
  { unfold users_with_email. rewrite Husers.
    apply filter_nil_app; [exact Hfree | rewrite Hmail; apply String.eqb_refl]. }
  unfold register_handler. rewrite run_serve, run_abind, run_findUserByEmail
    by apply Hdb.
  rewrite Hfree. cbn [hd_error]. fold a.
  rewrite run_abind, Hrun, run_abind, run_getUserRoles by exact Hdb.
  cbn [run session_reply send ret].
  unfold tserve, login_handler, tbind at 1, task_of.
  rewrite run_findUserByEmail by apply Hdb.
  cbn [db at_time]. rewrite Hsame, Hfound. cbn [hd_error].
  unfold tbind, verifyPassword, tret. rewrite Hhash', Hmatch. cbn [negb].
  rewrite run_touch_last_login by exact Hdb.
  rewrite run_getUserRoles by exact Hdb.
  cbn [run session_reply send ret db with_db at_time db_clock].
  cbn [reply_code reply_user_id reply_body view_id].
  split; [reflexivity|]. split; [reflexivity|]. split; [reflexivity|].
  rewrite users_with_email_touch, Hfound. cbn [map]. rewrite String.eqb_refl.
  eexists. split; [reflexivity|]. split; reflexivity.
Qed.


(** ** The migration runner *)

Lemma existsb_eqb_In (x : string) (l : list string) :
  existsb (String.eqb x) l = true <-> In x l.
Proof.
  rewrite existsb_exists. split.
  - intros [y [Hin Heq]]. apply String.eqb_eq in Heq. now subst.
  - intros Hin. exists x. split; [assumption | apply String.eqb_refl].
Qed.

Lemma existsb_eqb_not_In (x : string) (l : list string) :
  existsb (String.eqb x) l = false <-> ~ In x l.
Proof.
  rewrite <- existsb_eqb_In. destruct (existsb (String.eqb x) l); split; congruence.
Qed.

Lemma insert_sorted_In (x a : string) (l : list string) :
  In x (insert_sorted a l) <-> x = a \/ In x l.
Proof.
  induction l as [|y rest IH]; cbn.
  - intuition.
  - destruct (String.leb a y); cbn; [|rewrite IH]; intuition.
Qed.

Lemma insert_sorted_permutation (a : string) (l : list string) :
  Permutation (a :: l) (insert_sorted a l).
Proof.
  induction l as [|y rest IH]; cbn.
  - apply Permutation_refl.
  - destruct (String.leb a y).
    + apply Permutation_refl.
    + eapply perm_trans; [apply perm_swap|]. now apply perm_skip.
Qed.

Lemma sort_names_permutation (l : list string) :
  Permutation l (sort_names l).
Proof.
  induction l as [|a rest IH]; cbn.
  - apply perm_nil.
  - eapply perm_trans; [apply perm_skip, IH|]. apply insert_sorted_permutation.
Qed.

Lemma insert_sorted_ascending (a : string) (l : list string) :
  Sorted (fun x y => String.leb x y = true) l ->
  Sorted (fun x y => String.leb x y = true) (insert_sorted a l).
Proof.
  induction 1 as [|y rest Hs IH Hhd]; cbn.
  - repeat constructor.
  - destruct (String.leb a y) eqn:Hay.
    + constructor; [constructor; assumption|]. now constructor.
    + constructor; [assumption|].
      assert (Hya : String.leb y a = true)
        by (destruct (String.leb_total a y); congruence).
      destruct rest as [|z rest']; cbn.
      * now constructor.
      * destruct (String.leb a z); constructor; [assumption|].
        now inversion Hhd.
Qed.

Lemma sort_names_ascending (l : list string) :
  Sorted (fun x y => String.leb x y = true) (sort_names l).
Proof.
  induction l as [|a rest IH]; cbn.
  - constructor.
  - now apply insert_sorted_ascending.
Qed.

(** X24. [loadMigrationFiles] returns the names of the directory's regular
    files that end in [.sql], each as often as the directory lists it, in
    ascending order; directories and other files are left out. *)
Theorem loadMigrationFiles_sorted_scripts (entries : list dir_entry) :
  Sorted (fun x y => String.leb x y = true) (loadMigrationFiles entries)
  /\ Permutation
       (map entry_name
          (filter (fun entry => entry_isFile entry && endsWith (entry_name entry) ".sql")
             entries))
       (loadMigrationFiles entries)
  /\ (forall name, In name (loadMigrationFiles entries) <->
        exists entry, In entry entries /\ entry_name entry = name
                      /\ entry_isFile entry = true
                      /\ endsWith name ".sql" = true).
Proof.
  unfold loadMigrationFiles. split; [apply sort_names_ascending|].
  split; [apply sort_names_permutation|].
  intros name. split.
  - intros Hin.
    apply (Permutation_in _ (Permutation_sym (sort_names_permutation _))) in Hin.
    apply in_map_iff in Hin. destruct Hin as [entry [Hname Hin]].
    apply filter_In in Hin. destruct Hin as [Hin Hok].
    apply andb_true_iff in Hok. destruct Hok as [Hfile Hsql].
    exists entry. subst name. auto.
  - intros [entry [Hin [Hname [Hfile Hsql]]]].
    apply (Permutation_in _ (sort_names_permutation _)).
    apply in_map_iff. exists entry. split; [assumption|].
    apply filter_In. split; [assumption|].
    rewrite Hfile, Hname, Hsql. reflexivity.
Qed.

Lemma pending_after_record (files recorded : list string) (file : string) :
  ~ In file files ->
  pending files (recorded ++ [file]) = pending files recorded.
Proof.
  intros Hnot. unfold pending. apply filter_ext_in. intros f Hin.
  rewrite existsb_app. cbn. rewrite orb_false_r.
  destruct (String.eqb f file) eqn:Heq.
  - apply String.eqb_eq in Heq. subst. contradiction.
  - now rewrite orb_false_r.
Qed.

Lemma apply_migrations_outcome (M : migration_env) (files : list string) :
  NoDup files ->
  forall st r st', apply_migrations M files st = (r, st') ->
  exists done rest sqls,
    pending files (schema_migrations st) = (done ++ rest)%list
    /\ schema_migrations st' = (schema_migrations st ++ done)%list
    /\ committed st' = (committed st ++ sqls)%list
    /\ Forall2 (fun file sql => read_file M file = Normal sql) done sqls
    /\ match r with Normal _ => rest = [] | Thrown _ => rest <> [] end.
Proof.
  induction 1 as [|file rest0 Hnot Hnd IH]; intros st r st' Hrun; cbn in Hrun.
  - injection Hrun as <- <-. exists [], [], []. cbn.
    rewrite !app_nil_r. repeat split. constructor.
  - cbn [pending filter].
    destruct (existsb (String.eqb file) (schema_migrations st)) eqn:Hrec; cbn [negb].
    + apply IH in Hrun. exact Hrun.
    + destruct (read_file M file) as [sql|error] eqn:Hread.
      * cbn in Hrun.
        destruct (script_error M sql (committed st)) as [error|] eqn:Herr.
        -- injection Hrun as <- <-. exists [], (file :: pending rest0 (schema_migrations st)), [].
           cbn. rewrite !app_nil_r. repeat split; [constructor | discriminate].
        -- apply IH in Hrun. cbn in Hrun.
           destruct Hrun as [done [rest [sqls [Hp [Hs [Hc [Hf Hr]]]]]]].
           rewrite (pending_after_record _ _ _ Hnot) in Hp.
           exists (file :: done), rest, (sql :: sqls).
           fold (pending rest0 (schema_migrations st)). rewrite Hp, Hs, Hc.
           rewrite <- !app_assoc. cbn. repeat split; [|assumption].
           constructor; assumption.
      * injection Hrun as <- <-. exists [], (file :: pending rest0 (schema_migrations st)), [].
        cbn. rewrite !app_nil_r. repeat split; [constructor | discriminate].
Qed.

Lemma loadMigrationFiles_NoDup (entries : list dir_entry) :
  NoDup (map entry_name entries) -> NoDup (loadMigrationFiles entries).
Proof.
  intros Hnd. unfold loadMigrationFiles.
  eapply Permutation_NoDup; [apply sort_names_permutation|].
  induction entries as [|e rest IH]; cbn in *; [constructor|].
  inversion Hnd as [|? ? Hnot Hnd']; subst.
  destruct (entry_isFile e && endsWith (entry_name e) ".sql"); cbn; [|auto].
  constructor; [|auto].
  intros Hin. apply Hnot. apply in_map_iff in Hin.
  destruct Hin as [e' [Hname Hin]]. apply filter_In in Hin.
  apply in_map_iff. exists e'. tauto.
Qed.

(** X25. However a run of the migrations ends, it has applied a prefix of
    the pending scripts, in ascending order of file name: their names, and
    only theirs, are added to [schema_migrations], and their contents to the
    committed scripts, one for one.  The run succeeds exactly when the prefix
    is all of them; otherwise the script it stopped at and those after it
    are neither committed nor recorded. *)
Theorem runMigrations_applies_a_prefix (M : migration_env)
    (entries : list dir_entry) (st st' : migration_store) (r : completion unit) :
  directory M = Normal entries ->
  NoDup (map entry_name entries) ->
  runMigrations M st = (r, st') ->
  exists done rest sqls,
    pending (loadMigrationFiles entries) (schema_migrations st) = (done ++ rest)%list
    /\ schema_migrations st' = (schema_migrations st ++ done)%list
    /\ committed st' = (committed st ++ sqls)%list
    /\ Forall2 (fun file sql => read_file M file = Normal sql) done sqls
    /\ (forall file, In file rest -> ~ In file (schema_migrations st'))
    /\ match r with Normal _ => rest = [] | Thrown _ => rest <> [] end.
Proof.
  intros Hdir Hnd Hrun. unfold runMigrations in Hrun. rewrite Hdir in Hrun.
  destruct (apply_migrations M (loadMigrationFiles entries) st) as [r0 st0] eqn:Happly.
  apply (apply_migrations_outcome M _ (loadMigrationFiles_NoDup _ Hnd)) in Happly.
  destruct Happly as [done [rest [sqls [Hp [Hs [Hc [Hf Hr]]]]]]].
  exists done, rest, sqls.
  assert (Hst : schema_migrations st' = schema_migrations st0
                /\ committed st' = committed st0
                /\ match r with Normal _ => rest = [] | Thrown _ => rest <> [] end).
  { destruct r0 as [[]|error]; injection Hrun as <- <-; cbn; auto. }
  destruct Hst as [Hs' [Hc' Hr']]. rewrite Hs', Hc'.
  repeat split; try assumption.
  intros file Hin Hrec. rewrite Hs in Hrec.
  assert (Hpend : NoDup (done ++ rest)).
  { rewrite <- Hp. apply NoDup_filter, loadMigrationFiles_NoDup, Hnd. }
  assert (Hfile : In file (pending (loadMigrationFiles entries) (schema_migrations st))).
  { rewrite Hp. apply in_or_app. now right. }
  apply filter_In in Hfile. destruct Hfile as [_ Hnew].
  apply negb_true_iff, existsb_eqb_not_In in Hnew.
  apply in_app_or in Hrec. destruct Hrec as [Hrec|Hrec]; [contradiction|].
  clear - Hpend Hin Hrec.
  induction done as [|d done' IH]; [contradiction|].
  cbn in Hpend. inversion Hpend as [|? ? Hnot Hnd']; subst.
  destruct Hrec as [->|Hrec]; [|auto].
  apply Hnot. apply in_or_app. now right.
Qed.

Lemma apply_migrations_all_recorded (M : migration_env) (files : list string) :
  forall st, (forall file, In file files -> In file (schema_migrations st)) ->
  exists st', apply_migrations M files st = (Normal tt, st')
              /\ schema_migrations st' = schema_migrations st
              /\ committed st' = committed st.
Proof.
  induction files as [|file rest IH]; intros st Hall; cbn.
  - eauto.
  - assert (Hrec : existsb (String.eqb file) (schema_migrations st) = true)
      by (apply existsb_eqb_In, Hall; now left).
    rewrite Hrec. apply (IH (printed (Skipping file) st)).
    intros f Hin. cbn. apply Hall. now right.
Qed.

Lemma apply_migrations_records (M : migration_env) (files : list string) :
  forall st st', apply_migrations M files st = (Normal tt, st') ->
  (forall file, In file (schema_migrations st) -> In file (schema_migrations st'))
  /\ (forall file, In file files -> In file (schema_migrations st')).
Proof.
  induction files as [|file rest IH]; intros st st' Hrun; cbn in Hrun.
  - injection Hrun as <-. split; [auto | contradiction].
  - destruct (existsb (String.eqb file) (schema_migrations st)) eqn:Hrec.
    + apply IH in Hrun. cbn in Hrun. destruct Hrun as [Hkeep Hnew].
      split; [assumption|]. intros f [<-|Hin]; [|auto].
      apply Hkeep. now apply existsb_eqb_In.
    + destruct (read_file M file) as [sql|error]; [|discriminate].
      cbn in Hrun. destruct (script_error M sql (committed st)); [discriminate|].
      apply IH in Hrun. cbn in Hrun. destruct Hrun as [Hkeep Hnew].
      split.
      * intros f Hin. apply Hkeep. apply in_or_app. now left.
      * intros f [<-|Hin]; [|auto]. apply Hkeep. apply in_or_app. right. now left.
Qed.

(** X26. After a run that succeeded, a second run over the same directory
    succeeds too and applies nothing, whatever the files now contain and
    whatever the store would now say to them: every script is skipped. *)
Theorem runMigrations_again_applies_nothing (M M' : migration_env)
    (st st1 : migration_store) :
  directory M' = directory M ->
  runMigrations M st = (Normal tt, st1) ->
  exists st2, runMigrations M' st1 = (Normal tt, st2)
              /\ schema_migrations st2 = schema_migrations st1
              /\ committed st2 = committed st1.
Proof.
  intros Hdir Hrun. unfold runMigrations in *. rewrite Hdir.
  destruct (directory M) as [entries|error]; [|discriminate].
  destruct (apply_migrations M (loadMigrationFiles entries) st) as [r0 st0] eqn:Happly.
  destruct r0 as [[]|error]; [|discriminate].
  injection Hrun as <-.
  apply apply_migrations_records in Happly. destruct Happly as [_ Hall].
  destruct (apply_migrations_all_recorded M' (loadMigrationFiles entries)
              (printed All_applied st0) Hall) as [st2 [Hrun2 [Hs Hc]]].
  rewrite Hrun2. eexists. split; [reflexivity|]. cbn. auto.
Qed.


(** ** Uploaded images *)

Lemma prefix_append (p t : string) : String.prefix p (p ++ t) = true.
Proof.
  induction p as [|c p IH]; cbn; [now destruct t|].
  destruct (ascii_dec c c); [assumption | contradiction].
Qed.

Lemma prefix_split (p s : string) :
  String.prefix p s = true -> s = p ++ substring_from (String.length p) s.
Proof.
  revert s. induction p as [|c p IH]; intros s Hp.
  - unfold substring_from. cbn. rewrite Nat.sub_0_r. now rewrite substring_all.
  - destruct s as [|x s]; [discriminate|]. cbn in Hp.
    destruct (ascii_dec c x) as [->|]; [|discriminate].
    cbn. f_equal. unfold substring_from in *. cbn. now apply IH.
Qed.

Lemma substring_from_append (p t : string) :
  substring_from (String.length p) (p ++ t) = t.
Proof.
  unfold substring_from. induction p as [|c p IH]; cbn.
  - rewrite Nat.sub_0_r. apply substring_all.
  - exact IH.
Qed.

Lemma append_nonempty (p t : string) :
  (String.length p <? String.length (p ++ t))%nat = true <-> t <> EmptyString.
Proof.
  rewrite length_append, Nat.ltb_lt. destruct t; cbn; split; intros H;
    first [lia | discriminate | congruence].
Qed.

Lemma split_last_sound (sep s m d : string) :
  split_last sep s = Some (m, d) -> s = m ++ sep ++ d /\ d <> EmptyString.
Proof.
  revert m. induction s as [|c rest IH]; intros m Hs; cbn [split_last] in Hs;
    [discriminate|].
  destruct (split_last sep rest) as [[before after]|].
  - injection Hs as <- <-. destruct (IH before eq_refl) as [-> Hd]. now split.
  - destruct (String.prefix sep (String c rest)) eqn:Hp; cbn [andb] in Hs; [|discriminate].
    destruct (String.length sep <? String.length (String c rest))%nat eqn:Hlen;
      [|discriminate].
    injection Hs as <- <-. cbn [append].
    pose proof (prefix_split _ _ Hp) as Heq. split; [exact Heq|].
    apply (append_nonempty sep). rewrite <- Heq. exact Hlen.
Qed.

Lemma split_last_longest (sep m d : string) :
  d <> EmptyString ->
  exists m2 d2, split_last sep (m ++ sep ++ d) = Some (m2, d2)
                /\ String.length m <= String.length m2.
Proof.
  intros Hd. induction m as [|c m IH].
  - cbn [append]. destruct (sep ++ d) as [|c rest] eqn:Hs.
    + destruct sep; [cbn in Hs; contradiction | discriminate].
    + cbn [split_last]. destruct (split_last sep rest) as [[before after]|].
      * eexists _, _. split; [reflexivity | cbn; lia].
      * rewrite <- Hs, prefix_append.
        rewrite (proj2 (append_nonempty sep d) Hd).
        eexists _, _. split; [reflexivity | cbn; lia].
  - destruct IH as (m2 & d2 & Hs & Hlen). cbn [append split_last]. rewrite Hs.
    eexists _, _. split; [reflexivity | cbn; lia].
Qed.

Lemma data_url_recognised_aux (s : string) :
  (forall mimeType data,
     match_data_url s = Some (mimeType, data) ->
     s = "data:" ++ mimeType ++ ";base64," ++ data
     /\ mimeType <> EmptyString /\ data <> EmptyString /\ single_line s = true
     /\ forall m d, s = "data:" ++ m ++ ";base64," ++ d -> d <> EmptyString ->
                    String.length m <= String.length mimeType)
  /\ (match_data_url s = None ->
      forall m d, m <> EmptyString -> d <> EmptyString ->
                  s = "data:" ++ m ++ ";base64," ++ d -> single_line s = false).
Proof.
  unfold match_data_url, startsWith. split.
  - intros mimeType data Hm.
    destruct (String.prefix "data:" s) eqn:Hp; [|discriminate].
    destruct (single_line s) eqn:Hl; [|discriminate]. cbn [andb] in Hm.
    destruct (split_last ";base64," (substring_from 5 s)) as [[[|c before] after]|] eqn:Hs;
      try discriminate.
    injection Hm as <- <-.
    destruct (split_last_sound _ _ _ _ Hs) as [Hrest Hd].
    pose proof (prefix_split _ _ Hp) as Heq. cbn [String.length] in Heq.
    repeat split; try assumption; try discriminate.
    + rewrite Heq at 1. now rewrite Hrest.
    + intros m d Hs' Hd'.
      assert (Hrest' : substring_from 5 s = m ++ ";base64," ++ d).
      { rewrite Hs'. exact (substring_from_append "data:" _). }
      destruct (split_last_longest ";base64," m d Hd') as (m2 & d2 & Hs2 & Hlen).
      rewrite <- Hrest', Hs in Hs2. injection Hs2 as <- <-. exact Hlen.
  - intros Hnone m d Hm Hd Hs.
    assert (Hp : String.prefix "data:" s = true)
      by (rewrite Hs; exact (prefix_append "data:" _)).
    rewrite Hp in Hnone. destruct (single_line s); [|reflexivity].
    cbn [andb] in Hnone.
    assert (Hrest : substring_from 5 s = m ++ ";base64," ++ d).
    { rewrite Hs. exact (substring_from_append "data:" _). }
    destruct (split_last_longest ";base64," m d Hd) as (m2 & d2 & Hs2 & Hlen).
    rewrite <- Hrest in Hs2. rewrite Hs2 in Hnone.
    destruct m2 as [|c m2]; [|discriminate].
    destruct m; [contradiction | cbn in Hlen; lia].
Qed.

(** X27. [saveImageToDisk] takes for a data URL exactly the one-line strings
    of the form [data:<type>;base64,<data>] with a type and data that are
    not empty; where such a string can be cut in several places, the type
    is the longest possible. *)
Theorem data_url_recognised (s : string) :
  (forall mimeType data,
     match_data_url s = Some (mimeType, data) ->
     s = "data:" ++ mimeType ++ ";base64," ++ data
     /\ mimeType <> EmptyString /\ data <> EmptyString /\ single_line s = true
     /\ forall m d, s = "data:" ++ m ++ ";base64," ++ d -> d <> EmptyString ->
                    String.length m <= String.length mimeType)
  /\ (match_data_url s = None ->
      forall m d, m <> EmptyString -> d <> EmptyString ->
                  s = "data:" ++ m ++ ";base64," ++ d -> single_line s = false).
Proof. exact (data_url_recognised_aux s). Qed.




Lemma chars_append (a b : string) :
  list_ascii_of_string (a ++ b)
  = (list_ascii_of_string a ++ list_ascii_of_string b)%list.
Proof. induction a as [|c a IH]; cbn; [reflexivity | now rewrite IH]. Qed.

Lemma plain_append (a b : string) : plain (a ++ b) = plain a && plain b.
Proof. unfold plain. now rewrite chars_append, forallb_app. Qed.

Lemma single_line_append (a b : string) :
  single_line (a ++ b) = single_line a && single_line b.
Proof. unfold single_line. now rewrite chars_append, forallb_app. Qed.

Lemma plain_char_ordinary (c : ascii) :
  plain_char c = true ->
  c <> "."%char /\ c <> "/"%char /\ c <> ascii_of_nat 92.
Proof.
  destruct c as [[] [] [] [] [] [] [] []]; intros H; try discriminate H;
    repeat split; discriminate.
Qed.

Lemma base64_char_ordinary (c : ascii) :
  base64_char c = true -> c <> ";"%char /\ line_terminator c = false.
Proof.
  destruct c as [[] [] [] [] [] [] [] []]; intros H; try discriminate H;
    split; try discriminate; reflexivity.
Qed.

Lemma base64_single_line (s : string) : base64_text s = true -> single_line s = true.
Proof.
  unfold base64_text, single_line.
  induction (list_ascii_of_string s) as [|c l IH]; cbn; [reflexivity|].
  intros H. apply andb_true_iff in H. destruct H as [Hc Hl].
  rewrite (proj2 (base64_char_ordinary c Hc)). cbn. auto.
Qed.

(** No semicolon in [s]. *)
Lemma split_last_none (sep' s : string) :
  Forall (fun c => c <> ";"%char) (list_ascii_of_string s) ->
  split_last (String ";" sep') s = None.
Proof.
  induction s as [|c rest IH]; cbn [list_ascii_of_string split_last]; [reflexivity|].
  intros H. inversion H as [|? ? Hc Hrest]; subst. rewrite (IH Hrest).
  cbn [String.prefix]. destruct (ascii_dec ";" c) as [Heq|]; [|reflexivity].
  now subst.
Qed.

Lemma split_last_exact (sep' m d : string) :
  Forall (fun c => c <> ";"%char) (list_ascii_of_string m) ->
  Forall (fun c => c <> ";"%char) (list_ascii_of_string (sep' ++ d)) ->
  d <> EmptyString ->
  split_last (String ";" sep') (m ++ String ";" sep' ++ d) = Some (m, d).
Proof.
  intros Hm Hd Hne. induction m as [|c m IH].
  - change (EmptyString ++ String ";" sep' ++ d) with (String ";" (sep' ++ d)).
    cbn [split_last]. rewrite (split_last_none sep' _ Hd).
    change (String ";" (sep' ++ d)) with (String ";" sep' ++ d).
    rewrite prefix_append, (proj2 (append_nonempty _ d) Hne), substring_from_append.
    reflexivity.
  - inversion Hm as [|? ? Hc Hm']; subst.
    change (String c m ++ String ";" sep' ++ d)
      with (String c (m ++ String ";" sep' ++ d)).
    cbn [split_last]. now rewrite (IH Hm').
Qed.

Lemma base64_no_semicolon (s : string) :
  base64_text s = true -> Forall (fun c => c <> ";"%char) (list_ascii_of_string s).
Proof.
  unfold base64_text. induction (list_ascii_of_string s) as [|c l IH]; cbn; [constructor|].
  intros H. apply andb_true_iff in H. destruct H as [Hc Hl].
  constructor; [exact (proj1 (base64_char_ordinary c Hc)) | auto].
Qed.

Lemma match_data_url_exact (m d : string) :
  m <> EmptyString ->
  Forall (fun c => c <> ";"%char) (list_ascii_of_string m) ->
  single_line m = true ->
  base64_text d = true ->
  d <> EmptyString ->
  match_data_url ("data:" ++ m ++ ";base64," ++ d) = Some (m, d).
Proof.
  intros Hm Hsemi Hline Hd Hne. unfold match_data_url, startsWith.
  rewrite prefix_append, !single_line_append, Hline, (base64_single_line d Hd).
  cbn [single_line list_ascii_of_string forallb andb].
  replace (substring_from 5 ("data:" ++ m ++ ";base64," ++ d))
    with (m ++ ";base64," ++ d) by (symmetry; exact (substring_from_append "data:" _)).
  assert (Hcheck : forallb (fun c => negb (line_terminator c))
                     (list_ascii_of_string "data:")
                   && forallb (fun c => negb (line_terminator c))
                        (list_ascii_of_string ";base64,") = true) by reflexivity.
  change (single_line "data:" && (true && (single_line ";base64," && true)))
    with (single_line "data:" && (single_line ";base64," && true)).
  replace (single_line "data:" && (single_line ";base64," && true)) with true
    by reflexivity.
  rewrite split_last_exact; try assumption.
  - destruct m; [contradiction | reflexivity].
  - rewrite chars_append. apply Forall_app. split.
    + repeat constructor; discriminate.
    + exact (base64_no_semicolon d Hd).
Qed.

Lemma includes_after_plain (a b : string) (x : ascii) (p : string) :
  plain a = true ->
  plain_char x = false ->
  includes b (String x p) = false ->
  includes (a ++ b) (String x p) = false.
Proof.
  intros Ha Hx Hb. induction a as [|c a IH]; [exact Hb|].
  unfold plain in Ha. cbn in Ha. apply andb_true_iff in Ha. destruct Ha as [Hc Ha].
  cbn [append includes String.prefix].
  destruct (ascii_dec x c) as [->|]; [congruence|].
  cbn [orb]. exact (IH Ha).
Qed.

Lemma uint_plain (d : Decimal.uint) : plain (NilEmpty.string_of_uint d) = true.
Proof. induction d; cbn; auto. Qed.

Lemma string_of_Z_plain (z : Z) : plain (string_of_Z z) = true.
Proof.
  unfold string_of_Z, NilZero.string_of_int, NilZero.string_of_uint.
  destruct (Z.to_int z) as [d|d]; destruct d; try reflexivity;
    first [exact (uint_plain _) | exact (uint_plain (Decimal.D0 d))
          | idtac ].
  all: try (change (plain (String "-" (NilEmpty.string_of_uint _)) = true);
            apply (uint_plain _)).
Qed.

Lemma append_assoc_s (a b c : string) : (a ++ b) ++ c = a ++ b ++ c.
Proof. induction a as [|x a IH]; cbn; [reflexivity | now rewrite IH]. Qed.

Lemma image_name_shape (D : disk) (prefix ext : string) :
  plain prefix = true ->
  plain (randomUUID D) = true ->
  exists c body,
    image_name D prefix ext = String c (body ++ "." ++ ext)
    /\ plain_char c = true /\ plain body = true.
Proof.
  intros Hp Hu. unfold image_name.
  set (tail := string_of_Z (date_now D) ++ "-" ++ randomUUID D).
  assert (Htail : plain tail = true).
  { unfold tail. rewrite !plain_append, string_of_Z_plain, Hu. reflexivity. }
  replace (prefix ++ "-" ++ string_of_Z (date_now D) ++ "-" ++ randomUUID D ++ "." ++ ext)
    with ((prefix ++ "-" ++ tail) ++ "." ++ ext).
  2:{ unfold tail. now rewrite !append_assoc_s. }
  assert (Hbody : plain (prefix ++ "-" ++ tail) = true).
  { rewrite !plain_append, Hp, Htail. reflexivity. }
  destruct (prefix ++ "-" ++ tail) as [|c body] eqn:Hb.
  - destruct prefix; discriminate.
  - unfold plain in Hbody. cbn in Hbody. apply andb_true_iff in Hbody.
    exists c, body. cbn. tauto.
Qed.

Lemma from_last_dot_append (a e : string) :
  from_last_dot e = None ->
  from_last_dot (a ++ "." ++ e) = Some ("." ++ e).
Proof.
  intros He. induction a as [|c a IH].
  - cbn. now rewrite He.
  - cbn [append from_last_dot]. cbn [append] in IH. now rewrite IH.
Qed.

Lemma lookup_written (name content : string) (files : uploads) :
  lookup_file name (write_file name content files) = Some content.
Proof. unfold lookup_file, write_file. cbn. now rewrite String.eqb_refl. Qed.

Lemma lookup_removed (name : string) (files : uploads) :
  lookup_file name (remove_file name files) = None.
Proof.
  unfold lookup_file, remove_file. induction files as [|f files IH]; cbn; [reflexivity|].
  destruct (fst f =? name) eqn:Hf; cbn; [exact IH|]. now rewrite Hf.
Qed.

Lemma plain_first_char (c : ascii) (rest s : string) :
  plain_char c = true ->
  s = "" \/ s = "." \/ s = ".." ->
  (String c rest =? s) = false.
Proof.
  intros Hc Hs. destruct (plain_char_ordinary c Hc) as [Hdot _].
  apply String.eqb_neq. intros Heq. destruct Hs as [->|[->| ->]];
    [discriminate | injection Heq as -> _; congruence
     | injection Heq as -> _; congruence].
Qed.

(** X29. An image uploaded as a data URL of type [image/png], [image/jpg],
    [image/jpeg], [image/gif] or [image/webp], with a prefix and a UUID made
    of letters, digits, hyphens and underscores, is stored under
    [<prefix>-<time>-<uuid>.<subtype>], and [GET /uploads/<that name>] then
    answers with the decoded data and the content type of the subtype
    ([image/jpeg] for [jpg]), provided the disk does not fail. *)
Theorem saved_image_is_served (D : disk) (prefix ext ctype data : string)
    (files : uploads) :
  In (ext, ctype) image_types ->
  plain prefix = true ->
  plain (randomUUID D) = true ->
  data <> EmptyString ->
  base64_text data = true ->
  mkdir_fault D = None ->
  write_fault D (image_name D prefix ext) = None ->
  read_fault D (image_name D prefix ext) = None ->
  exists files',
    saveImageToDisk D ("data:image/" ++ ext ++ ";base64," ++ data) prefix files
      = (Normal (Some (image_name D prefix ext)), files')
    /\ uploads_handler D (image_name D prefix ext) files'
       = Sent ctype (decode_base64 D data).
Proof.
  intros Hin Hp Hu Hne Hd Hmk Hwr Hrd.
  exists (write_file (image_name D prefix ext) (decode_base64 D data) files).
  assert (Hext : from_last_dot ext = None
                 /\ includes ("." ++ ext) ".." = false
                 /\ includes ("." ++ ext) "/" = false
                 /\ includes ("." ++ ext) backslash = false
                 /\ or_else (contentTypeMap (toLowerCase ("." ++ ext)))
                      "application/octet-stream" = ctype
                 /\ match_data_url ("data:" ++ ("image/" ++ ext) ++ ";base64," ++ data)
                    = Some ("image/" ++ ext, data)
                 /\ startsWith ("image/" ++ ext) "image/" = true
                 /\ or_else (nth_error (split_char slash ("image/" ++ ext)) 1) "png" = ext).
  { unfold image_types in Hin. cbn [In] in Hin.
    repeat (destruct Hin as [Hin|Hin]; [injection Hin as <- <-|]); [..|contradiction].
    all: repeat split; try reflexivity.
    all: apply match_data_url_exact; try assumption; try discriminate;
      try reflexivity; repeat constructor; discriminate. }
  destruct Hext as (Hdot & Hdd & Hsl & Hbs & Hct & Hm & Himg & Hsplit).
  split.
  - unfold saveImageToDisk.
    change ("data:image/" ++ ext ++ ";base64," ++ data)
      with ("data:" ++ ("image/" ++ ext) ++ ";base64," ++ data).
    rewrite Hm, Himg, Hsplit, Hmk, Hwr. reflexivity.
  - destruct (image_name_shape D prefix ext Hp Hu) as (c & body & Hname & Hc & Hbody).
    unfold uploads_handler, readFile, backslash in *. rewrite Hrd, lookup_written.
    rewrite Hname.
    assert (Hplain : plain (String c body) = true).
    { unfold plain. cbn. unfold plain in Hbody. now rewrite Hc, Hbody. }
    change (String c (body ++ "." ++ ext)) with (String c body ++ "." ++ ext).
    rewrite (includes_after_plain (String c body) _ "." "." Hplain eq_refl Hdd).
    rewrite (includes_after_plain (String c body) _ "/" EmptyString Hplain eq_refl Hsl).
    rewrite (includes_after_plain (String c body) _ (ascii_of_nat 92) EmptyString
               Hplain eq_refl Hbs).
    change (String c body ++ "." ++ ext) with (String c (body ++ "." ++ ext)).
    rewrite !(plain_first_char c _ _ Hc) by auto.
    cbn [orb]. unfold extname.
    rewrite (plain_first_char c _ ".." Hc) by auto.
    rewrite (from_last_dot_append body ext Hdot), Hct. reflexivity.
Qed.

Lemma saveImageToDisk_throw_keeps (D : disk) (s prefix : string) (files files' : uploads)
    (e : Error) :
  saveImageToDisk D s prefix files = (Thrown e, files') -> files' = files.
Proof.
  unfold saveImageToDisk. intros H.
  repeat match type of H with
         | (if ?b then _ else _) = _ => destruct b
         | match ?x with _ => _ end = _ => destruct x
         end; congruence.
Qed.

(** X30. The image step of [PUT /account-details] deletes the stored QR
    image before it looks at the new one: when the upload is then rejected
    (the handler answers 400), the old file is already gone from the disk
    and [GET /uploads] no longer serves it. *)
Theorem rejected_upload_still_deletes (D : disk) (old upiQrCode : string)
    (files files' : uploads) (e : Error) :
  old <> EmptyString ->
  lookup_file old files <> None ->
  unlink_fault D old = None ->
  blank upiQrCode = false ->
  replace_qr_code D (Some old) upiQrCode files = (Thrown e, files') ->
  files' = remove_file old files
  /\ lookup_file old files' = None
  /\ forall contentType content,
       uploads_handler D old files' <> Sent contentType content.
Proof.
  intros Hold Hthere Hunlink Hblank Hrun.
  unfold replace_qr_code in Hrun. rewrite Hblank in Hrun.
  destruct upiQrCode as [|c0 s0]; [discriminate Hblank|].
  cbn [truthy negb andb] in Hrun.
  destruct old as [|o old']; [contradiction|]. cbn [truthy or_else] in Hrun.
  unfold deleteImageFromDisk, unlink in Hrun. rewrite Hunlink in Hrun.
  cbn [truthy negb] in Hrun.
  destruct (lookup_file (String o old') files); [|contradiction].
  cbn [snd] in Hrun. apply saveImageToDisk_throw_keeps in Hrun. subst files'.
  split; [reflexivity|]. split; [apply lookup_removed|].
  intros contentType content. unfold uploads_handler, readFile.
  rewrite lookup_removed.
  destruct (includes _ ".." || includes _ "/" || includes _ backslash);
    [discriminate|].
  destruct ((String o old' =? "") || (String o old' =? ".")); [discriminate|].
  destruct (read_fault D (String o old')); discriminate.
Qed.

End OtpRoutes.

(** * Instances on the sample deployment *)

Lemma office_available : store_available office.
Proof. intros X q. reflexivity. Defined.

Lemma opening_in_past : created_in_past opening.
Proof. repeat constructor; cbn; lia. Defined.

Lemma office_sms (code phone : string) (p : string) :
  formatPhoneNumber phone = Normal p ->
  sms_outcome office code phone (Normal accepted).
Proof.
  intros Hp w. unfold sendOtpSms. cbn [run handle abind bind perform fst office
    deployment process_env String.eqb Ascii.eqb Bool.eqb orb truthy negb].
  rewrite Hp. reflexivity.
Defined.

Lemma office_mail (code email : string) :
  email_outcome office code email (Normal "message-1").
Proof. intros w. reflexivity. Defined.


Lemma gateway_down_sms (code : string) :
  sms_outcome gateway_down code "9876543210" (Thrown (mkError "connect ECONNREFUSED")).
Proof. intros w. reflexivity. Defined.

Lemma gateway_down_mail (code email : string) :
  email_outcome gateway_down code email
    (Thrown (mkError "Failed to send email: connect ECONNREFUSED")).
Proof. intros w. reflexivity. Defined.

Lemma opening_ids_fresh : ids_fresh (db opening).
Proof.
  split.
  - cbn. repeat constructor; cbn; intuition discriminate.
  - repeat constructor.
Defined.

Lemma verifier_checks_in_order_witness :
  (truthy (Some "9876543210") = true /\
   db_fault office _ (Q_latest_otp_by_phone "9876543210") = None /\
   ordered_checks office
     (serve (verify_handler
               {| vb_phone := Some "9876543210"; vb_email := None;
                  vb_code := "999999" |}))
     (latest (phone_rows "9876543210" (db opening))) "999999" opening) /\
  (db_fault office _ (Q_latest_otp_by_email (toLowerCase "Asha@Example.com")) = None /\
   ordered_checks office (serve (email_verify_handler "Asha@Example.com" "999999"))
     (latest (email_rows (toLowerCase "Asha@Example.com") (db opening)))
     "999999" opening).
Proof.
  destruct (verifier_checks_in_order office opening "999999") as (Hphone & _ & Hmail).
  split.
  - split; [reflexivity|]. split; [reflexivity|].
    exact (Hphone "9876543210" None eq_refl eq_refl).
  - split; [reflexivity|]. exact (Hmail "Asha@Example.com" eq_refl).
Defined.

Lemma failed_send_persists_nothing_witness :
  (sms_outcome gateway_down "482913" "9876543210"
     (Thrown (mkError "connect ECONNREFUSED")) /\
   truthy (Some "9876543210") = true /\
   phone_rows "9876543210" (db fresh_start) = [] /\
   db_fault gateway_down _ (Q_latest_otp_by_phone "9876543210") = None /\
   exists w',
     run gateway_down (serve (request_handler 5 "9876543210")) fresh_start
       = (replied 500 (Body_message "connect ECONNREFUSED"), w') /\
     db w' = db fresh_start /\
     forall email c t d,
       run gateway_down
         (serve (verify_handler
                   {| vb_phone := Some "9876543210"; vb_email := email; vb_code := c |}))
         (at_time t d w')
       = (replied 400 (Body_message "OTP not found"), at_time t d w')) /\
  (email_outcome gateway_down "482913" "Asha@Example.com"
     (Thrown (mkError "Failed to send email: connect ECONNREFUSED")) /\
   email_rows (toLowerCase "Asha@Example.com") (db fresh_start) = [] /\
   db_fault gateway_down _ (Q_latest_otp_by_email (toLowerCase "Asha@Example.com"))
     = None /\
   exists w',
     run gateway_down (serve (email_request_handler 5 "Asha@Example.com")) fresh_start
       = (replied 500 (Body_message "Failed to send email: connect ECONNREFUSED"), w') /\
     db w' = db fresh_start /\
     forall c t d,
       run gateway_down (serve (email_verify_handler "Asha@Example.com" c))
         (at_time t d w')
       = (replied 400 (Body_message "OTP not found"), at_time t d w')).
Proof.
  destruct (failed_send_persists_nothing 5 gateway_down fresh_start) as [Hphone Hmail].
  split.
  - split; [exact (gateway_down_sms "482913")|]. do 3 (split; [reflexivity|]).
    destruct (Hphone "9876543210" _ (gateway_down_sms "482913"))
      as (w' & Hrun & Hsame & Hnext).
    exists w'. split; [exact Hrun|]. split; [exact Hsame|].
    exact (Hnext eq_refl eq_refl eq_refl).
  - split; [exact (gateway_down_mail "482913" "Asha@Example.com")|].
    do 2 (split; [reflexivity|]).
    destruct (Hmail "Asha@Example.com" _ (gateway_down_mail "482913" "Asha@Example.com"))
      as (w' & Hrun & Hsame & Hnext).
    exists w'. split; [exact Hrun|]. split; [exact Hsame|].
    exact (Hnext eq_refl eq_refl).
Defined.

Lemma only_latest_code_verifies_witness :
  store_available office /\ created_in_past opening /\ (db_clock opening <= 3000)%Z /\
  truthy (Some "9876543210") = true /\
  sms_outcome office "482913" "9876543210" (Normal accepted) /\
  sms_outcome office "907154" "9876543210" (Normal accepted) /\
  exists exp1 w1 w2 r2,
    run office (serve (request_handler 5 "9876543210")) opening
      = (replied 200 (Body_issued exp1), w1) /\
    run office (serve (request_handler 5 "9876543210")) (at_time 3000 3000 w1)
      = (replied 200 (Body_issued 303000), w2) /\
    latest (phone_rows "9876543210" (db w2)) = Some r2 /\ otp_code r2 = "907154" /\
    (forall email,
       only_second_verifies office
         (fun c => serve (verify_handler
                            {| vb_phone := Some "9876543210"; vb_email := email;
                               vb_code := c |}))
         "482913" "907154" 303000 w2) /\
    (forall email,
       only_second_verifies office
         (fun c => serve (verify_handler
                            {| vb_phone := Some "9876543210"; vb_email := email;
                               vb_code := c |}))
         "482913" "907154" 303000
         (issues 5 office
            [Issue_phone "9123456780" 4000 4000;
             Issue_email "ravi@example.com" 4500 4500] w2)).
Proof.
  pose proof (office_sms "482913" "9876543210" _ eq_refl) as Hsms1.
  pose proof (office_sms "907154" "9876543210" _ eq_refl) as Hsms2.
  assert (Hclock : (db_clock opening <= 3000)%Z) by (cbn; lia).
  split; [exact office_available|]. split; [exact opening_in_past|].
  split; [exact Hclock|]. split; [reflexivity|].
  split; [exact Hsms1|]. split; [exact Hsms2|].
  destruct (proj1 (only_latest_code_verifies 5 office opening 3000 3000
                     office_available opening_in_past Hclock)
              "9876543210" accepted accepted eq_refl Hsms1 Hsms2)
    as (exp1 & w1 & w2 & r2 & Hrun1 & Hrun2 & Hlatest & Hcode & Hnow & _ & Hlater).
  exists exp1, w1, w2, r2.
  split; [exact Hrun1|]. split; [exact Hrun2|]. split; [exact Hlatest|].
  split; [exact Hcode|]. split; [exact Hnow|].
  intros email. apply Hlater.
  constructor; [discriminate|]. constructor; [exact I | constructor].
Defined.

Lemma request_stores_phone_as_submitted_witness :
  reply_code (fst (run office (serve (request_handler 5 "9876543210")) opening)) = 200 /\
  exists expiresAt,
    otp_codes (db (snd (run office (serve (request_handler 5 "9876543210")) opening)))
      = (otp_codes (db opening) ++
         [fresh_otp (Some "9876543210") None "482913" expiresAt 2000 (db opening)])%list.
Proof.
  split; [reflexivity|].
  exact (proj1 (request_stores_phone_as_submitted 5 office opening "9876543210" eq_refl)).
Defined.

Lemma sequential_create_user_converges_witness :
  store_available office /\
  users_with_email (toLowerCase "Asha@Example.com") (db fresh_start) = [] /\
  toLowerCase "asha@example.com" = toLowerCase "Asha@Example.com" /\
  exists r1 w1 r2 w2,
    run office (serve (create_user_handler "Asha@Example.com")) fresh_start = (r1, w1) /\
    run office (serve (create_user_handler "asha@example.com")) (at_time 9000 9000 w1)
      = (r2, w2) /\
    reply_code r1 = 201 /\ reply_code r2 = 200 /\
    reply_user_id r1 = Some "user-0" /\
    reply_user_id r2 = reply_user_id r1 /\
    length (users_with_email (toLowerCase "Asha@Example.com") (db w2)) = 1.
Proof.
  split; [exact office_available|]. do 2 (split; [reflexivity|]).
  exact (sequential_create_user_converges office fresh_start
           "Asha@Example.com" "asha@example.com" 9000 9000
           office_available eq_refl eq_refl).
Defined.

Lemma failed_verification_changes_nothing_witness :
  ids_fresh (db opening) /\
  verification_effect office
    (serve (verify_handler
              {| vb_phone := None; vb_email := Some "asha@example.com";
                 vb_code := "222222" |}))
    (at_time 1000 1000 opening) /\
  verification_effect office (serve (email_verify_handler "asha@example.com" "999999"))
    opening.
Proof.
  split; [exact opening_ids_fresh|].
  split.
  - exact (proj1 (failed_verification_changes_nothing office (at_time 1000 1000 opening)
                    opening_ids_fresh) _).
  - exact (proj2 (failed_verification_changes_nothing office opening opening_ids_fresh)
             _ _).
Defined.

Lemma createUser_survives_role_failure_witness :
  (forall i e h, db_fault office _ (Q_insert_user i e h) = None) /\
  (forall i f l p, db_fault office _ (Q_upsert_user_details i f l p) = None) /\
  users_with_email (toLowerCase (nu_email asha)) (db opening) = [] /\
  fst (run office (assignRole "user-0" (nu_role asha)) opening)
    = Thrown (mkError "Role 'managers' not found") /\
  exists u w',
    run office (createUser asha) opening = (Normal u, w') /\
    user_id u = "user-0" /\ user_email u = "asha@example.com" /\
    In u (users (db w')) /\
    log w' = ["Failed to assign role 'managers' to user user-0: Role 'managers' not found"].
Proof.
  split; [intros; reflexivity|]. split; [intros; reflexivity|].
  do 2 (split; [reflexivity|]).
  exact (createUser_survives_role_failure office opening asha
           (mkError "Role 'managers' not found")
           (fun _ _ _ => eq_refl) (fun _ _ _ _ => eq_refl) eq_refl eq_refl).
Defined.

Lemma verify_prefers_phone_witness :
  let b := {| vb_phone := Some "9876543210"; vb_email := Some "asha@example.com";
              vb_code := "222222" |} in
  verify_schema b = true /\ vb_phone b = Some "9876543210" /\
  run office (serve (verify_handler b)) opening
    = run office (serve (verify_handler (without_email b))) opening /\
  forall w',
    phone_rows "9876543210" (db w') = phone_rows "9876543210" (db opening) ->
    js_clock w' = js_clock opening ->
    fst (run office (serve (verify_handler b)) w')
      = fst (run office (serve (verify_handler b)) opening).
Proof.
  intros b. do 2 (split; [reflexivity|]).
  exact (verify_prefers_phone office opening b "9876543210" eq_refl eq_refl).
Defined.

(** ** Where the design document and the code differ *)

(** C5. A request for "9876543210" stores the identity "9876543210"; no
    record is stored under the normalised "919876543210", and verifying
    under that identity finds nothing. *)
Lemma stored_identity_is_not_normalised :
  let '(answer, w') := run office (serve (request_handler 5 "9876543210")) fresh_start in
  reply_code answer = 200 /\
  formatPhoneNumber "9876543210" = Normal "919876543210" /\
  map otp_phone (otp_codes (db w')) = [Some "9876543210"] /\
  phone_rows "919876543210" (db w') = [] /\
  fst (run office
         (serve (verify_handler
                   {| vb_phone := Some "919876543210"; vb_email := None;
                      vb_code := "482913" |})) w')
    = replied 400 (Body_message "OTP not found").
Proof. vm_compute. repeat split. Qed.

(** C7. Two [/create-user] calls for one new email whose lookups both run
    before either insert: with a unique constraint on the email the second
    caller is answered 500; without one, two rows are stored and the callers
    receive different ids. *)
Lemma concurrent_create_user_diverges :
  let h := serve (create_user_handler "asha@example.com") in
  (let '(r1, r2, w') := interleave office [true; false] h h fresh_start in
   reply_code r1 = 201 /\ reply_code r2 = 500 /\ reply_user_id r2 = None) /\
  (let '(r1, r2, w') :=
     interleave (deployment false (Normal {| status := 200; text := "ok" |})
                   (Normal "message-1") no_fault)
       [true; false] h h fresh_start in
   reply_code r1 = 201 /\ reply_code r2 = 201 /\
   reply_user_id r1 = Some "user-0" /\ reply_user_id r2 = Some "user-2" /\
   length (users_with_email "asha@example.com" (db w')) = 2).
Proof. vm_compute. repeat split. Qed.

(** C9. When the write to [user_details] is rejected, [createUser] throws:
    the users row has been stored, but it is not returned to the caller. *)
Lemma profile_failure_fails_createUser :
  let E := deployment true (Normal {| status := 200; text := "ok" |})
             (Normal "message-1") profile_down in
  let '(outcome, w') := run E (createUser asha) fresh_start in
  outcome = Thrown (mkError "user_details is not writable") /\
  length (users_with_email "asha@example.com" (db w')) = 1 /\
  log w' = [].
Proof. vm_compute. repeat split. Qed.

(** ** The scenarios of the design document, run *)

Example expired_and_wrong_code_is_expired :
  fst (run office (serve (email_verify_handler "Asha@Example.com" "999999")) opening)
  = replied 400 (Body_message "OTP expired").
Proof. reflexivity. Qed.

Example used_record_short_circuits :
  fst (run office
         (serve (verify_handler
                   {| vb_phone := Some "9876543210"; vb_email := None;
                      vb_code := "111111" |})) opening)
  = replied 400 (Body_message "OTP already used").
Proof. reflexivity. Qed.

Example email_scenario_expires :
  let '(issued, w1) :=
    run office (serve (email_request_handler 5 "user@example.com")) fresh_start in
  issued = replied 200 (Body_issued 302000) /\
  fst (run office (serve (email_verify_handler "user@example.com" "482913"))
         (at_time (2000 + 6 * 60 * 1000) 362000 w1))
    = replied 400 (Body_message "OTP expired").
Proof. vm_compute. split; reflexivity. Qed.

Example phone_scenario_as_submitted :
  let '(_, w1) := run office (serve (request_handler 5 "9876543210")) fresh_start in
  let verify := serve (verify_handler
                         {| vb_phone := Some "9876543210"; vb_email := None;
                            vb_code := "482913" |}) in
  let '(first, w2) := run office verify (at_time 200000 200000 w1) in
  first = replied 200 Body_success /\
  fst (run office verify (at_time 200001 200001 w2))
    = replied 400 (Body_message "OTP already used").
Proof. vm_compute. split; reflexivity. Qed.

(** ** Instances of the further properties *)

Lemma store_flaky_sms (code phone : string) (p : string) :
  formatPhoneNumber phone = Normal p ->
  sms_outcome store_flaky code phone (Normal accepted).
Proof.
  intros Hp w. unfold sendOtpSms. cbn [run handle abind bind perform fst store_flaky
    deployment process_env String.eqb Ascii.eqb Bool.eqb orb truthy negb].
  rewrite Hp. reflexivity.
Defined.

Lemma waiting_in_past : created_in_past waiting.
Proof. repeat constructor; cbn; lia. Defined.

Lemma sent_code_may_go_unstored_witness :
  sms_outcome store_flaky "482913" "9876543210" (Normal accepted) /\
  db_fault store_flaky _ (Q_insert_otp_phone "9876543210" "482913" 302000)
    = Some (mkError "connection terminated unexpectedly") /\
  fst (run store_flaky (serve (request_handler 5 "9876543210")) fresh_start)
    = replied 500 (Body_message "connection terminated unexpectedly") /\
  db (snd (run store_flaky (serve (request_handler 5 "9876543210")) fresh_start))
    = db fresh_start /\
  exists digits,
    outbound store_flaky (serve (request_handler 5 "9876543210")) fresh_start
      = [Call_fetch (gateway_url store_flaky) (gateway_key store_flaky)
           (gateway_payload store_flaky "482913" digits)].
Proof.
  pose proof (store_flaky_sms "482913" "9876543210" _ eq_refl) as Hsms.
  split; [exact Hsms|]. split; [reflexivity|].
  exact (sent_code_may_go_unstored 5 store_flaky fresh_start "9876543210" accepted
           (mkError "connection terminated unexpectedly") Hsms eq_refl).
Defined.

Lemma issued_code_expires_witness :
  store_available office /\ created_in_past opening /\
  truthy (Some "9876543210") = true /\
  sms_outcome office "482913" "9876543210" (Normal accepted) /\
  (302001 > 2000 + 5 * 60 * 1000)%Z /\
  let issued := snd (run office (serve (request_handler 5 "9876543210")) opening) in
  run office
    (serve (verify_handler
              {| vb_phone := Some "9876543210"; vb_email := None; vb_code := "482913" |}))
    (at_time 302001 302001 issued)
  = (replied 400 (Body_message "OTP expired"), at_time 302001 302001 issued).
Proof.
  pose proof (office_sms "482913" "9876543210" _ eq_refl) as Hsms.
  split; [exact office_available|]. split; [exact opening_in_past|].
  split; [reflexivity|]. split; [exact Hsms|]. split; [reflexivity|].
  exact (proj1 (issued_code_expires 5 office opening office_available opening_in_past)
           "9876543210" accepted eq_refl Hsms None 302001%Z 302001%Z eq_refl).
Defined.

Lemma email_identity_ignores_case_witness :
  store_available office /\ created_in_past opening /\
  toLowerCase "ASHA@example.COM" = toLowerCase "Asha@Example.com" /\
  email_outcome office "482913" "Asha@Example.com" (Normal "message-1") /\
  verifies_exactly_once office
    (fun c => serve (email_verify_handler "ASHA@example.COM" c))
    (fun d => latest (email_rows (toLowerCase "Asha@Example.com") d)) "482913"
    (2000 + 5 * 60 * 1000)%Z
    (snd (run office (serve (email_request_handler 5 "Asha@Example.com")) opening)).
Proof.
  pose proof (office_mail "482913" "Asha@Example.com") as Hmail.
  split; [exact office_available|]. split; [exact opening_in_past|].
  split; [reflexivity|]. split; [exact Hmail|].
  exact (email_identity_ignores_case 5 office opening "Asha@Example.com"
           "ASHA@example.COM" "message-1" office_available opening_in_past
           eq_refl Hmail).
Defined.

Lemma wrong_guesses_change_nothing_witness :
  store_available office /\
  latest (phone_rows "9876543210" (db waiting))
    = Some {| otp_id := 2; otp_phone := Some "9876543210"; otp_email := None;
              otp_code := "482913"; otp_expires_at := 302000;
              otp_used := false; otp_created_at := 2000 |} /\
  let (answers, w') :=
    guesses office (verify_by_phone "9876543210")
      [("000000", 2500%Z); ("482914", 2600%Z); ("0000", 400000%Z)] waiting in
  db w' = db waiting /\
  length answers = 3 /\
  Forall (fun a => reply_code a = 400) answers /\
  fst (run office (verify_by_phone "9876543210" "482913") (at_time 3000 3000 w'))
    = replied 200 Body_success.
Proof.
  split; [exact office_available|]. split; [reflexivity|].
  pose proof (wrong_guesses_change_nothing office waiting "9876543210" _
                [("000000", 2500%Z); ("482914", 2600%Z); ("0000", 400000%Z)]
                office_available eq_refl eq_refl) as H.
  cbv beta in H.
  destruct (guesses office (verify_by_phone "9876543210")
              [("000000", 2500%Z); ("482914", 2600%Z); ("0000", 400000%Z)] waiting)
    as [answers w'].
  destruct H as (Hdb & Hlen & Hall & Hnext).
  - repeat constructor; cbn; discriminate.
  - split; [exact Hdb|]. split; [exact Hlen|]. split; [exact Hall|].
    apply (Hnext eq_refl 3000%Z 3000%Z). cbn. lia.
Defined.

Lemma overlapping_verifications_both_succeed_witness :
  store_available office /\
  (js_clock waiting <= 302000)%Z /\
  let verify email :=
    serve (verify_handler
             {| vb_phone := Some "9876543210"; vb_email := email; vb_code := "482913" |}) in
  let '(first, second, w') :=
    interleave office [true; false] (verify None) (verify (Some "asha@example.com"))
      waiting in
  first = replied 200 Body_success /\ second = replied 200 Body_success.
Proof.
  split; [exact office_available|]. split; [cbn; lia|].
  pose proof (overlapping_verifications_both_succeed office waiting "9876543210" _
                None (Some "asha@example.com") office_available eq_refl eq_refl eq_refl) as H.
  cbv beta zeta in H. cbv zeta.
  destruct (interleave office [true; false] _ _ waiting) as [[first second] w'].
  destruct H as (H1 & H2 & _); [cbn; lia|]. split; assumption.
Defined.

Lemma assignRole_then_getUserRoles_witness :
  store_available office /\
  run office (assignRole "user-0" "admins") fresh_start
    = (Thrown (mkError "Role 'admins' not found"), fresh_start) /\
  exists w1 names,
    run office (assignRole "user-0" "managers") fresh_start = (Normal tt, w1) /\
    run office (getUserRoles "user-0") w1 = (Normal names, w1) /\
    In "managers" names /\
    run office (assignRole "user-0" "managers") w1 = (Normal tt, w1).
Proof.
  split; [exact office_available|]. split.
  - exact (proj1 (assignRole_then_getUserRoles office fresh_start "user-0" "admins"
                    office_available) eq_refl).
  - apply (proj2 (assignRole_then_getUserRoles office fresh_start "user-0" "managers"
                    office_available)).
    cbn. discriminate.
Defined.




Lemma createUser_then_lookup_witness :
  store_available office /\
  users_with_email (toLowerCase (nu_email asha)) (db fresh_start) = [] /\
  toLowerCase "ASHA@EXAMPLE.COM" = toLowerCase (nu_email asha) /\
  exists u w' names,
    run office (createUser asha) fresh_start = (Normal u, w') /\
    run office (findUserByEmail "ASHA@EXAMPLE.COM") w' = (Normal (Some u), w') /\
    run office (getUserRoles (user_id u)) w' = (Normal names, w') /\
    In "managers" names.
Proof.
  split; [exact office_available|]. split; [reflexivity|]. split; [reflexivity|].
  destruct (createUser_then_lookup office fresh_start asha "ASHA@EXAMPLE.COM"
              office_available eq_refl eq_refl)
    as (u & w' & names & Hrun & Hfind & _ & Hroles & Hin).
  exists u, w', names. repeat split; try assumption.
  apply Hin. cbn. discriminate.
Defined.

Lemma register_refuses_existing_email_witness :
  let w := snd (run office (createUser asha) fresh_start) in
  run office (serve (register_handler asha_registers)) w
    = (replied 409 (Body_message "Email already registered"), w).
Proof.
  exact (register_refuses_existing_email office
           (snd (run office (createUser asha) fresh_start)) asha_registers
           {| user_id := "user-0"; user_email := "asha@example.com";
              user_password_hash := "hash:user-12000"; user_status := "active";
              user_created_at := 2000; user_updated_at := 2000;
              user_last_login_at := None |}
           eq_refl (or_introl eq_refl) eq_refl).
Defined.

Lemma register_then_again_witness :
  store_available office /\
  users_with_email (toLowerCase (rb_email asha_registers)) (db fresh_start) = [] /\
  exists r1 w1 u,
    run office (serve (register_handler asha_registers)) fresh_start = (r1, w1) /\
    reply_code r1 = 201 /\ reply_user_id r1 = Some (user_id u) /\
    user_password_hash u = "hash:s3cret-word" /\
    run office (serve (register_handler asha_registers)) (at_time 5000 5000 w1)
      = (replied 409 (Body_message "Email already registered"), at_time 5000 5000 w1).
Proof.
  split; [exact office_available|]. split; [reflexivity|].
  destruct (register_then_again office fresh_start asha_registers
              office_available eq_refl eq_refl)
    as (r1 & w1 & u & Hrun & Hcode & Hid & _ & _ & Hhash & Hagain & _).
  exists r1, w1, u. repeat split; try assumption.
  exact (Hagain asha_registers 5000%Z 5000%Z eq_refl).
Defined.

Lemma sequential_create_user_phone_converges_witness :
  formattedPhone_of "+91 98765-43210" = formattedPhone_of "98765 43210" /\
  truthy (Some (formattedPhone_of "98765 43210")) = true /\
  exists r1 w1 r2 w2 u,
    tserve (fun r => (r, None))
      (create_user_phone_handler office office_annex "98765 43210") fresh_start
      = (r1, w1) /\
    tserve (fun r => (r, None))
      (create_user_phone_handler office office_annex "+91 98765-43210")
      (at_time 5000 5000 w1) = (r2, w2) /\
    reply_code (fst r1) = 201 /\ snd r1 = Some "919876543210" /\
    reply_code (fst r2) = 200 /\
    reply_user_id (fst r1) = Some "user-0" /\ reply_user_id (fst r2) = Some "user-0" /\
    length (users_with_phone "919876543210" (db w2)) = 1 /\
    users (db w1) = [u] /\
    user_id u = "user-0" /\
    user_email u = "phone_919876543210@hissabbook.temp" /\
    users_with_email "phone_919876543210@hissabbook.temp" (db w1) = [u] /\
    users_with_phone "919876543210" (db w1) = [u].
Proof.
  split; [reflexivity|]. split; [reflexivity|].
  exact (sequential_create_user_phone_converges office office_annex fresh_start
           "98765 43210" "+91 98765-43210" 5000%Z 5000%Z
           office_available eq_refl eq_refl eq_refl eq_refl eq_refl (Forall_nil _)).
Defined.

Lemma digitless_phone_account_is_lost_witness :
  strip_non_digits "not given" = EmptyString /\
  strip_non_digits "(unknown)" = EmptyString /\
  exists r1 w1 w2,
    tserve (fun r => (r, None))
      (create_user_phone_handler office office_annex "not given") fresh_start = (r1, w1) /\
    reply_code (fst r1) = 201 /\ snd r1 = Some EmptyString /\
    length (users_with_email "phone_@hissabbook.temp" (db w1)) = 1 /\
    tserve (fun r => (r, None))
      (create_user_phone_handler office office_annex "(unknown)") (at_time 5000 5000 w1)
      = ((replied 500 (Body_message "duplicate key value violates unique constraint"),
          None), w2) /\
    db w2 = db w1.
Proof.
  split; [reflexivity|]. split; [reflexivity|].
  exact (digitless_phone_account_is_lost office office_annex fresh_start
           "not given" "(unknown)"
           5000%Z 5000%Z office_available eq_refl eq_refl eq_refl eq_refl eq_refl
           eq_refl).
Defined.

Lemma login_failures_alike_witness :
  let w := snd (run office (serve (register_handler asha_registers)) fresh_start) in
  tserve (fun r => r) (login_handler office office_annex "nobody@example.com" "s3cret-word") w
    = (replied 401 (Body_message "Invalid email or password"), w) /\
  tserve (fun r => r) (login_handler office office_annex "asha@example.com" "secret-word") w
    = (replied 401 (Body_message "Invalid email or password"), w).
Proof.
  split.
  - exact (login_failures_alike office office_annex
             (snd (run office (serve (register_handler asha_registers)) fresh_start))
             "nobody@example.com" "s3cret-word" eq_refl I).
  - exact (login_failures_alike office office_annex
             (snd (run office (serve (register_handler asha_registers)) fresh_start))
             "asha@example.com" "secret-word" eq_refl eq_refl).
Defined.

Lemma register_then_login_witness :
  store_available office /\
  password_matches office_annex "s3cret-word" (hash_of office "s3cret-word") = true /\
  let (r1, w1) := run office (serve (register_handler asha_registers)) fresh_start in
  let (r2, w2) :=
    tserve (fun r => r) (login_handler office office_annex "ASHA@EXAMPLE.COM" "s3cret-word")
      (at_time 5000 5000 w1) in
  reply_code r1 = 201 /\ reply_code r2 = 200 /\
  reply_user_id r2 = reply_user_id r1 /\
  exists u,
    users_with_email (toLowerCase (rb_email asha_registers)) (db w2) = [u] /\
    reply_user_id r2 = Some (user_id u) /\
    user_last_login_at u = Some 5000%Z.
Proof.
  split; [exact office_available|]. split; [reflexivity|].
  exact (register_then_login office office_annex fresh_start asha_registers
           "ASHA@EXAMPLE.COM" 5000%Z 5000%Z office_available eq_refl eq_refl eq_refl
           eq_refl).
Defined.

Lemma migrations_folder_distinct : NoDup (map entry_name migrations_folder).
Proof. repeat constructor; cbn; intuition discriminate. Defined.

Lemma runMigrations_applies_a_prefix_witness :
  directory (migration_scripts true) = Normal migrations_folder /\
  NoDup (map entry_name migrations_folder) /\
  runMigrations (migration_scripts true) empty_store
    = (Thrown (mkError "syntax error at or near CREAT"),
       {| schema_migrations := ["001_init.sql"];
          committed := ["-- 001_init.sql"];
          console := [Applying "001_init.sql"; Applied "001_init.sql";
                      Applying "002_users.sql"; Failed "002_users.sql";
                      Error_message "syntax error at or near CREAT"] |}) /\
  exists done rest sqls,
    pending (loadMigrationFiles migrations_folder) [] = (done ++ rest)%list
    /\ ["001_init.sql"] = ([] ++ done)%list
    /\ ["-- 001_init.sql"] = ([] ++ sqls)%list
    /\ rest <> [].
Proof.
  split; [reflexivity|]. split; [exact migrations_folder_distinct|].
  split; [reflexivity|].
  destruct (runMigrations_applies_a_prefix (migration_scripts true) migrations_folder
              empty_store _ _ eq_refl migrations_folder_distinct eq_refl)
    as (done & rest & sqls & Hp & Hs & Hc & _ & _ & Hr).
  exists done, rest, sqls. repeat split; assumption.
Defined.

Lemma runMigrations_again_applies_nothing_witness :
  let st1 := snd (runMigrations (migration_scripts false) empty_store) in
  fst (runMigrations (migration_scripts false) empty_store) = Normal tt /\
  schema_migrations st1 = ["001_init.sql"; "002_users.sql"] /\
  exists st2,
    runMigrations (migration_scripts true) st1 = (Normal tt, st2)
    /\ schema_migrations st2 = schema_migrations st1
    /\ committed st2 = committed st1.
Proof.
  split; [reflexivity|]. split; [reflexivity|].
  exact (runMigrations_again_applies_nothing (migration_scripts false)
           (migration_scripts true) empty_store _ eq_refl eq_refl).
Defined.

Lemma saved_image_is_served_witness :
  In ("jpg", "image/jpeg") image_types /\
  plain "qr-code" = true /\ plain (randomUUID office_disk) = true /\
  base64_text "iVBORw0KGgo=" = true /\
  exists files',
    saveImageToDisk office_disk "data:image/jpg;base64,iVBORw0KGgo=" "qr-code" []
      = (Normal (Some "qr-code-1700000000000-3f2a9c1e-7b4d-4e2a-9f10-5c6d7e8f9a0b.jpg"),
         files')
    /\ uploads_handler office_disk
         "qr-code-1700000000000-3f2a9c1e-7b4d-4e2a-9f10-5c6d7e8f9a0b.jpg" files'
       = Sent "image/jpeg" "decoded:iVBORw0KGgo=".
Proof.
  split; [right; left; reflexivity|]. do 3 (split; [reflexivity|]).
  exact (saved_image_is_served office_disk "qr-code" "jpg" "image/jpeg" "iVBORw0KGgo=" []
           (or_intror (or_introl eq_refl)) eq_refl eq_refl
           (fun H => match H with eq_refl => I end) eq_refl eq_refl eq_refl eq_refl).
Defined.

Lemma rejected_upload_still_deletes_witness :
  let files := [("qr-code-1-old.png", "old image")] in
  lookup_file "qr-code-1-old.png" files <> None /\
  blank "images/new.png" = false /\
  replace_qr_code office_disk (Some "qr-code-1-old.png") "images/new.png" files
    = (Thrown (mkError "Invalid image format. Expected data URL or filename."), []) /\
  lookup_file "qr-code-1-old.png" [] = None /\
  forall contentType content,
    uploads_handler office_disk "qr-code-1-old.png" [] <> Sent contentType content.
Proof.
  cbv zeta.
  assert (Hthere : lookup_file "qr-code-1-old.png" [("qr-code-1-old.png", "old image")]
                   <> None) by discriminate.
  split; [exact Hthere|]. split; [reflexivity|]. split; [reflexivity|].
  exact (proj2 (rejected_upload_still_deletes office_disk "qr-code-1-old.png"
                  "images/new.png" [("qr-code-1-old.png", "old image")] []
                  (mkError "Invalid image format. Expected data URL or filename.")
                  (fun H => match H with eq_refl => I end) Hthere eq_refl eq_refl
                  eq_refl)).
Defined.

